(** * A shallow embedding of [todo_app.py]

    The record engine (id assignment, lookup, create / update / complete /
    delete, listing) and the store (load / save of [todos.json]) of the
    single-file to-do application, with the properties of its specification
    stated and proved over the embedding.

    Conventions of the embedding.
    - A Python [str] is a [string]; a character is a code point below 256,
      so [str.strip] and the [\d] of the [strptime] regular expressions are
      modelled on that range.
    - A Python [int] is a [Z].
    - Every exception the modelled code raises itself is a [ValueError]; the
      constructors of [ValueError] below tell its messages apart.
    - The list [todos] holds references to distinct [Todo] objects.  An
      object is identified by its position in the list, and an attribute
      assignment through a reference is an update of the list at that
      position. *)

From Stdlib Require Import ZArith List String Ascii Bool Lia Permutation Sorted.
From stdpp Require Import base option list strings.

Set Warnings "-register-all".

Local Open Scope string_scope.
Local Open Scope list_scope.
Local Open Scope Z_scope.

(** ** Python strings *)

Module PyStr.

Definition ord (c : ascii) : Z := Z.of_N (N_of_ascii c).

(** [str.isspace] on one character: the code points 9-13, 28-32, 133 and
    160 are the white space below 256. *)
Definition isspace (c : ascii) : bool :=
  let n := ord c in
  ((9 <=? n) && (n <=? 13)) || ((28 <=? n) && (n <=? 32))
  || (n =? 133) || (n =? 160).

Fixpoint lstrip (s : string) : string :=
  match s with
  | EmptyString => EmptyString
  | String c s' => if isspace c then lstrip s' else s
  end.

Fixpoint rstrip (s : string) : string :=
  match s with
  | EmptyString => EmptyString
  | String c s' =>
      match rstrip s' with
      | EmptyString => if isspace c then EmptyString else String c EmptyString
      | r => String c r
      end
  end.

(** [s.strip()] *)
Definition strip (s : string) : string := rstrip (lstrip s).

(** Truth value of a string: [not s] holds of the empty string only. *)
Definition truthy (s : string) : bool :=
  match s with EmptyString => false | _ => true end.

Fixpoint all_space (s : string) : bool :=
  match s with
  | EmptyString => true
  | String c s' => isspace c && all_space s'
  end.

Definition first_char (s : string) : option ascii :=
  match s with EmptyString => None | String c _ => Some c end.

Fixpoint last_char (s : string) : option ascii :=
  match s with
  | EmptyString => None
  | String c EmptyString => Some c
  | String _ s' => last_char s'
  end.

(** No white space at either end. *)
Definition trimmed (s : string) : Prop :=
  (forall c, first_char s = Some c -> isspace c = false) /\
  (forall c, last_char s = Some c -> isspace c = false).

Definition isdigit (c : ascii) : bool := (48 <=? ord c) && (ord c <=? 57).

Definition digit_value (c : ascii) : Z := ord c - 48.

(** [int(text)] on the texts the date groups can match: decimal digits,
    after the leading blanks that [int] skips. *)
Fixpoint int_digits (acc : Z) (s : string) : Z :=
  match s with
  | EmptyString => acc
  | String c s' => int_digits (10 * acc + digit_value c) s'
  end.

Definition int (s : string) : Z := int_digits 0 (lstrip s).

End PyStr.

(** ** Exceptions and results *)

Inductive ValueError : Type :=
| NotFound                          (* "To-do not found." *)
| NoFormatMatch (data : string)     (* "time data %r does not match format %r" *)
| UnconvertedData (rest : string)   (* "unconverted data remains: %s" *)
| DateOutOfRange                    (* raised by [date(year, month, day)] *)
| NotInList.                        (* "list.remove(x): x not in list" *)

Inductive result (A : Type) : Type :=
| Returned (a : A)
| Raised (e : ValueError).
Arguments Returned {A} a.
Arguments Raised {A} e.

(** ** Calendar dates and [datetime.strptime(_, "%Y-%m-%d")] *)

Module PyDate.

Record date : Type := mkdate { year : Z; month : Z; day : Z }.

Definition is_leap (y : Z) : bool :=
  (y mod 4 =? 0) && (negb (y mod 100 =? 0) || (y mod 400 =? 0)).

Definition DAYS_IN_MONTH : list Z :=
  [-1; 31; 28; 31; 30; 31; 30; 31; 31; 30; 31; 30; 31].

Definition days_in_month (y m : Z) : Z :=
  if (m =? 2) && is_leap y then 29 else nth (Z.to_nat m) DAYS_IN_MONTH (-1).

Definition MINYEAR : Z := 1.
Definition MAXYEAR : Z := 9999.

(** The constructor [date(year, month, day)] with its range checks. *)
Definition make (y m d : Z) : result date :=
  if negb ((MINYEAR <=? y) && (y <=? MAXYEAR)) then Raised DateOutOfRange
  else if negb ((1 <=? m) && (m <=? 12)) then Raised DateOutOfRange
  else if negb ((1 <=? d) && (d <=? days_in_month y m)) then Raised DateOutOfRange
  else Returned (mkdate y m d).

(** [date.max] *)
Definition max : date := mkdate 9999 12 31.

(** Dates compare as the triples (year, month, day). *)
Definition ltb (a b : date) : bool :=
  (year a <? year b)
  || ((year a =? year b)
      && ((month a <? month b)
          || ((month a =? month b) && (day a <? day b)))).

Definition eqb (a b : date) : bool :=
  (year a =? year b) && (month a =? month b) && (day a =? day b).

(** *** The regular expression of the format

    [_strptime] compiles ["%Y-%m-%d"] to
    [(?P<Y>\d\d\d\d)-(?P<m>1[0-2]|0[1-9]|[1-9])-(?P<d>3[0-1]|[1-2]\d|0[1-9]|[1-9]| [1-9])]
    and applies it with [match]: anchored at the start, alternatives tried
    in order with backtracking, not anchored at the end.  A matcher maps
    the input to the list of its ways to match a prefix, in the order in
    which backtracking tries them, each with the matched text and the
    rest of the input. *)

Definition matcher : Type := string -> list (string * string).

Definition between (lo hi : ascii) (c : ascii) : bool :=
  (PyStr.ord lo <=? PyStr.ord c) && (PyStr.ord c <=? PyStr.ord hi).

Definition chr (c0 : ascii) (c : ascii) : bool := Ascii.eqb c c0.

Definition one (p : ascii -> bool) : matcher := fun s =>
  match s with
  | String a r => if p a then [(String a "", r)] else []
  | _ => []
  end.

Definition two (p q : ascii -> bool) : matcher := fun s =>
  match s with
  | String a (String b r) =>
      if p a && q b then [(String a (String b ""), r)] else []
  | _ => []
  end.

Definition four (p : ascii -> bool) : matcher := fun s =>
  match s with
  | String a (String b (String c (String d r))) =>
      if p a && p b && p c && p d
      then [(String a (String b (String c (String d ""))), r)] else []
  | _ => []
  end.

Definition alt (f g : matcher) : matcher := fun s => f s ++ g s.

Definition re_Y : matcher := four PyStr.isdigit.

Definition re_m : matcher :=
  alt (two (chr "1") (between "0" "2"))
 (alt (two (chr "0") (between "1" "9"))
      (one (between "1" "9"))).

Definition re_d : matcher :=
  alt (two (chr "3") (between "0" "1"))
 (alt (two (between "1" "2") PyStr.isdigit)
 (alt (two (chr "0") (between "1" "9"))
 (alt (one (between "1" "9"))
      (two (chr " ") (between "1" "9"))))).

Definition hyphen : matcher := one (chr "-").

(** All the ways the whole expression matches a prefix of [s], in
    backtracking order: the three groups and the unmatched rest. *)
Definition matches (s : string) : list (string * string * string * string) :=
  '(Y, r1) ← re_Y s;
  '(_, r2) ← hyphen r1;
  '(m, r3) ← re_m r2;
  '(_, r4) ← hyphen r3;
  '(d, r5) ← re_d r4;
  [(Y, m, d, r5)].

(** [datetime.strptime(data_string, "%Y-%m-%d").date()] *)
Definition strptime (data_string : string) : result date :=
  match head (matches data_string) with
  | None => Raised (NoFormatMatch data_string)
  | Some (Y, m, d, rest) =>
      if PyStr.truthy rest then Raised (UnconvertedData rest)
      else make (PyStr.int Y) (PyStr.int m) (PyStr.int d)
  end.

End PyDate.


(** ** The record *)

Module Todo.

(** The dataclass [Todo], with the field types of its annotations. *)
Record t : Type := mk {
  id : Z;
  title : string;
  description : string;
  due_date : option string;      (* "YYYY-MM-DD" or None *)
  completed : bool;
  created_at : string
}.

(** Attribute assignments. *)
Definition set_title (v : string) (self : t) : t :=
  mk (id self) v (description self) (due_date self) (completed self) (created_at self).
Definition set_description (v : string) (self : t) : t :=
  mk (id self) (title self) v (due_date self) (completed self) (created_at self).
Definition set_due_date (v : option string) (self : t) : t :=
  mk (id self) (title self) (description self) v (completed self) (created_at self).
Definition set_completed (v : bool) (self : t) : t :=
  mk (id self) (title self) (description self) (due_date self) v (created_at self).

(** The [__eq__] that [@dataclass] generates: the tuples of the fields
    are compared. *)
Definition eqb (a b : t) : bool :=
  (id a =? id b)
  && String.eqb (title a) (title b)
  && String.eqb (description a) (description b)
  && match due_date a, due_date b with
     | None, None => true
     | Some x, Some y => String.eqb x y
     | _, _ => false
     end
  && Bool.eqb (completed a) (completed b)
  && String.eqb (created_at a) (created_at b).

Definition due_as_date (self : t) : option PyDate.date :=
  match due_date self with
  | None => None
  | Some s =>
      if negb (PyStr.truthy s) then None
      else match PyDate.strptime s with
           | Returned d => Some d
           | Raised _ => None
           end
  end.

End Todo.

Abbreviation Todo := Todo.t.

(** ** The store *)

(** What [json.load] returns and [json.dump] takes.  The entries of a
    [PDict] stand for a Python dict: their keys are distinct. *)
Inductive pyval : Type :=
| PNone
| PBool (b : bool)
| PInt (n : Z)
| PFloat (repr : string)
| PStr (s : string)
| PList (items : list pyval)
| PDict (entries : list (string * pyval)).

(** The backing file as [json.load] sees it.  [Garbled]: the file is
    there and [json.load] rejects its text, as no JSON document
    ([JSONDecodeError]) or as bytes that do not decode (a [ValueError]).
    [Json v]: [json.load] returns the value [v].  [json.dump] followed by
    [json.load] gives back the value dumped, for the values a list of
    [asdict] records is made of.

    The file system is taken to let [todos.json] be read and written.  Two
    kinds of file are therefore not represented: a file that cannot be
    opened (its [OSError] is caught in [load_todos], but not in
    [save_todos]), and a document on which [json.load] raises an exception
    that the [except] clause of [load_todos] does not name, as the
    [RecursionError] of a document nested deeper than the interpreter
    allows: that exception leaves [load_todos] and ends the process.  Such
    a document is no [Json v], for [json.load] does not return on it. *)
Inductive file_content : Type :=
| Garbled
| Json (v : pyval).

(** The file system, as far as the program goes: [todos.json], absent or
    with a content, and the number of times it has been written. *)
Record world : Type := mkworld {
  data_file : option file_content;
  writes : nat
}.

(** What [Todo] called with the entries of [item] as keywords builds: no
    field is checked against its annotation. *)
Record DynTodo : Type := mkDyn {
  dyn_id : pyval;
  dyn_title : pyval;
  dyn_description : pyval;
  dyn_due_date : pyval;
  dyn_completed : pyval;
  dyn_created_at : pyval
}.

Definition FIELDS : list string :=
  ["id"; "title"; "description"; "due_date"; "completed"; "created_at"].

Fixpoint dict_get (d : list (string * pyval)) (k : string) : option pyval :=
  match d with
  | [] => None
  | (k', v) :: d' => if String.eqb k' k then Some v else dict_get d' k
  end.

(** [Todo] called with the entries of [item] as keywords: [None] stands for the [TypeError] of an argument that
    is no mapping, of an unexpected keyword and of a missing positional
    argument. *)
Definition Todo_init (item : pyval) : option DynTodo :=
  match item with
  | PDict kw =>
      if forallb (fun e => existsb (String.eqb (fst e)) FIELDS) kw then
        match dict_get kw "id", dict_get kw "title", dict_get kw "description" with
        | Some i, Some ti, Some de =>
            Some (mkDyn i ti de
                    (default PNone (dict_get kw "due_date"))
                    (default (PBool false) (dict_get kw "completed"))
                    (default (PStr "") (dict_get kw "created_at")))
        | _, _, _ => None
        end
      else None
  | _ => None
  end.

(** [for item in raw]: [None] stands for the [TypeError] of a value that
    cannot be iterated.  A string yields its characters, a dict its keys. *)
Definition iterate (raw : pyval) : option (list pyval) :=
  match raw with
  | PList items => Some items
  | PStr s => Some (map (fun c => PStr (String c "")) (list_ascii_of_string s))
  | PDict entries => Some (map (fun e => PStr (fst e)) entries)
  | _ => None
  end.

Definition WARNING : string :=
  "Warning: Could not read todos.json. Starting with an empty list.".

(** [load_todos()]: the list built and the lines printed, on the files
    that [file_content] represents: there [json.load] returns, or raises
    an error of the [except] clause. *)
Definition load_todos (w : world) : list DynTodo * list string :=
  match data_file w with
  | None => ([], [])
  | Some Garbled => ([], [WARNING])
  | Some (Json raw) =>
      match iterate raw with
      | None => ([], [WARNING])
      | Some items =>
          match mapM Todo_init items with
          | Some todos => (todos, [])
          | None => ([], [WARNING])
          end
      end
  end.

(** [asdict(t)] *)
Definition asdict (t : Todo) : pyval :=
  PDict [("id", PInt (Todo.id t));
         ("title", PStr (Todo.title t));
         ("description", PStr (Todo.description t));
         ("due_date", match Todo.due_date t with Some s => PStr s | None => PNone end);
         ("completed", PBool (Todo.completed t));
         ("created_at", PStr (Todo.created_at t))].

(** [save_todos(todos)]: the file is rewritten as a whole.  The file
    system is taken to let it be written: an [OSError] of [open], which
    [save_todos] would not catch, is not represented. *)
Definition save_todos (todos : list Todo) (w : world) : world :=
  mkworld (Some (Json (PList (map asdict todos)))) (S (writes w)).

(** A typed record seen as the object that constructor call builds. *)
Definition dyn (t : Todo) : DynTodo :=
  mkDyn (PInt (Todo.id t)) (PStr (Todo.title t)) (PStr (Todo.description t))
        (match Todo.due_date t with Some s => PStr s | None => PNone end)
        (PBool (Todo.completed t)) (PStr (Todo.created_at t)).

(** The record a loaded object is, when its fields have the annotated types. *)
Definition typed (d : DynTodo) : option Todo :=
  match dyn_id d, dyn_title d, dyn_description d, dyn_completed d, dyn_created_at d with
  | PInt i, PStr ti, PStr de, PBool c, PStr cr =>
      match dyn_due_date d with
      | PNone => Some (Todo.mk i ti de None c cr)
      | PStr s => Some (Todo.mk i ti de (Some s) c cr)
      | _ => None
      end
  | _, _, _, _, _ => None
  end.

(** ** The record engine *)

(** [max(xs, default=d)]: the default is the result for no element only. *)
Definition py_max (xs : list Z) (default : Z) : Z :=
  match xs with
  | [] => default
  | x :: rest => fold_left Z.max rest x
  end.

Definition next_id (todos : list Todo) : Z :=
  py_max (map Todo.id todos) 0 + 1.

(** [parse_due_date(s)] *)
Definition parse_due_date (s : option string) : result (option string) :=
  match s with
  | None => Returned None
  | Some s =>
      let s := PyStr.strip s in
      if String.eqb s "" then Returned None
      else match PyDate.strptime s with
           | Raised e => Raised e
           | Returned _ => Returned (Some s)
           end
  end.

Fixpoint find_by_id (todos : list Todo) (todo_id : Z) : option Todo :=
  match todos with
  | [] => None
  | t :: rest => if Todo.id t =? todo_id then Some t else find_by_id rest todo_id
  end.

(** The object [find_by_id] returns, as a reference: its position in
    [todos].  The operations that assign to an attribute of the object they
    looked up go through it. *)
Fixpoint ref_by_id (todos : list Todo) (todo_id : Z) : option nat :=
  match todos with
  | [] => None
  | t :: rest =>
      if Todo.id t =? todo_id then Some O
      else S <$> ref_by_id rest todo_id
  end.

(** [t.attr = v] for the object at position [r]. *)
Definition setattr (r : nat) (assign : Todo -> Todo) (todos : list Todo) : list Todo :=
  alter assign r todos.

(** [todos.remove(t)]: the first element equal to [t] goes; [None] stands
    for the error of a list without such an element. *)
Fixpoint list_remove (t : Todo) (todos : list Todo) : option (list Todo) :=
  match todos with
  | [] => None
  | x :: rest =>
      if Todo.eqb x t then Some rest
      else cons x <$> list_remove t rest
  end.

(** *** [list.sort(key=...)]

    The sort is stable and compares keys with [<] only.  For keys that [<]
    orders totally, as the keys of [list_todos] are, its result is the one
    stably sorted arrangement of the list, which insertion from the right
    computes. *)
Section Sort.
Context {A K : Type} (ltb : K -> K -> bool) (key : A -> K).

Fixpoint insert (x : A) (l : list A) : list A :=
  match l with
  | [] => [x]
  | y :: l' => if ltb (key y) (key x) then y :: insert x l' else x :: y :: l'
  end.

Definition sort (l : list A) : list A := foldr insert [] l.

(** [x] may stand before [y]: the key of [y] is not below that of [x]. *)
Definition not_after (x y : A) : Prop := ltb (key y) (key x) = false.
End Sort.

(** [<] on the key tuples [(rank, date, id)]. *)
Definition due_key_ltb (a b : Z * PyDate.date * Z) : bool :=
  let '(ra, da, ia) := a in
  let '(rb, db, ib) := b in
  if negb (ra =? rb) then ra <? rb
  else if negb (PyDate.eqb da db) then PyDate.ltb da db
  else ia <? ib.

(** The local function [key] of [list_todos]. *)
Definition due_key (t : Todo) : Z * PyDate.date * Z :=
  match Todo.due_as_date t with
  | Some d => (0, d, Todo.id t)
  | None => (1, PyDate.max, Todo.id t)
  end.

(** What [list_todos] prints: the notice of an empty list, or one record
    after the other through [print_todo]. *)
Inductive printed : Type :=
| NoTodosYet
| Shown (t : Todo).

Definition list_todos (todos : list Todo) (sort_by_due open_only : bool) : list printed :=
  match todos with
  | [] => [NoTodosYet]
  | _ =>
      let items := todos in
      let items := if open_only
                   then List.filter (fun t => negb (Todo.completed t)) items
                   else items in
      let items := if sort_by_due
                   then sort due_key_ltb due_key items
                   else sort Z.ltb Todo.id items in
      map Shown items
  end.

(** The ids in the order in which they are printed. *)
Definition shown_ids (out : list printed) : list Z :=
  omap (fun p => match p with Shown t => Some (Todo.id t) | NoTodosYet => None end) out.

(** *** The operations that change the list

    An operation is run on the list [todos] and the file system; it ends by
    returning or raising, and leaves the list and the file system behind. *)
Record ran (A : Type) : Type := Ran {
  outcome : result A;
  mem : list Todo;
  disk : world
}.
Arguments Ran {A} outcome mem disk.
Arguments outcome {A} r.
Arguments mem {A} r.
Arguments disk {A} r.

(** [add_todo(todos, title, description, due)]; [now] is what [now_str()]
    returns at the call. *)
Definition add_todo (todos : list Todo) (title description : string)
    (due : option string) (now : string) (w : world) : ran Todo :=
  let t := Todo.mk (next_id todos) (PyStr.strip title) (PyStr.strip description)
                   due false now in
  let todos := todos ++ [t] in
  Ran (Returned t) todos (save_todos todos w).

Definition update_todo_fields (todos : list Todo) (todo_id : Z)
    (title desc due : option string) (clear_due : bool) (w : world) : ran unit :=
  match ref_by_id todos todo_id with
  | None => Ran (Raised NotFound) todos w
  | Some t =>
      let todos := match title with
                   | Some v => setattr t (Todo.set_title (PyStr.strip v)) todos
                   | None => todos
                   end in
      let todos := match desc with
                   | Some v => setattr t (Todo.set_description (PyStr.strip v)) todos
                   | None => todos
                   end in
      let todos := if clear_due then setattr t (Todo.set_due_date None) todos
                   else match due with
                        | Some v => setattr t (Todo.set_due_date (Some v)) todos
                        | None => todos
                        end in
      Ran (Returned tt) todos (save_todos todos w)
  end.

Definition set_complete (todos : list Todo) (todo_id : Z) (completed : bool)
    (w : world) : ran unit :=
  match ref_by_id todos todo_id with
  | None => Ran (Raised NotFound) todos w
  | Some t =>
      let todos := setattr t (Todo.set_completed completed) todos in
      Ran (Returned tt) todos (save_todos todos w)
  end.

Definition delete_todo (todos : list Todo) (todo_id : Z) (w : world) : ran unit :=
  match find_by_id todos todo_id with
  | None => Ran (Raised NotFound) todos w
  | Some t =>
      match list_remove t todos with
      | None => Ran (Raised NotInList) todos w
      | Some todos => Ran (Returned tt) todos (save_todos todos w)
      end
  end.

(** *** Sequences of operations *)

Inductive op : Type :=
| Create (title description : string) (due : option string) (now : string)
| Update (todo_id : Z) (title desc due : option string) (clear_due : bool)
| Complete (todo_id : Z) (completed : bool)
| Delete (todo_id : Z).

(** What a sequence does to the ids: the id a create assigned, the id of
    the record a delete removed. *)
Inductive id_event : Type :=
| Assigned (i : Z)
| Removed (i : Z).

Record session : Type := Session {
  s_todos : list Todo;
  s_world : world;
  s_log : list id_event
}.

(** One operation on the current list.  An operation that raises leaves
    what it had done behind and the next one goes on from there, as in the
    loop of the interactive menu. *)
Definition step (s : session) (o : op) : session :=
  match o with
  | Create title description due now =>
      let r := add_todo (s_todos s) title description due now (s_world s) in
      Session (mem r) (disk r)
        (s_log s ++ match outcome r with
                    | Returned t => [Assigned (Todo.id t)]
                    | Raised _ => []
                    end)
  | Update todo_id title desc due clear_due =>
      let r := update_todo_fields (s_todos s) todo_id title desc due clear_due (s_world s) in
      Session (mem r) (disk r) (s_log s)
  | Complete todo_id completed =>
      let r := set_complete (s_todos s) todo_id completed (s_world s) in
      Session (mem r) (disk r) (s_log s)
  | Delete todo_id =>
      let r := delete_todo (s_todos s) todo_id (s_world s) in
      Session (mem r) (disk r)
        (s_log s ++ match outcome r with
                    | Returned _ => [Removed todo_id]
                    | Raised _ => []
                    end)
  end.

Definition run (ops : list op) (s : session) : session := fold_left step ops s.

Definition ids (todos : list Todo) : list Z := map Todo.id todos.

(** ** Notions the properties are stated with *)

(** The record that [update_todo_fields] leaves where [t] was. *)
Definition updated (t : Todo) (title desc due : option string) (clear_due : bool) : Todo :=
  Todo.mk (Todo.id t)
    (match title with Some v => PyStr.strip v | None => Todo.title t end)
    (match desc with Some v => PyStr.strip v | None => Todo.description t end)
    (if clear_due then None
     else match due with Some v => Some v | None => Todo.due_date t end)
    (Todo.completed t) (Todo.created_at t).

(** Title and description carry no white space at their ends. *)
Definition text_trimmed (t : Todo) : Prop :=
  PyStr.trimmed (Todo.title t) /\ PyStr.trimmed (Todo.description t).

(** An id is handed out again after the record that had it was deleted. *)
Fixpoint reuses (log : list id_event) : bool :=
  match log with
  | [] => false
  | Removed i :: rest =>
      existsb (fun e => match e with Assigned j => j =? i | Removed _ => false end) rest
      || reuses rest
  | Assigned _ :: rest => reuses rest
  end.

(** The records among what was printed, in order. *)
Definition shown_items (out : list printed) : list Todo :=
  omap (fun p => match p with Shown t => Some t | NoTodosYet => None end) out.

(** The order of the listing by due date, in the words of the
    specification: a record with a date that parses comes before one
    without, two dated records go by date and then by id, two undated ones
    by id. *)
Definition due_before (a b : Todo) : Prop :=
  match Todo.due_as_date a, Todo.due_as_date b with
  | Some da, Some db =>
      PyDate.ltb da db = true \/ (da = db /\ Todo.id a <= Todo.id b)
  | Some _, None => True
  | None, Some _ => False
  | None, None => Todo.id a <= Todo.id b
  end.

(** The order [<] of the key tuples, as a proposition. *)
Definition key_lt (a b : Z * PyDate.date * Z) : Prop :=
  let '(ra, da, ia) := a in
  let '(rb, db, ib) := b in
  ra < rb \/
  (ra = rb /\
   (PyDate.ltb da db = true \/ (PyDate.eqb da db = true /\ ia < ib))).

(** The fixed textual form of the specification: four digits, a hyphen,
    two digits, a hyphen, two digits, that name a day of the calendar. *)
Definition fixed_format (s : string) : bool :=
  match s with
  | String y1 (String y2 (String y3 (String y4 (String h1
      (String m1 (String m2 (String h2 (String d1 (String d2 EmptyString))))))))) =>
      let v := PyStr.digit_value in
      forallb PyStr.isdigit [y1; y2; y3; y4; m1; m2; d1; d2]
      && Ascii.eqb h1 "-" && Ascii.eqb h2 "-"
      && match PyDate.make (1000 * v y1 + 100 * v y2 + 10 * v y3 + v y4)
                 (10 * v m1 + v m2) (10 * v d1 + v d2) with
         | Returned _ => true
         | Raised _ => false
         end
  | _ => false
  end.

(** The text begins with four digits and a hyphen. *)
Definition year_first (s : string) : bool :=
  match s with
  | String y1 (String y2 (String y3 (String y4 (String h1 _)))) =>
      forallb PyStr.isdigit [y1; y2; y3; y4] && Ascii.eqb h1 "-"
  | _ => false
  end.

(** The shape of the fixed form alone: four digits, a hyphen, two digits,
    a hyphen, two digits, whatever numbers they write. *)
Definition fixed_shape (s : string) : bool :=
  match s with
  | String y1 (String y2 (String y3 (String y4 (String h1
      (String m1 (String m2 (String h2 (String d1 (String d2 EmptyString))))))))) =>
      forallb PyStr.isdigit [y1; y2; y3; y4; m1; m2; d1; d2]
      && Ascii.eqb h1 "-" && Ascii.eqb h2 "-"
  | _ => false
  end.

(** The number that the sixth and seventh characters write: the month of
    a text in the fixed shape. *)
Definition month_written (s : string) : Z :=
  match s with
  | String _ (String _ (String _ (String _ (String _ (String m1 (String m2 _)))))) =>
      10 * PyStr.digit_value m1 + PyStr.digit_value m2
  | _ => 0
  end.

(** ** Further notions *)

(** The file holds what the list in memory holds. *)
Definition in_sync (s : session) : Prop :=
  load_todos (s_world s) = (map dyn (s_todos s), []).

(** The arguments of one call of [update_todo_fields]. *)
Record patch : Type := Patch {
  p_title : option string;
  p_desc : option string;
  p_due : option string;
  p_clear_due : bool
}.

Definition apply_patch (todos : list Todo) (todo_id : Z) (p : patch) (w : world) : ran unit :=
  update_todo_fields todos todo_id (p_title p) (p_desc p) (p_due p) (p_clear_due p) w.

(** The one call that does what a call with [p1] followed by a call with
    [p2] does. *)
Definition patch_then (p1 p2 : patch) : patch :=
  Patch (match p_title p2 with Some v => Some v | None => p_title p1 end)
        (match p_desc p2 with Some v => Some v | None => p_desc p1 end)
        (match p_due p2 with Some v => Some v | None => p_due p1 end)
        (p_clear_due p2
         || (p_clear_due p1 && match p_due p2 with Some _ => false | None => true end)).

(** The record has no due date that parses. *)
Definition undated (t : Todo) : Prop := Todo.due_as_date t = None.

(** Two JSON objects with the same entries, in any order. *)
Definition same_entries (a b : pyval) : Prop :=
  match a, b with
  | PDict kw, PDict kw' => NoDup (map fst kw) /\ Permutation kw kw'
  | _, _ => a = b
  end.

(** ** The command line and the interactive menu

    [main] and [interactive_menu] are run on the namespace that
    [parse_args] returns, the lines that wait on the standard input, the
    clock and the file system.  What is printed is kept as a list of
    events; an f-string is kept as its parts.  The objects a load builds
    are used as records when their fields have the annotated types; on
    other objects the functions of the engine depend on the comparisons
    and conversions of untyped values, which are not modelled: the run is
    then [Untyped]. *)

Module Cli.

(** The [ValueError]s of a run: those of the engine, and that of [int]
    on a text that is no number. *)
Inductive failure : Type :=
| Engine (e : ValueError)
| InvalidLiteral (text : string).

Inductive piece : Type :=
| Lit (s : string)
| Num (n : Z)
| Failure (e : failure).

Inductive event : Type :=
| Print (parts : list piece)    (* [print] of a text or of an f-string *)
| Ask (prompt : string)         (* the prompt that [input] writes *)
| Show (p : printed).           (* a line of [list_todos], a [print_todo] *)

Record state : Type := State {
  st_todos : list Todo;
  st_files : world;
  st_stdin : list string;
  st_out : list event;
  st_ticks : nat                (* the readings of the clock so far *)
}.

(** How a piece of the program ends: with a value, with a [ValueError]
    travelling up, with the [EOFError] of [input] at the end of the input,
    with [continue], with [return], or on untyped records. *)
Inductive flow (A : Type) : Type :=
| Val (a : A) (s : state)
| Exc (e : failure) (s : state)
| Eof (s : state)
| Continue (s : state)
| Return (s : state)
| Untyped (s : state).
Arguments Val {A} a s.
Arguments Exc {A} e s.
Arguments Eof {A} s.
Arguments Continue {A} s.
Arguments Return {A} s.
Arguments Untyped {A} s.

Definition M (A : Type) : Type := state -> flow A.

Definition ret {A : Type} (a : A) : M A := fun s => Val a s.

Definition bind {A B : Type} (m : M A) (k : A -> M B) : M B := fun s =>
  match m s with
  | Val a s' => k a s'
  | Exc e s' => Exc e s'
  | Eof s' => Eof s'
  | Continue s' => Continue s'
  | Return s' => Return s'
  | Untyped s' => Untyped s'
  end.

Notation "x <~ m ; k" := (bind m (fun x => k))
  (at level 20, m at level 100, k at level 200, only parsing).
Notation "m ;; k" := (bind m (fun _ => k))
  (at level 100, k at level 200, right associativity, only parsing).

(** [try: m except ValueError as e: handler e] *)
Definition try_except {A : Type} (m : M A) (handler : failure -> M A) : M A := fun s =>
  match m s with
  | Exc e s' => handler e s'
  | other => other
  end.

Definition emit (es : list event) : M unit := fun s =>
  Val tt (State (st_todos s) (st_files s) (st_stdin s) (st_out s ++ es) (st_ticks s)).

Definition print (parts : list piece) : M unit := emit [Print parts].

Definition say (text : string) : M unit := print [Lit text].

(** [input(prompt)] *)
Definition input (prompt : string) : M string := fun s =>
  let out := st_out s ++ [Ask prompt] in
  match st_stdin s with
  | [] => Eof (State (st_todos s) (st_files s) [] out (st_ticks s))
  | line :: rest => Val line (State (st_todos s) (st_files s) rest out (st_ticks s))
  end.

Definition continue {A : Type} : M A := fun s => Continue s.
Definition return_ {A : Type} : M A := fun s => Return s.

(** The list the name [todos] is bound to. *)
Definition the_todos : M (list Todo) := fun s => Val (st_todos s) s.

(** An operation of the engine on the list [todos] and the file. *)
Definition engine {A : Type} (op : list Todo -> world -> ran A) : M A := fun s =>
  let r := op (st_todos s) (st_files s) in
  let s' := State (mem r) (disk r) (st_stdin s) (st_out s) (st_ticks s) in
  match outcome r with
  | Returned a => Val a s'
  | Raised e => Exc (Engine e) s'
  end.

Section Clock.
(** [clock k] is what [now_str()] returns at its call number [k]. *)
Variable clock : nat -> string.

Definition add (title description : string) (due : option string) : M Todo := fun s =>
  let now := clock (st_ticks s) in
  engine (fun todos w => add_todo todos title description due now w)
         (State (st_todos s) (st_files s) (st_stdin s) (st_out s) (S (st_ticks s))).

(** [todos = load_todos()] *)
Definition load : M unit := fun s =>
  let '(objects, lines) := load_todos (st_files s) in
  let out := st_out s ++ map (fun l => Print [Lit l]) lines in
  match mapM typed objects with
  | Some todos => Val tt (State todos (st_files s) (st_stdin s) out (st_ticks s))
  | None => Untyped (State [] (st_files s) (st_stdin s) out (st_ticks s))
  end.

Definition list_ (sort_by_due open_only : bool) : M unit := fun s =>
  emit (map Show (list_todos (st_todos s) sort_by_due open_only)) s.

Definition parse (text : option string) : M (option string) := fun s =>
  match parse_due_date text with
  | Returned d => Val d s
  | Raised e => Exc (Engine e) s
  end.

(** The digits of [int(text)], after the sign: underscores stand between
    digits only. *)
Fixpoint int_body (acc : Z) (after_digit : bool) (s : string) : option Z :=
  match s with
  | EmptyString => if after_digit then Some acc else None
  | String c r =>
      if PyStr.isdigit c then int_body (10 * acc + PyStr.digit_value c) true r
      else if Ascii.eqb c "_" then (if after_digit then int_body acc false r else None)
      else None
  end.

(** [int(text)]: white space at the ends, a sign, decimal digits; [None]
    stands for the [ValueError] of a text that is no number.  (The limit
    of the interpreter on the number of digits is not modelled.) *)
Definition py_int (text : string) : option Z :=
  match PyStr.strip text with
  | String "-" r => Z.opp <$> int_body 0 false r
  | String "+" r => int_body 0 false r
  | s => int_body 0 false s
  end.

Definition int (text : string) : M Z := fun s =>
  match py_int text with
  | Some n => Val n s
  | None => Exc (InvalidLiteral text) s
  end.

Definition nl : string := String "010" "".

(** [prompt_non_empty(prompt)], on the lines that wait. *)
Fixpoint prompt_lines (prompt : string) (lines : list string) (out : list event)
  : option string * list string * list event :=
  match lines with
  | [] => (None, [], out ++ [Ask prompt])
  | line :: rest =>
      let v := PyStr.strip line in
      if PyStr.truthy v then (Some v, rest, out ++ [Ask prompt])
      else prompt_lines prompt rest
             (out ++ [Ask prompt; Print [Lit "Please enter a value (cannot be empty)."]])
  end.

Definition prompt_non_empty (prompt : string) : M string := fun s =>
  let '(v, rest, out) := prompt_lines prompt (st_stdin s) (st_out s) in
  let s' := State (st_todos s) (st_files s) rest out (st_ticks s) in
  match v with
  | Some v => Val v s'
  | None => Eof s'
  end.

Definition some_if_truthy (text : string) : option string :=
  if PyStr.truthy text then Some text else None.

(** The branches of the menu, for the choice typed. *)
Definition choose (choice : string) : M unit :=
  if String.eqb choice "1" then
    title <~ prompt_non_empty "Title: ";
    desc <~ prompt_non_empty "Description: ";
    line <~ input "Due date (YYYY-MM-DD) (optional): ";
    let due_input := PyStr.strip line in
    due <~ (if PyStr.truthy due_input
            then try_except (parse (Some due_input))
                   (fun _ => say "Invalid date format. Skipping due date." ;; ret None)
            else ret None);
    t <~ add title desc due;
    print [Lit "Added #"; Num (Todo.id t); Lit ("." ++ nl)%string]
  else if String.eqb choice "2" then
    list_ false false ;; say ""
  else if String.eqb choice "3" then
    list_ true false ;; say ""
  else if String.eqb choice "4" then
    list_ true true ;; say ""
  else if String.eqb choice "5" then
    line <~ input "ID: ";
    todo_id <~ int (PyStr.strip line);
    todos <~ the_todos;
    match find_by_id todos todo_id with
    | None => say ("Not found." ++ nl)%string ;; continue
    | Some t =>
        say (nl ++ "Current:")%string ;;
        emit [Show (Shown t)] ;;
        say (nl ++ "Leave blank to keep unchanged. Use '-' to clear due date.")%string ;;
        line <~ input "New title: ";
        let new_title := PyStr.strip line in
        line <~ input "New description: ";
        let new_desc := PyStr.strip line in
        line <~ input "New due date (YYYY-MM-DD) (Optional): ";
        let new_due := PyStr.strip line in
        let clear_due := String.eqb new_due "-" in
        checked <~ (if PyStr.truthy new_due && negb clear_due
                    then try_except
                           (due_val <~ parse (Some new_due); ret (due_val, new_due))
                           (fun _ => say "Invalid due date; not changing it." ;;
                                     ret (None, ""))
                    else ret (None, new_due));
        let '(due_val, new_due) := checked in
        engine (fun todos =>
                  update_todo_fields todos todo_id (some_if_truthy new_title)
                    (some_if_truthy new_desc)
                    (if PyStr.truthy new_due then due_val else None) clear_due) ;;
        say ("Updated." ++ nl)%string
    end
  else if String.eqb choice "6" then
    line <~ input "ID: ";
    todo_id <~ int (PyStr.strip line);
    engine (fun todos => set_complete todos todo_id true) ;;
    say ("Marked complete." ++ nl)%string
  else if String.eqb choice "7" then
    line <~ input "ID: ";
    todo_id <~ int (PyStr.strip line);
    engine (fun todos => set_complete todos todo_id false) ;;
    say ("Reopened." ++ nl)%string
  else if String.eqb choice "8" then
    line <~ input "ID: ";
    todo_id <~ int (PyStr.strip line);
    engine (fun todos => delete_todo todos todo_id) ;;
    say ("Deleted." ++ nl)%string
  else if String.eqb choice "9" then
    say "Bye!" ;; return_
  else
    say ("Invalid choice." ++ nl)%string.

Definition MENU : list string :=
  ["==== To-Do App ===="; "1) Add to-do"; "2) List to-dos";
   "3) List to-dos (sorted by due date)";
   "4) List open to-dos (sorted by due date)"; "5) Update to-do";
   "6) Mark complete"; "7) Reopen"; "8) Delete"; "9) Exit"].

(** The part of a turn under [try], with its handler: the branch for the
    line typed, the reload. *)
Definition guarded (line : string) : M unit :=
  try_except
    (choose (PyStr.strip line) ;; load)
    (fun e => print [Lit "Error: "; Failure e; Lit nl]).

(** One turn of the loop of [interactive_menu]: the menu, the choice, and
    the rest under [try]. *)
Definition turn : M unit :=
  emit (map (fun l => Print [Lit l]) MENU) ;;
  line <~ input "Choose: ";
  guarded line.

(** How a run ends. *)
Inductive ending : Type :=
| Exits (s : state)                       (* the function returns *)
| DiesOfEOF (s : state)                   (* [EOFError] is not caught *)
| DiesOfValueError (e : failure) (s : state)   (* a [ValueError] outside [try] *)
| UntypedRecords (s : state)
| Unfinished (s : state).                 (* the turns allowed are used up *)

(** [while True:], for at most [turns] turns. *)
Fixpoint loop (turns : nat) (s : state) : ending :=
  match turns with
  | O => Unfinished s
  | S turns =>
      match turn s with
      | Val _ s' | Continue s' => loop turns s'
      | Return s' => Exits s'
      | Exc e s' => DiesOfValueError e s'
      | Eof s' => DiesOfEOF s'
      | Untyped s' => UntypedRecords s'
      end
  end.

(** The end of a function body that is no loop: falling off its end is a
    return. *)
Definition finish (f : flow unit) : ending :=
  match f with
  | Val _ s | Return s | Continue s => Exits s
  | Exc e s => DiesOfValueError e s
  | Eof s => DiesOfEOF s
  | Untyped s => UntypedRecords s
  end.

Definition start (stdin : list string) (w : world) : state := State [] w stdin [] O.

(** [interactive_menu()]: every turn reads a line at least, so one turn
    more than there are lines is all the turns there can be. *)
Definition interactive_menu (stdin : list string) (w : world) : ending :=
  match load (start stdin w) with
  | Val _ s => loop (S (length stdin)) s
  | other => finish other
  end.

(** The namespace [parse_args] returns for a command; without a command
    [args.cmd] is [None]. *)
Inductive args : Type :=
| CmdAdd (title description : string) (due : option string)
| CmdList (sort open : bool)
| CmdDone (id : Z)
| CmdReopen (id : Z)
| CmdUpdate (id : Z) (title desc due : option string) (clear_due : bool)
| CmdDelete (id : Z).

(** The branches of [main], for the command given. *)
Definition command (a : args) : M unit :=
  match a with
  | CmdAdd title description due =>
      due <~ (match due with Some _ => parse due | None => ret None end);
      t <~ add title description due;
      print [Lit "Added to-do #"; Num (Todo.id t); Lit ": "; Lit (Todo.title t)]
  | CmdList sort open => list_ sort open
  | CmdDone id =>
      engine (fun todos => set_complete todos id true) ;;
      print [Lit "Marked #"; Num id; Lit " complete."]
  | CmdReopen id =>
      engine (fun todos => set_complete todos id false) ;;
      print [Lit "Reopened #"; Num id; Lit "."]
  | CmdUpdate id title desc due clear_due =>
      due_val <~ (match due with Some _ => parse due | None => ret None end);
      engine (fun todos =>
                update_todo_fields todos id title desc
                  (match due with Some _ => due_val | None => None end) clear_due) ;;
      print [Lit "Updated #"; Num id; Lit "."]
  | CmdDelete id =>
      engine (fun todos => delete_todo todos id) ;;
      print [Lit "Deleted #"; Num id; Lit "."]
  end.

(** [main()] *)
Definition main (cmd : option args) (stdin : list string) (w : world) : ending :=
  match cmd with
  | None => interactive_menu stdin w
  | Some a =>
      finish ((load ;;
               try_except (command a) (fun e => print [Lit "Error: "; Failure e]))
                (start stdin w))
  end.

End Clock.

(** *** Invariants of a run

    [keeps J U R m Q]: from a state in [J], [m] ends in a state in [J],
    with a value in [Q] when it ends with a value; it ends on untyped
    records only if [U], and with [return] only if [R]. *)
Definition keeps {A : Type} (J : state -> Prop) (U R : Prop) (m : M A)
    (Q : A -> Prop) : Prop :=
  forall s, J s ->
    match m s with
    | Val a s' => J s' /\ Q a
    | Exc _ s' | Eof s' | Continue s' => J s'
    | Return s' => J s' /\ R
    | Untyped _ => U
    end.

(** The state an ending leaves. *)
Definition last_state (e : ending) : state :=
  match e with
  | Exits s | DiesOfEOF s | DiesOfValueError _ s | UntypedRecords s | Unfinished s => s
  end.

End Cli.

(** The records of the file, when its objects are typed. *)
Definition holds (w : world) (todos : list Todo) : Prop :=
  mapM typed (fst (load_todos w)) = Some todos.

(** The due text of the record, if any, parses. *)
Definition due_ok (t : Todo) : Prop :=
  Todo.due_date t = None \/ exists d, Todo.due_as_date t = Some d.

(** Title and description are not empty. *)
Definition named (t : Todo) : Prop :=
  Todo.title t <> "" /\ Todo.description t <> "".

(** A collection as the program leaves it: unique ids, due texts that
    parse and, under [strict], titles and descriptions that are not
    empty. *)
Definition tidy (strict : bool) (todos : list Todo) : Prop :=
  NoDup (ids todos) /\ Forall due_ok todos /\ (strict = true -> Forall named todos).

(** An argument for a title or a description: under [strict], a text that
    is not blank. *)
Definition text_ok (strict : bool) (v : string) : Prop :=
  strict = true -> PyStr.strip v <> "".

(** An argument for a due date: what [parse_due_date] returned. *)
Definition due_arg_ok (due : option string) : Prop :=
  exists text, parse_due_date text = Returned due.

(** The state of a run is sound: the file holds the list in memory, and
    the list is tidy. *)
Definition sound (strict : bool) (s : Cli.state) : Prop :=
  holds (Cli.st_files s) (Cli.st_todos s) /\ tidy strict (Cli.st_todos s).

(** The input still to come is a rest of [stdin], of at most [n] lines. *)
Definition within (stdin : list string) (n : nat) (s : Cli.state) : Prop :=
  suffix (Cli.st_stdin s) stdin /\ (length (Cli.st_stdin s) <= n)%nat.

(** The file holds the list in memory, whatever the records are. *)
Definition held (s : Cli.state) : Prop :=
  holds (Cli.st_files s) (Cli.st_todos s).

(** * Properties *)

(** ** The library functions on examples *)

Example strptime_ok :
  PyDate.strptime "2025-03-01" = Returned (PyDate.mkdate 2025 3 1).
Proof. reflexivity. Qed.

Example strptime_short_fields :
  PyDate.strptime "2025-3-1" = Returned (PyDate.mkdate 2025 3 1).
Proof. reflexivity. Qed.

Example strptime_bad_month :
  PyDate.strptime "2025-13-40" = Raised (NoFormatMatch "2025-13-40").
Proof. reflexivity. Qed.

Example strptime_bad_day :
  PyDate.strptime "2025-01-32" = Raised (UnconvertedData "2").
Proof. reflexivity. Qed.

Example strptime_not_leap :
  PyDate.strptime "2025-02-29" = Raised DateOutOfRange.
Proof. reflexivity. Qed.

Example strip_both_ends : PyStr.strip "  buy milk  " = "buy milk".
Proof. reflexivity. Qed.

Example strptime_blank_before_day :
  PyDate.strptime "2025-01- 5" = Returned (PyDate.mkdate 2025 1 5).
Proof. reflexivity. Qed.

Example strptime_backtracks_on_month :
  PyDate.strptime "2025-123-1" = Raised (NoFormatMatch "2025-123-1").
Proof. reflexivity. Qed.

Example strptime_year_zero : PyDate.strptime "0000-01-01" = Raised DateOutOfRange.
Proof. reflexivity. Qed.

Example strptime_leap_day :
  PyDate.strptime "2024-02-29" = Returned (PyDate.mkdate 2024 2 29).
Proof. reflexivity. Qed.

Example strptime_no_trimming :
  PyDate.strptime " 2025-03-01" = Raised (NoFormatMatch " 2025-03-01").
Proof. reflexivity. Qed.

(** ** Lookup *)

Section Lookup.
Implicit Types (todos : list Todo) (t : Todo) (todo_id : Z).

Lemma find_by_id_ref todos todo_id :
  find_by_id todos todo_id = ref_by_id todos todo_id ≫= (todos !!.).
Proof.
  induction todos as [|x rest IH]; simpl; [done|].
  destruct (Todo.id x =? todo_id); [done|].
  rewrite IH. by destruct (ref_by_id rest todo_id).
Qed.

Lemma ref_by_id_None todos todo_id :
  ref_by_id todos todo_id = None <-> find_by_id todos todo_id = None.
Proof.
  induction todos as [|x rest IH]; simpl; [done|].
  destruct (Todo.id x =? todo_id); [done|].
  rewrite <- IH. destruct (ref_by_id rest todo_id); simpl; split; congruence.
Qed.

Lemma ref_by_id_Some todos todo_id r :
  ref_by_id todos todo_id = Some r ->
  exists t, todos !! r = Some t /\ find_by_id todos todo_id = Some t /\
            Todo.id t = todo_id.
Proof.
  revert r. induction todos as [|x rest IH]; simpl; intros r Hr; [done|].
  destruct (Todo.id x =? todo_id) eqn:E.
  - injection Hr as <-. exists x. split_and!; [done..|lia].
  - destruct (ref_by_id rest todo_id) as [r'|]; simpl in Hr; [|done].
    injection Hr as <-. destruct (IH r' eq_refl) as (t & ? & ? & ?). by exists t.
Qed.

Lemma find_by_id_Some todos todo_id t :
  find_by_id todos todo_id = Some t ->
  exists r, ref_by_id todos todo_id = Some r /\ todos !! r = Some t /\
            Todo.id t = todo_id.
Proof.
  intros Hf. destruct (ref_by_id todos todo_id) as [r|] eqn:Hr.
  - destruct (ref_by_id_Some _ _ _ Hr) as (t' & ? & ? & ?).
    exists r. split_and!; congruence.
  - apply ref_by_id_None in Hr. congruence.
Qed.

Lemma find_by_id_None todos todo_id :
  find_by_id todos todo_id = None <-> ~ In todo_id (ids todos).
Proof.
  induction todos as [|x rest IH]; simpl; [tauto|].
  destruct (Todo.id x =? todo_id) eqn:E.
  - split; [done|]. intros H. exfalso. apply H. left. lia.
  - rewrite IH. split; [intros ? [?|?]; [lia|done] | tauto].
Qed.

(** The record found is the first one with the id. *)
Lemma find_by_id_split todos todo_id t :
  find_by_id todos todo_id = Some t ->
  exists before after,
    todos = before ++ t :: after /\ Todo.id t = todo_id /\
    ~ In todo_id (ids before).
Proof.
  induction todos as [|x rest IH]; simpl; [done|].
  destruct (Todo.id x =? todo_id) eqn:E; intros Hf.
  - injection Hf as <-. exists [], rest. split_and!; [done|lia|tauto].
  - destruct (IH Hf) as (b & a & -> & ? & ?).
    exists (x :: b), a. split_and!; [done..|].
    simpl. intros [?|?]; [lia|done].
Qed.

Lemma ids_setattr r f todos :
  (forall t, Todo.id (f t) = Todo.id t) -> ids (setattr r f todos) = ids todos.
Proof.
  intros Hf. unfold ids, setattr. revert r.
  induction todos as [|x rest IH]; intros [|r]; simpl; try done.
  - by rewrite Hf.
  - f_equal. apply IH.
Qed.

Lemma Todo_eqb_refl t : Todo.eqb t t = true.
Proof.
  unfold Todo.eqb. rewrite Z.eqb_refl, !String.eqb_refl, Bool.eqb_reflx.
  by destruct (Todo.due_date t); rewrite ?String.eqb_refl.
Qed.

Lemma Todo_eqb_id a b : Todo.eqb a b = true -> Todo.id a = Todo.id b.
Proof.
  unfold Todo.eqb. rewrite !andb_true_iff. intros [[[[[H _] _] _] _] _]. lia.
Qed.

(** [todos.remove(t)] removes the object that [find_by_id] returned. *)
Lemma list_remove_found before after t :
  ~ In (Todo.id t) (ids before) ->
  list_remove t (before ++ t :: after) = Some (before ++ after).
Proof.
  induction before as [|x b IH]; simpl; intros Hn.
  - by rewrite Todo_eqb_refl.
  - destruct (Todo.eqb x t) eqn:E.
    + apply Todo_eqb_id in E. tauto.
    + rewrite IH; [done | tauto].
Qed.

End Lookup.

Lemma py_max_fold (xs : list Z) (x : Z) :
  x <= fold_left Z.max xs x /\
  Forall (fun y => y <= fold_left Z.max xs x) xs /\
  (fold_left Z.max xs x = x \/ In (fold_left Z.max xs x) xs).
Proof.
  revert x. induction xs as [|y ys IH]; intros x; simpl.
  - split_and!; [lia | constructor | by left].
  - destruct (IH (Z.max x y)) as (H1 & H2 & H3). split_and!.
    + lia.
    + constructor; [lia | done].
    + destruct H3 as [H3|H3]; [|by right; right].
      rewrite H3. destruct (Z.max_spec x y) as [[_ ->]|[_ ->]]; [right; by left | by left].
Qed.

Lemma next_id_above (todos : list Todo) :
  Forall (fun i => i < next_id todos) (ids todos).
Proof.
  unfold next_id, ids. destruct (map Todo.id todos) as [|x xs]; simpl; [constructor|].
  destruct (py_max_fold xs x) as (H1 & H2 & _).
  constructor; [lia|]. eapply Forall_impl; [exact H2|]. simpl. intros; lia.
Qed.

(** ** Claims about the record engine *)

(** C8: [next_id] gives 1 on the empty collection; on a collection that is
    not empty it gives one more than the greatest id in it, an id of the
    collection that no other id exceeds; on ids 2 and 5, in either order
    and whatever the other fields, it gives 6. *)
Theorem next_id_max_plus_one :
  next_id [] = 1 /\
  (forall t rest,
      let todos := t :: rest in
      (exists m, In m todos /\ next_id todos = Todo.id m + 1) /\
      Forall (fun x => Todo.id x + 1 <= next_id todos) todos) /\
  (forall ti de du c cr ti' de' du' c' cr',
      next_id [Todo.mk 2 ti de du c cr; Todo.mk 5 ti' de' du' c' cr'] = 6 /\
      next_id [Todo.mk 5 ti' de' du' c' cr'; Todo.mk 2 ti de du c cr] = 6).
Proof.
  split_and!; [done | | done].
  intros t rest todos. split.
  - unfold next_id, todos. simpl.
    destruct (py_max_fold (map Todo.id rest) (Todo.id t)) as (_ & _ & [H|H]).
    + exists t. split; [by left | by rewrite H].
    + apply in_map_iff in H as (m & Hm & Hin). exists m. split; [by right | by rewrite Hm].
  - pose proof (next_id_above todos) as H. unfold ids in H.
    rewrite Forall_map in H. eapply Forall_impl; [exact H|]. simpl. intros; lia.
Qed.

(** C6: on an id that is absent from the collection, update, set_complete
    and delete raise the not-found error, and the collection and the file
    system, with the count of writes of the backing file, are left as they
    were. *)
Theorem not_found_changes_nothing (todos : list Todo) (todo_id : Z) (w : world)
    (title desc due : option string) (clear_due completed : bool) :
  ~ In todo_id (ids todos) ->
  update_todo_fields todos todo_id title desc due clear_due w
    = Ran (Raised NotFound) todos w /\
  set_complete todos todo_id completed w = Ran (Raised NotFound) todos w /\
  delete_todo todos todo_id w = Ran (Raised NotFound) todos w.
Proof.
  intros Hf%find_by_id_None.
  pose proof (proj2 (ref_by_id_None todos todo_id) Hf) as Hr.
  unfold update_todo_fields, set_complete, delete_todo. by rewrite Hf, Hr.
Qed.

Lemma not_found_changes_nothing_witness :
  let todos := [Todo.mk 1 "a" "b" None false "2025-01-01 10:00"] in
  let w := mkworld (Some Garbled) 3 in
  update_todo_fields todos 7 (Some "x") None (Some "2025-02-02") false w
    = Ran (Raised NotFound) todos w /\
  set_complete todos 7 true w = Ran (Raised NotFound) todos w /\
  delete_todo todos 7 w = Ran (Raised NotFound) todos w.
Proof.
  intros todos w.
  apply (not_found_changes_nothing todos 7 w (Some "x") None (Some "2025-02-02") false true).
  simpl. intros [H|[]]. discriminate H.
Defined.

(** C9: an update of a record of the collection with no title, no
    description, no due date and no clearing returns, leaves every record
    as it was, and still saves: the backing file is written once more, with
    the collection as it is. *)
Theorem update_nothing_still_saves (todos : list Todo) (todo_id : Z) (w : world) :
  In todo_id (ids todos) ->
  let r := update_todo_fields todos todo_id None None None false w in
  outcome r = Returned tt /\
  mem r = todos /\
  disk r = save_todos todos w /\
  writes (disk r) = S (writes w) /\
  data_file (disk r) = Some (Json (PList (map asdict todos))).
Proof.
  intros Hin. unfold update_todo_fields.
  destruct (ref_by_id todos todo_id) as [i|] eqn:Hr; [done|].
  apply ref_by_id_None, find_by_id_None in Hr. done.
Qed.

Lemma update_nothing_still_saves_witness :
  let todos := [Todo.mk 1 "a" "b" None false "2025-01-01 10:00";
                Todo.mk 2 "c" "d" (Some "2025-03-01") true "2025-01-02 11:30"] in
  let w := mkworld None 0 in
  mem (update_todo_fields todos 2 None None None false w) = todos /\
  writes (disk (update_todo_fields todos 2 None None None false w)) = 1%nat.
Proof.
  intros todos w.
  destruct (update_nothing_still_saves todos 2 w) as (_ & Hm & _ & Hw & _).
  - simpl. right. left. reflexivity.
  - split; [exact Hm | exact Hw].
Defined.

(** ** [str.strip] *)

Section Strip.
Import PyStr.

Lemma append_cons (c : ascii) (l x : string) :
  (String c l ++ x)%string = String c (l ++ x)%string.
Proof. reflexivity. Qed.

Lemma lstrip_split (s : string) :
  exists l, s = (l ++ lstrip s)%string /\ all_space l = true.
Proof.
  induction s as [|c s IH]; simpl.
  - by exists "".
  - destruct (isspace c) eqn:E.
    + destruct IH as (l & Hl & Hs). exists (String c l). simpl.
      rewrite E, Hs, append_cons. split; [by f_equal | done].
    + by exists "".
Qed.

Lemma lstrip_first (s : string) (c : ascii) :
  first_char (lstrip s) = Some c -> isspace c = false.
Proof.
  induction s as [|a s IH]; simpl; [done|].
  destruct (isspace a) eqn:E; [done|]. simpl. congruence.
Qed.

Lemma rstrip_split (s : string) :
  exists r, s = (rstrip s ++ r)%string /\ all_space r = true.
Proof.
  induction s as [|c s IH]; simpl.
  - by exists "".
  - destruct IH as (r & Hr & Hs). destruct (rstrip s) as [|a u] eqn:Eu.
    + destruct (isspace c) eqn:E.
      * exists (String c r). simpl. rewrite E, Hs.
        change ("" ++ r)%string with r in Hr. by rewrite <- Hr.
      * exists r. rewrite append_cons. split; [by f_equal | done].
    + exists r. rewrite append_cons. split; [by f_equal | done].
Qed.

Lemma rstrip_last (s : string) (c : ascii) :
  last_char (rstrip s) = Some c -> isspace c = false.
Proof.
  induction s as [|a s IH]; simpl; [done|].
  destruct (rstrip s) as [|b u] eqn:Eu.
  - destruct (isspace a) eqn:E; simpl; [done | congruence].
  - simpl. simpl in IH. exact IH.
Qed.

Lemma rstrip_first (s : string) (c : ascii) :
  first_char (rstrip s) = Some c -> first_char s = Some c.
Proof.
  destruct s as [|a s]; simpl; [done|].
  destruct (rstrip s); [destruct (isspace a)|]; simpl; done.
Qed.

Lemma strip_trimmed (s : string) : trimmed (strip s).
Proof.
  split; intros c Hc.
  - apply rstrip_first in Hc. by apply lstrip_first in Hc.
  - by apply rstrip_last in Hc.
Qed.

(** [strip] takes white space off both ends and nothing else. *)
Lemma strip_split (s : string) :
  exists l r, s = (l ++ strip s ++ r)%string /\
              all_space l = true /\ all_space r = true.
Proof.
  destruct (lstrip_split s) as (l & Hl & Hls).
  destruct (rstrip_split (lstrip s)) as (r & Hr & Hrs).
  exists l, r. split_and!; [|done..].
  unfold strip. by rewrite <- Hr.
Qed.

Lemma rstrip_id (s : string) :
  (forall c, last_char s = Some c -> isspace c = false) -> rstrip s = s.
Proof.
  induction s as [|a s IH]; simpl; [done|]. intros H.
  destruct s as [|b u].
  - simpl. by rewrite (H a eq_refl).
  - rewrite IH; [done|]. exact H.
Qed.

Lemma strip_id (s : string) : trimmed s -> strip s = s.
Proof.
  intros [Hf Hl]. unfold strip.
  assert (lstrip s = s) as ->.
  { destruct s as [|a s]; simpl; [done|]. by rewrite (Hf a eq_refl). }
  by apply rstrip_id.
Qed.

End Strip.

Example strip_inner_space_stays : PyStr.strip (String "009" " a  b ") = "a  b".
Proof. reflexivity. Qed.

(** ** Updates in place *)

Section Update.
Implicit Types (todos : list Todo) (t : Todo) (todo_id : Z).

Lemma setattr_found todos r t f :
  todos !! r = Some t -> setattr r f todos = <[r := f t]> todos.
Proof.
  unfold setattr. revert r.
  induction todos as [|x rest IH]; intros [|r]; simpl; try done.
  - by intros [= ->].
  - intros H. f_equal. by apply IH.
Qed.

Lemma find_by_id_insert todos todo_id r t t' :
  ref_by_id todos todo_id = Some r -> todos !! r = Some t ->
  Todo.id t' = Todo.id t ->
  find_by_id (<[r := t']> todos) todo_id = Some t' /\
  ref_by_id (<[r := t']> todos) todo_id = Some r.
Proof.
  revert r. induction todos as [|x rest IH]; intros r; simpl; [done|].
  destruct (Todo.id x =? todo_id) eqn:E.
  - intros [= <-] [= ->] Hid. simpl. rewrite Hid, E. done.
  - destruct (ref_by_id rest todo_id) as [r'|] eqn:Hr; simpl; [|done].
    intros [= <-] Hl Hid. simpl. rewrite E.
    destruct (IH r' eq_refl Hl Hid) as [-> ->]. done.
Qed.


Lemma update_todo_fields_found todos todo_id r t title desc due clear_due w :
  ref_by_id todos todo_id = Some r -> todos !! r = Some t ->
  update_todo_fields todos todo_id title desc due clear_due w =
    let todos' := <[r := updated t title desc due clear_due]> todos in
    Ran (Returned tt) todos' (save_todos todos' w).
Proof.
  intros Hr Hl. unfold update_todo_fields. rewrite Hr. cbv zeta.
  assert (forall f g, setattr r f (setattr r g todos) = setattr r (f ∘ g) todos) as Hc.
  { intros f g. unfold setattr. by rewrite list_alter_alter_eq. }
  assert (todos = <[r := t]> todos) as Hid by (by rewrite list_insert_id).
  destruct t as [i ti de du c cr].
  destruct title, desc, due, clear_due; unfold updated; simpl;
    rewrite ?Hc, ?(setattr_found _ _ _ _ Hl); simpl; unfold Todo.set_title,
    Todo.set_description, Todo.set_due_date; simpl; try done;
    by rewrite <- Hid.
Qed.

End Update.

(** C4: on a record of the collection, update returns and leaves in its
    place a record whose due date is absent whenever clear_due is set, also
    when a due value is supplied in the same call; a title, a description
    and (without clear_due) a due value are applied when supplied, and an
    absent argument leaves the stored value as it was; id, completion and
    creation time are never touched, nor is any other record. *)
Theorem update_clear_due_wins (todos : list Todo) (todo_id : Z) (t : Todo)
    (title desc due : option string) (clear_due : bool) (w : world) :
  find_by_id todos todo_id = Some t ->
  let r := update_todo_fields todos todo_id title desc due clear_due w in
  exists t',
    outcome r = Returned tt /\
    find_by_id (mem r) todo_id = Some t' /\
    (clear_due = true -> Todo.due_date t' = None) /\
    (clear_due = false ->
       Todo.due_date t' = match due with Some v => Some v | None => Todo.due_date t end) /\
    Todo.title t' = match title with Some v => PyStr.strip v | None => Todo.title t end /\
    Todo.description t' =
      match desc with Some v => PyStr.strip v | None => Todo.description t end /\
    Todo.id t' = Todo.id t /\
    Todo.completed t' = Todo.completed t /\
    Todo.created_at t' = Todo.created_at t /\
    (exists i, todos !! i = Some t /\ mem r = <[i := t']> todos).
Proof.
  intros Hf r. destruct (find_by_id_Some _ _ _ Hf) as (i & Hr & Hl & Hid).
  exists (updated t title desc due clear_due). subst r.
  rewrite (update_todo_fields_found _ _ _ _ _ _ _ _ _ Hr Hl). cbv zeta. simpl.
  split_and!; try done.
  - by apply (find_by_id_insert todos todo_id i t).
  - by intros ->.
  - by intros ->.
  - by exists i.
Qed.

Lemma update_clear_due_wins_witness :
  let t := Todo.mk 1 "a" "b" (Some "2025-03-01") false "2025-01-01 10:00" in
  exists t',
    find_by_id (mem (update_todo_fields [t] 1 None None (Some "2026-01-01") true
                       (mkworld None 0))) 1 = Some t' /\
    Todo.due_date t' = None.
Proof.
  intros t.
  destruct (update_clear_due_wins [t] 1 t None None (Some "2026-01-01") true
              (mkworld None 0) eq_refl) as (t' & _ & Hf & Hd & _).
  exists t'. split; [exact Hf | exact (Hd eq_refl)].
Defined.

(** ** Trimmed text *)


(** C10: update stores a supplied title and a supplied description with the
    white space at both ends taken off (and nothing else), so when the
    titles and descriptions of a collection are trimmed they still are
    after an update, as they are after a create. *)
Theorem update_keeps_text_trimmed (todos : list Todo) (todo_id : Z) (t : Todo)
    (title desc due : option string) (clear_due : bool) (w : world) :
  find_by_id todos todo_id = Some t ->
  let r := update_todo_fields todos todo_id title desc due clear_due w in
  (forall v, title = Some v ->
     exists t' l r', find_by_id (mem r) todo_id = Some t' /\
       PyStr.trimmed (Todo.title t') /\
       v = (l ++ Todo.title t' ++ r')%string /\
       PyStr.all_space l = true /\ PyStr.all_space r' = true) /\
  (forall v, desc = Some v ->
     exists t' l r', find_by_id (mem r) todo_id = Some t' /\
       PyStr.trimmed (Todo.description t') /\
       v = (l ++ Todo.description t' ++ r')%string /\
       PyStr.all_space l = true /\ PyStr.all_space r' = true) /\
  (Forall text_trimmed todos -> Forall text_trimmed (mem r)) /\
  (forall ti de du now,
     Forall text_trimmed todos ->
     Forall text_trimmed (mem (add_todo todos ti de du now w))).
Proof.
  intros Hf r. destruct (find_by_id_Some _ _ _ Hf) as (i & Hr & Hl & Hid).
  subst r. rewrite (update_todo_fields_found _ _ _ _ _ _ _ _ _ Hr Hl). cbv zeta. simpl.
  pose proof (find_by_id_insert todos todo_id i t
                (updated t title desc due clear_due) Hr Hl eq_refl) as [Hf' _].
  split_and!.
  - intros v ->. destruct (strip_split v) as (l & r' & Hv & ? & ?).
    exists (updated t (Some v) desc due clear_due), l, r'.
    split_and!; [done | apply strip_trimmed | done..].
  - intros v ->. destruct (strip_split v) as (l & r' & Hv & ? & ?).
    exists (updated t title (Some v) due clear_due), l, r'.
    split_and!; [done | apply strip_trimmed | done..].
  - intros Hall. apply Forall_insert; [done|].
    assert (text_trimmed t) as [Ht Hd].
    { rewrite Forall_forall in Hall. apply Hall. by eapply list_elem_of_lookup_2. }
    split; simpl.
    + destruct title; [apply strip_trimmed | done].
    + destruct desc; [apply strip_trimmed | done].
  - intros ti de du now Hall. simpl. apply Forall_app. split; [done|].
    constructor; [|constructor]. split; apply strip_trimmed.
Qed.

Lemma update_keeps_text_trimmed_witness :
  let t := Todo.mk 1 "a" "b" None false "2025-01-01 10:00" in
  exists t' l r',
    find_by_id (mem (update_todo_fields [t] 1 (Some "  milk ") None None false
                       (mkworld None 0))) 1 = Some t' /\
    PyStr.trimmed (Todo.title t') /\
    "  milk " = (l ++ Todo.title t' ++ r')%string /\
    PyStr.all_space l = true /\ PyStr.all_space r' = true.
Proof.
  intros t.
  destruct (update_keeps_text_trimmed [t] 1 t (Some "  milk ") None None false
              (mkworld None 0) eq_refl) as (H & _).
  exact (H "  milk " eq_refl).
Defined.

Example update_trims_title :
  mem (update_todo_fields [Todo.mk 1 "a" "b" None false "c"] 1 (Some "  milk ")
         None None false (mkworld None 0))
  = [Todo.mk 1 "milk" "b" None false "c"].
Proof. reflexivity. Qed.

(** ** Ids along a sequence of operations *)


Section Ids.
Implicit Types (todos : list Todo) (t : Todo) (todo_id : Z) (w : world).

Lemma next_id_fresh todos : ~ In (next_id todos) (ids todos).
Proof.
  intros Hin. pose proof (next_id_above todos) as H.
  rewrite Forall_forall in H. apply list_elem_of_In, H in Hin. lia.
Qed.

Lemma add_todo_ids todos title description due now w :
  ids (mem (add_todo todos title description due now w)) = ids todos ++ [next_id todos].
Proof. unfold ids. simpl. by rewrite map_app. Qed.

Lemma update_todo_fields_ids todos todo_id title desc due clear_due w :
  ids (mem (update_todo_fields todos todo_id title desc due clear_due w)) = ids todos.
Proof.
  unfold update_todo_fields. destruct (ref_by_id todos todo_id); [|done].
  destruct title, desc, due, clear_due; simpl; by rewrite ?ids_setattr.
Qed.

Lemma set_complete_ids todos todo_id completed w :
  ids (mem (set_complete todos todo_id completed w)) = ids todos.
Proof.
  unfold set_complete. destruct (ref_by_id todos todo_id); [|done].
  simpl. by rewrite ids_setattr.
Qed.

(** A delete takes out the first record with the id, and only it. *)
Lemma delete_todo_found todos todo_id t w :
  find_by_id todos todo_id = Some t ->
  exists before after,
    todos = before ++ t :: after /\ ~ In todo_id (ids before) /\
    delete_todo todos todo_id w =
      Ran (Returned tt) (before ++ after) (save_todos (before ++ after) w).
Proof.
  intros Hf. destruct (find_by_id_split _ _ _ Hf) as (b & a & Heq & Hid & Hn).
  exists b, a. split_and!; [done..|].
  unfold delete_todo. rewrite Hf, Heq, list_remove_found; [done|]. by rewrite Hid.
Qed.

Lemma delete_todo_NoDup todos todo_id w :
  NoDup (ids todos) -> NoDup (ids (mem (delete_todo todos todo_id w))).
Proof.
  intros Hnd. destruct (find_by_id todos todo_id) as [t|] eqn:Hf.
  - destruct (delete_todo_found _ _ _ w Hf) as (b & a & -> & _ & ->). simpl.
    unfold ids in *. rewrite map_app in *. simpl in Hnd.
    apply NoDup_app in Hnd as (Hb & Hd & [_ Ha]%NoDup_cons).
    apply NoDup_app. split_and!; [done| |done].
    intros x Hx Hxa. apply (Hd x Hx). by right.
  - unfold delete_todo. by rewrite Hf.
Qed.

Lemma step_NoDup (s : session) (o : op) :
  NoDup (ids (s_todos s)) -> NoDup (ids (s_todos (step s o))).
Proof.
  intros Hnd. destruct o; simpl.
  - fold (ids (s_todos s ++
               [Todo.mk (next_id (s_todos s)) (PyStr.strip title)
                  (PyStr.strip description) due false now])).
    change (NoDup (ids (mem (add_todo (s_todos s) title description due now (s_world s))))).
    rewrite add_todo_ids. apply NoDup_app. split_and!; [done| |apply NoDup_singleton].
    intros x Hx ->%list_elem_of_singleton.
    by apply list_elem_of_In, next_id_fresh in Hx.
  - by rewrite update_todo_fields_ids.
  - by rewrite set_complete_ids.
  - by apply delete_todo_NoDup.
Qed.

Lemma run_NoDup (ops : list op) (s : session) :
  NoDup (ids (s_todos s)) -> NoDup (ids (s_todos (run ops s))).
Proof.
  revert s. induction ops as [|o ops IH]; intros s Hnd; simpl; [done|].
  apply IH. by apply step_NoDup.
Qed.

End Ids.

(** C1, as the code has it: from a collection whose ids are unique, after
    every sequence of create, update, complete and delete operations the
    ids of the collection are unique, and a create gives the new record an
    id greater than every id the collection holds at that moment, so an id
    of a record in the collection is never given again.  Nothing is said
    of the ids of deleted records: the code keeps no trace of them. *)
Theorem ids_stay_unique (s : session) (ops : list op) :
  NoDup (ids (s_todos s)) ->
  let s' := run ops s in
  NoDup (ids (s_todos s')) /\
  forall title description due now,
    let r := add_todo (s_todos s') title description due now (s_world s') in
    exists t,
      outcome r = Returned t /\
      mem r = s_todos s' ++ [t] /\
      Forall (fun i => i < Todo.id t) (ids (s_todos s')) /\
      ~ In (Todo.id t) (ids (s_todos s')) /\
      NoDup (ids (mem r)).
Proof.
  intros Hnd s'. pose proof (run_NoDup ops s Hnd) as Hnd'. split; [done|].
  intros title description due now r.
  exists (Todo.mk (next_id (s_todos s')) (PyStr.strip title) (PyStr.strip description)
                  due false now).
  split_and!; [done | done | apply next_id_above | apply next_id_fresh |].
  exact (step_NoDup s' (Create title description due now) Hnd').
Qed.

Lemma ids_stay_unique_witness :
  let s := Session [Todo.mk 4 "a" "b" None false "c"; Todo.mk 2 "d" "e" None true "f"]
                   (mkworld None 0) [] in
  let ops := [Delete 4; Create " x " "y" None "g"; Update 3 None None None true] in
  NoDup (ids (s_todos (run ops s))).
Proof.
  intros s ops.
  refine (proj1 (ids_stay_unique s ops _)).
  change (NoDup [4; 2]). apply (bool_decide_unpack _). vm_compute. exact I.
Defined.

(** C1, as stated, fails: create, create, delete the second record, create
    again, from the empty collection; the id 2 of the deleted record is
    given to the record created after the deletion. *)
Lemma id_reused_after_delete :
  let ops := [Create "a" "" None "t1"; Create "b" "" None "t2"; Delete 2;
              Create "c" "" None "t3"] in
  let s := run ops (Session [] (mkworld None 0) []) in
  s_log s = [Assigned 1; Assigned 2; Removed 2; Assigned 2] /\
  reuses (s_log s) = true /\
  ids (s_todos s) = [1; 2].
Proof. vm_compute. done. Qed.

(** ** Listing *)


Section SortFacts.
Context {A K : Type} (ltb : K -> K -> bool) (key : A -> K).


Hypothesis ltb_asym : forall a b, ltb a b = true -> ltb b a = false.
Hypothesis ltb_negtrans :
  forall a b c, ltb b a = false -> ltb c b = false -> ltb c a = false.

Lemma insert_Permutation (x : A) (l : list A) :
  Permutation (insert ltb key x l) (x :: l).
Proof.
  induction l as [|y l IH]; simpl; [done|].
  destruct (ltb (key y) (key x)); [|done].
  rewrite IH. apply perm_swap.
Qed.

Lemma sort_Permutation (l : list A) : Permutation (sort ltb key l) l.
Proof.
  induction l as [|x l IH]; simpl; [done|].
  rewrite insert_Permutation. by constructor.
Qed.

Lemma insert_StronglySorted (x : A) (l : list A) :
  StronglySorted (not_after ltb key) l ->
  StronglySorted (not_after ltb key) (insert ltb key x l).
Proof.
  induction 1 as [|y l Hs IH Hy]; simpl.
  - repeat constructor.
  - destruct (ltb (key y) (key x)) eqn:E.
    + constructor; [done|].
      rewrite insert_Permutation. constructor; [|done].
      by apply ltb_asym.
    + constructor; [by constructor|].
      constructor; [done|].
      eapply Forall_impl; [exact Hy|]. intros z Hz. unfold not_after in *.
      by apply (ltb_negtrans _ (key y)).
Qed.

Lemma sort_StronglySorted (l : list A) :
  StronglySorted (not_after ltb key) (sort ltb key l).
Proof.
  induction l as [|x l IH]; simpl; [constructor|].
  by apply insert_StronglySorted.
Qed.

End SortFacts.

Section DueOrder.
Import PyDate.

Lemma date_ltb_iff (a b : date) :
  ltb a b = true <->
  year a < year b \/
  (year a = year b /\ (month a < month b \/ (month a = month b /\ day a < day b))).
Proof.
  unfold ltb.
  rewrite !orb_true_iff, !andb_true_iff, !orb_true_iff, !andb_true_iff,
    !Z.ltb_lt, !Z.eqb_eq. tauto.
Qed.

Lemma date_eqb_iff (a b : date) :
  eqb a b = true <-> year a = year b /\ month a = month b /\ day a = day b.
Proof. unfold eqb. rewrite !andb_true_iff, !Z.eqb_eq. tauto. Qed.

Lemma date_eqb_eq (a b : date) : eqb a b = true <-> a = b.
Proof.
  rewrite date_eqb_iff. destruct a, b; simpl. split.
  - by intros (-> & -> & ->).
  - by intros [= -> -> ->].
Qed.


Lemma due_key_ltb_iff (a b : Z * date * Z) :
  due_key_ltb a b = true <-> key_lt a b.
Proof.
  destruct a as [[ra da] ia], b as [[rb db] ib]. unfold due_key_ltb, key_lt.
  destruct (Z.eqb_spec ra rb) as [->|Hr]; simpl.
  - destruct (eqb da db) eqn:E; simpl.
    + rewrite Z.ltb_lt. apply date_eqb_eq in E as ->.
      assert (ltb db db = true -> False) by (rewrite date_ltb_iff; lia).
      intuition lia.
    + intuition (try lia; try congruence).
  - rewrite Z.ltb_lt. intuition lia.
Qed.

Lemma due_key_ltb_asym (a b : Z * date * Z) :
  due_key_ltb a b = true -> due_key_ltb b a = false.
Proof.
  intros H. apply not_true_is_false. revert H. rewrite !due_key_ltb_iff.
  destruct a as [[ra da] ia], b as [[rb db] ib]. unfold key_lt.
  rewrite !date_ltb_iff, !date_eqb_iff. lia.
Qed.

Lemma due_key_ltb_negtrans (a b c : Z * date * Z) :
  due_key_ltb b a = false -> due_key_ltb c b = false -> due_key_ltb c a = false.
Proof.
  rewrite <- !not_true_iff_false, !due_key_ltb_iff.
  destruct a as [[ra da] ia], b as [[rb db] ib], c as [[rc dc] ic]. unfold key_lt.
  rewrite !date_ltb_iff, !date_eqb_iff. lia.
Qed.

Lemma not_after_due_before (a b : Todo) :
  not_after due_key_ltb due_key a b -> due_before a b.
Proof.
  unfold not_after, due_before, due_key.
  rewrite <- not_true_iff_false, due_key_ltb_iff.
  destruct (Todo.due_as_date a) as [da|], (Todo.due_as_date b) as [db|];
    unfold key_lt.
  - intros H. destruct (eqb db da) eqn:E.
    + apply date_eqb_eq in E as ->. right. split; [done|]. lia.
    + left. apply date_ltb_iff.
      assert (~ (year db = year da /\ month db = month da /\ day db = day da)) as Hne.
      { rewrite <- date_eqb_iff. congruence. }
      rewrite date_ltb_iff in H. lia.
  - done.
  - intros H. apply H. left. lia.
  - intros H. assert (eqb max max = true) as E by done. rewrite E in H. lia.
Qed.

End DueOrder.

Lemma StronglySorted_weaken {A : Type} (R R' : A -> A -> Prop) (l : list A) :
  (forall a b, R a b -> R' a b) -> StronglySorted R l -> StronglySorted R' l.
Proof.
  intros HR. induction 1 as [|x l Hs IH Hx]; constructor; [done|].
  eapply Forall_impl; [exact Hx|]. intros y. apply HR.
Qed.

Lemma shown_items_Shown (items : list Todo) : shown_items (map Shown items) = items.
Proof. induction items as [|t l IH]; simpl; [done|]. unfold shown_items in *. simpl. by rewrite IH. Qed.

Example list_unparseable_date_goes_last :
  shown_ids (list_todos [Todo.mk 1 "a" "" (Some "soon") false "";
                         Todo.mk 2 "b" "" (Some "2025-01-01") true "";
                         Todo.mk 3 "c" "" (Some "") false ""] true false)
  = [2; 1; 3].
Proof. reflexivity. Qed.

Example list_open_only_by_id :
  shown_ids (list_todos [Todo.mk 3 "a" "" None false "";
                         Todo.mk 1 "b" "" (Some "2025-01-01") true "";
                         Todo.mk 2 "c" "" None false ""] false true)
  = [2; 3].
Proof. reflexivity. Qed.

(** C2: with sort_by_due the records listed are those of the collection
    (the open ones under open_only), those with a due date that parses
    before the others, by ascending date, then by ascending id, the undated
    ones by ascending id; without sort_by_due they are listed by ascending
    id alone.  The records 1 (due 2025-03-01), 2 (no date), 3 (due
    2025-01-01) are listed as 3, 1, 2. *)
Theorem list_todos_order (todos : list Todo) (open_only : bool) :
  let pool := if open_only
              then List.filter (fun t => negb (Todo.completed t)) todos
              else todos in
  let by_due := shown_items (list_todos todos true open_only) in
  let by_id := shown_items (list_todos todos false open_only) in
  Permutation by_due pool /\
  StronglySorted due_before by_due /\
  Permutation by_id pool /\
  StronglySorted (fun a b => Todo.id a <= Todo.id b) by_id /\
  (forall b, list_todos todos b open_only =
             match todos with
             | [] => [NoTodosYet]
             | _ => map Shown (if b then by_due else by_id)
             end) /\
  (forall ti1 de1 c1 cr1 ti2 de2 c2 cr2 ti3 de3 c3 cr3,
      shown_ids (list_todos [Todo.mk 1 ti1 de1 (Some "2025-03-01") c1 cr1;
                             Todo.mk 2 ti2 de2 None c2 cr2;
                             Todo.mk 3 ti3 de3 (Some "2025-01-01") c3 cr3]
                   true false) = [3; 1; 2]).
Proof.
  intros pool by_due by_id.
  assert (by_due = sort due_key_ltb due_key pool) as Hdue.
  { unfold by_due, list_todos. destruct todos as [|t rest].
    - unfold pool. by destruct open_only.
    - by rewrite shown_items_Shown. }
  assert (by_id = sort Z.ltb Todo.id pool) as Hid.
  { unfold by_id, list_todos. destruct todos as [|t rest].
    - unfold pool. by destruct open_only.
    - by rewrite shown_items_Shown. }
  split_and!.
  - rewrite Hdue. apply sort_Permutation.
  - rewrite Hdue.
    eapply StronglySorted_weaken; [|apply sort_StronglySorted].
    + intros a b. apply not_after_due_before.
    + apply due_key_ltb_asym.
    + apply due_key_ltb_negtrans.
  - rewrite Hid. apply sort_Permutation.
  - rewrite Hid.
    eapply StronglySorted_weaken; [|apply (sort_StronglySorted Z.ltb Todo.id)].
    + intros a b. unfold not_after. rewrite Z.ltb_ge. done.
    + intros a b. rewrite Z.ltb_lt, Z.ltb_ge. lia.
    + intros a b c. rewrite !Z.ltb_ge. lia.
  - intros b. destruct todos as [|t rest]; [done|].
    rewrite Hdue, Hid. unfold list_todos. fold pool. by destruct b.
  - intros. vm_compute. done.
Qed.

(** ** Due dates *)


Section DueDate.
Import PyStr PyDate.

Lemma isdigit_cases (c : ascii) :
  isdigit c = true ->
  In c ["0"; "1"; "2"; "3"; "4"; "5"; "6"; "7"; "8"; "9"]%char.
Proof.
  destruct c as [[] [] [] [] [] [] [] []]; vm_compute; intros H;
    try discriminate H; tauto.
Qed.

Lemma isdigit_not_space (c : ascii) : isdigit c = true -> isspace c = false.
Proof.
  intros H. apply isdigit_cases in H. simpl in H.
  repeat (destruct H as [<-|H]; [reflexivity|]). destruct H.
Qed.

Lemma int_two (a b : ascii) :
  isdigit a = true ->
  int (String a (String b "")) = 10 * digit_value a + digit_value b.
Proof.
  intros Ha. unfold int. simpl. rewrite (isdigit_not_space a Ha). simpl. lia.
Qed.

Lemma int_four (a b c d : ascii) :
  isdigit a = true ->
  int (String a (String b (String c (String d "")))) =
  1000 * digit_value a + 100 * digit_value b + 10 * digit_value c + digit_value d.
Proof.
  intros Ha. unfold int. simpl. rewrite (isdigit_not_space a Ha). simpl. lia.
Qed.

Lemma days_in_month_le (y m : Z) : days_in_month y m <= 31.
Proof.
  unfold days_in_month. destruct ((m =? 2) && is_leap y); [lia|].
  unfold DAYS_IN_MONTH. generalize (Z.to_nat m) as n. intros n.
  do 13 (destruct n as [|n]; simpl; [lia|]).
  destruct n; simpl; lia.
Qed.

Lemma make_Returned (y m d : Z) (x : date) :
  make y m d = Returned x ->
  x = mkdate y m d /\ 1 <= y <= 9999 /\ 1 <= m <= 12 /\ 1 <= d <= 31.
Proof.
  unfold make, MINYEAR, MAXYEAR. pose proof (days_in_month_le y m).
  destruct (Z.leb_spec 1 y), (Z.leb_spec y 9999); simpl; try done.
  destruct (Z.leb_spec 1 m), (Z.leb_spec m 12); simpl; try done.
  destruct (Z.leb_spec 1 d), (Z.leb_spec d (days_in_month y m)); simpl; try done.
  intros [= <-]. split; [done | lia].
Qed.

(** A month written with two digits is matched by a two-digit alternative
    first. *)
Lemma re_m_two_digits (a b : ascii) (r : string) :
  isdigit a = true -> isdigit b = true ->
  1 <= 10 * digit_value a + digit_value b <= 12 ->
  exists tl, re_m (String a (String b r)) = (String a (String b ""), r) :: tl.
Proof.
  intros Ha%isdigit_cases Hb%isdigit_cases. simpl in Ha, Hb.
  repeat (destruct Ha as [<-|Ha]; [|]); try (destruct Ha);
    repeat (destruct Hb as [<-|Hb]; [|]); try (destruct Hb);
    vm_compute; intros [H1 H2]; try (exfalso; by (apply H1 || apply H2));
    eexists; reflexivity.
Qed.

Lemma re_d_two_digits (a b : ascii) :
  isdigit a = true -> isdigit b = true ->
  1 <= 10 * digit_value a + digit_value b <= 31 ->
  exists tl, re_d (String a (String b "")) = (String a (String b ""), "") :: tl.
Proof.
  intros Ha%isdigit_cases Hb%isdigit_cases. simpl in Ha, Hb.
  repeat (destruct Ha as [<-|Ha]; [|]); try (destruct Ha);
    repeat (destruct Hb as [<-|Hb]; [|]); try (destruct Hb);
    vm_compute; intros [H1 H2]; try (exfalso; by (apply H1 || apply H2));
    eexists; reflexivity.
Qed.

Lemma bind_first {A B : Type} (l : list A) (f : A -> list B) (x : A) (y : B) :
  (exists tl, l = x :: tl) -> (exists tl, f x = y :: tl) ->
  exists tl, l ≫= f = y :: tl.
Proof.
  intros [tl ->] [tl' H]. simpl. rewrite H. by eexists.
Qed.

(** A text in the fixed form is parsed to the date it names. *)
Lemma strptime_fixed_format (s : string) :
  fixed_format s = true -> exists d, strptime s = Returned d.
Proof.
  unfold fixed_format.
  destruct s as [|y1 [|y2 [|y3 [|y4 [|h1 [|m1 [|m2 [|h2 [|d1 [|d2 [|]]]]]]]]]]];
    try discriminate.
  rewrite !andb_true_iff. simpl forallb. rewrite !andb_true_iff.
  intros [[[(Hy1 & Hy2 & Hy3 & Hy4 & Hm1 & Hm2 & Hd1 & Hd2 & _) Hh1] Hh2] Hmk].
  apply Ascii.eqb_eq in Hh1 as ->. apply Ascii.eqb_eq in Hh2 as ->.
  destruct (make _ _ _) as [x|] eqn:Hx; [clear Hmk|discriminate].
  destruct (make_Returned _ _ _ _ Hx) as (_ & _ & Hm & Hd).
  destruct (re_m_two_digits m1 m2 (String "-" (String d1 (String d2 ""))) Hm1 Hm2 Hm)
    as [tlm Hrem].
  destruct (re_d_two_digits d1 d2 Hd1 Hd2 Hd) as [tld Hred].
  assert (exists tl, matches
            (String y1 (String y2 (String y3 (String y4 (String "-"
              (String m1 (String m2 (String "-" (String d1 (String d2 ""))))))))))
          = (String y1 (String y2 (String y3 (String y4 ""))),
             String m1 (String m2 ""), String d1 (String d2 ""), "") :: tl)
    as [tl Hmatch].
  { unfold matches.
    eapply bind_first.
    { unfold re_Y, four. rewrite Hy1, Hy2, Hy3, Hy4. simpl. by eexists. }
    eapply bind_first; [by eexists|].
    eapply bind_first; [by eexists|].
    eapply bind_first; [by eexists|].
    eapply bind_first; [by eexists|].
    by eexists. }
  exists x. unfold strptime. rewrite Hmatch. cbn [head truthy].
  by rewrite (int_four _ _ _ _ Hy1), (int_two _ _ Hm1), (int_two _ _ Hd1).
Qed.

Lemma parse_due_date_cases (s : string) :
  parse_due_date (Some s) =
    if String.eqb (strip s) "" then Returned None
    else match strptime (strip s) with
         | Raised e => Raised e
         | Returned _ => Returned (Some (strip s))
         end.
Proof. reflexivity. Qed.

Lemma strptime_Raised (s : string) (e : ValueError) :
  strptime s = Raised e ->
  e = NoFormatMatch s \/ (exists rest, e = UnconvertedData rest) \/ e = DateOutOfRange.
Proof.
  unfold strptime. destruct (head (matches s)) as [[[[Y m] d] rest]|].
  - destruct (truthy rest).
    + intros [= <-]. right. left. by eexists.
    + unfold make.
      repeat match goal with |- context [if ?b then _ else _] => destruct b end;
        intros [= <-]; tauto.
  - intros [= <-]. by left.
Qed.

Lemma matches_year_first (s : string) : year_first s = false -> matches s = [].
Proof.
  unfold year_first, matches, re_Y, four.
  destruct s as [|y1 [|y2 [|y3 [|y4 r]]]]; try done.
  destruct r as [|h1 r].
  { intros _. destruct (isdigit y1 && isdigit y2 && isdigit y3 && isdigit y4); done. }
  simpl forallb. rewrite andb_true_r, !andb_assoc.
  destruct (isdigit y1 && isdigit y2 && isdigit y3 && isdigit y4); [|done].
  simpl. unfold chr. intros ->. done.
Qed.

Lemma matches_month_out_of_range (s : string) :
  fixed_shape s = true -> ~ (1 <= month_written s <= 12) -> matches s = [].
Proof.
  unfold fixed_shape.
  destruct s as [|y1 [|y2 [|y3 [|y4 [|h1 [|m1 [|m2 [|h2 [|d1 [|d2 [|]]]]]]]]]]];
    try discriminate.
  rewrite !andb_true_iff. simpl forallb. rewrite !andb_true_iff.
  intros [[(Hy1 & Hy2 & Hy3 & Hy4 & Hm1 & Hm2 & Hd1 & Hd2 & _) Hh1] Hh2].
  apply Ascii.eqb_eq in Hh1 as ->. apply Ascii.eqb_eq in Hh2 as ->.
  unfold matches, re_Y, four. rewrite Hy1, Hy2, Hy3, Hy4.
  apply isdigit_cases in Hm1, Hm2. simpl in Hm1, Hm2.
  repeat (destruct Hm1 as [<-|Hm1]; [|]); try (destruct Hm1);
    repeat (destruct Hm2 as [<-|Hm2]; [|]); try (destruct Hm2);
    vm_compute; intros H; try reflexivity; exfalso; apply H; split; discriminate.
Qed.

Lemma strptime_Raised_which (s : string) (e : ValueError) :
  strptime s = Raised e ->
  match head (matches s) with
  | None => e = NoFormatMatch s
  | Some (_, _, _, rest) =>
      if truthy rest then e = UnconvertedData rest else e = DateOutOfRange
  end.
Proof.
  unfold strptime. destruct (head (matches s)) as [[[[Y m] d] rest]|].
  - destruct (truthy rest).
    + by intros [= <-].
    + unfold make.
      repeat match goal with |- context [if ?b then _ else _] => destruct b end;
        by intros [= <-].
  - by intros [= <-].
Qed.

End DueDate.

(** C3, as the code has it: an absent input, and an input that is empty
    once the white space at its ends is taken off, give no date; any other
    input is judged on its trimmed text: either the trimmed text is
    returned, and then it parses as a date, or the call raises.  A trimmed
    text in the fixed form of four, two and two digits that names a day of
    the calendar is always returned.  The call raises with the trimmed text
    in the error exactly when no beginning of the trimmed text matches the
    format; so it does for every text that does not begin with four digits
    and a hyphen, and for every text in the fixed shape whose month is not
    01 to 12.  When a beginning matches, the error carries what follows the
    first match, if anything follows it, and else tells that the day is
    out of range: it never carries the text then.  "2025-13-40" and
    "tomorrow" raise with that text, and the empty text gives no date. *)
Theorem parse_due_date_on_trimmed_text (s : string) :
  parse_due_date None = Returned None /\
  (PyStr.strip s = "" -> parse_due_date (Some s) = Returned None) /\
  (PyStr.strip s <> "" ->
     (parse_due_date (Some s) = Returned (Some (PyStr.strip s)) /\
      exists d, PyDate.strptime (PyStr.strip s) = Returned d)
     \/
     (exists e, parse_due_date (Some s) = Raised e /\
        (e = NoFormatMatch (PyStr.strip s)
         \/ (exists rest, e = UnconvertedData rest)
         \/ e = DateOutOfRange))) /\
  (fixed_format (PyStr.strip s) = true ->
     parse_due_date (Some s) = Returned (Some (PyStr.strip s))) /\
  parse_due_date (Some "2025-13-40") = Raised (NoFormatMatch "2025-13-40") /\
  parse_due_date (Some "") = Returned None /\
  (PyStr.strip s <> "" ->
     (PyDate.matches (PyStr.strip s) = [] <->
      parse_due_date (Some s) = Raised (NoFormatMatch (PyStr.strip s)))) /\
  (PyStr.strip s <> "" -> year_first (PyStr.strip s) = false ->
     parse_due_date (Some s) = Raised (NoFormatMatch (PyStr.strip s))) /\
  (fixed_shape (PyStr.strip s) = true ->
     ~ (1 <= month_written (PyStr.strip s) <= 12) ->
     parse_due_date (Some s) = Raised (NoFormatMatch (PyStr.strip s))) /\
  (forall e, parse_due_date (Some s) = Raised e ->
     match head (PyDate.matches (PyStr.strip s)) with
     | None => e = NoFormatMatch (PyStr.strip s)
     | Some (_, _, _, rest) =>
         if PyStr.truthy rest then e = UnconvertedData rest
         else e = DateOutOfRange
     end) /\
  parse_due_date (Some " tomorrow ") = Raised (NoFormatMatch "tomorrow").
Proof.
  assert (forall e, parse_due_date (Some s) = Raised e ->
            PyDate.strptime (PyStr.strip s) = Raised e) as Hraised.
  { intros e. rewrite parse_due_date_cases.
    destruct (String.eqb (PyStr.strip s) ""); [done|].
    destruct (PyDate.strptime (PyStr.strip s)); [done|]. by intros [= ->]. }
  assert (PyStr.strip s <> "" -> PyDate.matches (PyStr.strip s) = [] ->
          parse_due_date (Some s) = Raised (NoFormatMatch (PyStr.strip s))) as Hnone.
  { intros Hne Hm. rewrite parse_due_date_cases.
    destruct (String.eqb_spec (PyStr.strip s) ""); [done|].
    unfold PyDate.strptime. by rewrite Hm. }
  split_and!; try reflexivity.
  - intros H. rewrite parse_due_date_cases, H. done.
  - intros H. rewrite parse_due_date_cases.
    destruct (String.eqb_spec (PyStr.strip s) ""); [done|].
    destruct (PyDate.strptime (PyStr.strip s)) as [d|e] eqn:E.
    + left. split; [done | by exists d].
    + right. exists e. split; [done | by apply strptime_Raised].
  - intros H. rewrite parse_due_date_cases.
    destruct (String.eqb_spec (PyStr.strip s) "") as [Heq|_].
    + rewrite Heq in H. discriminate H.
    + destruct (strptime_fixed_format _ H) as [d ->]. done.
  - intros Hne. split; [by apply Hnone|].
    intros H%Hraised%strptime_Raised_which.
    destruct (PyDate.matches (PyStr.strip s)) as [|[[[Y m] d] rest] tl]; [done|].
    simpl in H. by destruct (PyStr.truthy rest).
  - intros Hne H. apply Hnone; [done|]. by apply matches_year_first.
  - intros Hshape Hmonth. apply Hnone.
    + intros Heq. rewrite Heq in Hshape. discriminate Hshape.
    + by apply matches_month_out_of_range.
  - intros e H. by apply strptime_Raised_which, Hraised.
Qed.

Lemma parse_due_date_on_trimmed_text_witness :
  parse_due_date (Some "  ") = Returned None /\
  parse_due_date (Some " 2024-02-29 ") = Returned (Some "2024-02-29") /\
  parse_due_date (Some "next week") = Raised (NoFormatMatch "next week") /\
  parse_due_date (Some "2025-00-10") = Raised (NoFormatMatch "2025-00-10").
Proof.
  split_and!.
  - destruct (parse_due_date_on_trimmed_text "  ") as (_ & H & _).
    apply H. reflexivity.
  - destruct (parse_due_date_on_trimmed_text " 2024-02-29 ") as (_ & _ & _ & H & _).
    apply H. reflexivity.
  - destruct (parse_due_date_on_trimmed_text "next week")
      as (_ & _ & _ & _ & _ & _ & _ & H & _).
    apply H; [discriminate | reflexivity].
  - destruct (parse_due_date_on_trimmed_text "2025-00-10")
      as (_ & _ & _ & _ & _ & _ & _ & _ & H & _).
    apply H; [reflexivity | vm_compute; intros [H1 _]; by apply H1].
Defined.

(** C3, as stated, fails: an input of blanks is not empty, yet it gives no
    date, neither its text nor an error; and an input with a blank before
    the date is not in the fixed form, yet a date text is returned, another
    text than the input. *)
Lemma blank_input_is_no_date :
  "   " <> "" /\
  parse_due_date (Some "   ") = Returned None /\
  ~ (parse_due_date (Some "   ") = Returned (Some "   ")
     \/ exists e, parse_due_date (Some "   ") = Raised e) /\
  fixed_format " 2025-03-01" = false /\
  parse_due_date (Some " 2025-03-01") = Returned (Some "2025-03-01").
Proof.
  split_and!; try reflexivity; [done|].
  intros [H|[e H]]; vm_compute in H; discriminate H.
Qed.

(** ** The store *)

Lemma Todo_init_asdict (t : Todo) : Todo_init (asdict t) = Some (dyn t).
Proof. reflexivity. Qed.

Lemma typed_dyn (t : Todo) : typed (dyn t) = Some t.
Proof. destruct t as [i ti de [du|] c cr]; reflexivity. Qed.

Lemma mapM_Todo_init_asdict (todos : list Todo) :
  mapM Todo_init (map asdict todos) = Some (map dyn todos).
Proof.
  apply mapM_Some. induction todos as [|t l IH]; simpl; constructor; [|done].
  apply Todo_init_asdict.
Qed.

Lemma mapM_typed_dyn (todos : list Todo) : mapM typed (map dyn todos) = Some todos.
Proof.
  apply mapM_Some. induction todos as [|t l IH]; simpl; constructor; [|done].
  apply typed_dyn.
Qed.

(** C7: a load after a save, on the file as the save left it, gives back
    the collection that was saved: without a warning, the same records, with
    the same ids and field values, and in the same order. *)
Theorem save_then_load (todos : list Todo) (w : world) :
  let loaded := load_todos (save_todos todos w) in
  loaded = (map dyn todos, []) /\
  mapM typed (fst loaded) = Some todos /\
  Permutation (fst loaded) (map dyn todos).
Proof.
  assert (load_todos (save_todos todos w) = (map dyn todos, [])) as H.
  { unfold load_todos, save_todos. simpl. by rewrite mapM_Todo_init_asdict. }
  cbv zeta. rewrite H. simpl. split_and!; [done | apply mapM_typed_dyn | done].
Qed.

Lemma Todo_init_Some (item : pyval) (d : DynTodo) :
  Todo_init item = Some d <->
  exists kw,
    item = PDict kw /\
    forallb (fun e => existsb (String.eqb (fst e)) FIELDS) kw = true /\
    dict_get kw "id" = Some (dyn_id d) /\
    dict_get kw "title" = Some (dyn_title d) /\
    dict_get kw "description" = Some (dyn_description d) /\
    dyn_due_date d = default PNone (dict_get kw "due_date") /\
    dyn_completed d = default (PBool false) (dict_get kw "completed") /\
    dyn_created_at d = default (PStr "") (dict_get kw "created_at").
Proof.
  split.
  - destruct item as [| | | | | |kw]; try discriminate. unfold Todo_init.
    destruct (forallb _ kw) eqn:Hk; [|discriminate].
    destruct (dict_get kw "id") as [i|] eqn:Hi; [|discriminate].
    destruct (dict_get kw "title") as [ti|] eqn:Hti; [|discriminate].
    destruct (dict_get kw "description") as [de|] eqn:Hde; [|discriminate].
    intros [= <-]. exists kw. by split_and!.
  - intros (kw & -> & Hk & Hi & Hti & Hde & Hdu & Hc & Hcr). unfold Todo_init.
    rewrite Hk, Hi, Hti, Hde, <- Hdu, <- Hc, <- Hcr. by destruct d.
Qed.

(** C5, as the code has it, for the files on which [json.load] returns a
    value or raises an error that [load_todos] catches: without a backing
    file the load gives the empty collection and no warning; with a file
    whose text is no JSON document, or whose value cannot be iterated, or
    with an item that is no object with the keys id, title and description
    and no key but the six field names, it gives the empty collection with
    the warning; otherwise it gives one record for every item, none left
    out, without a warning, the values of an object taken as they are,
    whatever their types.  An item gives a record exactly when it is such
    an object, and the record has the values of the object, with the
    defaults of the dataclass for the three other keys.  A document on
    which [json.load] raises an exception that is not caught, as one nested
    deeper than the interpreter allows, is no case of this statement: the
    load does not return then. *)
Theorem load_todos_all_or_nothing (w : world) :
  (data_file w = None -> load_todos w = ([], [])) /\
  (data_file w = Some Garbled -> load_todos w = ([], [WARNING])) /\
  (forall raw, data_file w = Some (Json raw) ->
     (iterate raw = None -> load_todos w = ([], [WARNING])) /\
     (forall items, iterate raw = Some items ->
        Exists (fun item => Todo_init item = None) items ->
        load_todos w = ([], [WARNING])) /\
     (forall items, iterate raw = Some items ->
        Forall (fun item => is_Some (Todo_init item)) items ->
        snd (load_todos w) = [] /\
        length (fst (load_todos w)) = length items /\
        Forall2 (fun item d => Todo_init item = Some d) items (fst (load_todos w)))) /\
  (forall kw i ti de,
     forallb (fun e => existsb (String.eqb (fst e)) FIELDS) kw = true ->
     dict_get kw "id" = Some i -> dict_get kw "title" = Some ti ->
     dict_get kw "description" = Some de ->
     exists d, Todo_init (PDict kw) = Some d /\
               dyn_id d = i /\ dyn_title d = ti /\ dyn_description d = de) /\
  (forall item d,
     Todo_init item = Some d <->
     exists kw,
       item = PDict kw /\
       forallb (fun e => existsb (String.eqb (fst e)) FIELDS) kw = true /\
       dict_get kw "id" = Some (dyn_id d) /\
       dict_get kw "title" = Some (dyn_title d) /\
       dict_get kw "description" = Some (dyn_description d) /\
       dyn_due_date d = default PNone (dict_get kw "due_date") /\
       dyn_completed d = default (PBool false) (dict_get kw "completed") /\
       dyn_created_at d = default (PStr "") (dict_get kw "created_at")) /\
  (forall raw, data_file w = Some (Json raw) ->
     (snd (load_todos w) = [] <->
      exists items, iterate raw = Some items /\
        Forall (fun item => is_Some (Todo_init item)) items)).
Proof.
  unfold load_todos. split_and!.
  - by intros ->.
  - by intros ->.
  - intros raw ->. split_and!.
    + by intros ->.
    + intros items -> Hex. apply mapM_None in Hex. by rewrite Hex.
    + intros items -> Hall. apply mapM_is_Some in Hall as [ds Hds].
      rewrite Hds. simpl. split_and!; [done| |by apply mapM_Some].
      symmetry. by eapply length_mapM.
  - intros kw i ti de Hk Hi Hti Hde.
    exists (mkDyn i ti de (default PNone (dict_get kw "due_date"))
                  (default (PBool false) (dict_get kw "completed"))
                  (default (PStr "") (dict_get kw "created_at"))).
    split; [|done]. apply Todo_init_Some. exists kw. by split_and!.
  - apply Todo_init_Some.
  - intros raw ->. destruct (iterate raw) as [items|]; simpl.
    + destruct (mapM Todo_init items) as [ds|] eqn:Hds; simpl.
      * split; [|done]. intros _. exists items. split; [done|].
        apply mapM_is_Some. by exists ds.
      * split; [done|]. intros (items' & [= <-] & Hall).
        apply mapM_is_Some in Hall as [ds Hds']. congruence.
    + split; [done|]. by intros (items & [=] & _).
Qed.

Lemma load_todos_all_or_nothing_witness :
  load_todos (mkworld None 0) = ([], []) /\
  load_todos (mkworld (Some Garbled) 2) = ([], [WARNING]) /\
  load_todos (mkworld (Some (Json (PDict [("id", PInt 1)]))) 1) = ([], [WARNING]).
Proof.
  split; [|split].
  - apply (load_todos_all_or_nothing (mkworld None 0)). reflexivity.
  - apply (load_todos_all_or_nothing (mkworld (Some Garbled) 2)). reflexivity.
  - refine (proj1 (proj2 (proj1 (proj2 (proj2 (load_todos_all_or_nothing
              (mkworld (Some (Json (PDict [("id", PInt 1)]))) 1))))
              (PDict [("id", PInt 1)]) eq_refl)) [PStr "id"] eq_refl _).
    apply Exists_cons_hd. reflexivity.
Defined.

(** C5, as stated, fails: a file whose one object has a text for id, a
    number for title and null for description holds no valid record, yet
    the load gives a collection of one record, with those values, and no
    warning. *)
Lemma ill_typed_file_is_loaded :
  let w := mkworld (Some (Json (PList
             [PDict [("id", PStr "one"); ("title", PInt 7); ("description", PNone)]]))) 0 in
  load_todos w = ([mkDyn (PStr "one") (PInt 7) PNone PNone (PBool false) (PStr "")], []) /\
  mapM typed (fst (load_todos w)) = None /\
  load_todos w <> ([], [WARNING]).
Proof. split_and!; [reflexivity | reflexivity | discriminate]. Qed.

Example load_empty_object_no_warning :
  load_todos (mkworld (Some (Json (PDict []))) 0) = ([], []).
Proof. reflexivity. Qed.

Example load_one_bad_item_drops_all :
  load_todos (mkworld (Some (Json (PList
    [asdict (Todo.mk 1 "a" "b" None false "c"); PDict [("id", PInt 2)]]))) 0)
  = ([], [WARNING]).
Proof. reflexivity. Qed.

(** * Further properties of the record engine *)

(** ** Lookup by id *)

(** X1: [find_by_id] returns the first record of the list that has the id,
    and nothing exactly when no record has it. *)
Theorem find_by_id_first_match (todos : list Todo) (todo_id : Z) :
  match find_by_id todos todo_id with
  | Some t =>
      exists before after,
        todos = before ++ t :: after /\ Todo.id t = todo_id /\
        ~ In todo_id (ids before)
  | None => ~ In todo_id (ids todos)
  end.
Proof.
  destruct (find_by_id todos todo_id) as [t|] eqn:Hf.
  - by apply find_by_id_split.
  - by apply find_by_id_None.
Qed.

(** X2: in a list with unique ids every record is found by its own id. *)
Theorem find_by_id_own_id (todos : list Todo) (t : Todo) :
  NoDup (ids todos) -> In t todos -> find_by_id todos (Todo.id t) = Some t.
Proof.
  induction todos as [|x rest IH]; simpl; [done|].
  intros [Hx Hnd]%NoDup_cons [->|Hin].
  - by rewrite Z.eqb_refl.
  - destruct (Z.eqb_spec (Todo.id x) (Todo.id t)) as [E|_]; [|by apply IH].
    exfalso. apply Hx. rewrite E. apply list_elem_of_In, in_map_iff. by exists t.
Qed.

Lemma find_by_id_own_id_witness :
  let a := Todo.mk 4 "a" "" None false "" in
  let b := Todo.mk 2 "b" "" None true "" in
  find_by_id [a; b] 2 = Some b.
Proof.
  intros a b. apply (find_by_id_own_id [a; b] b).
  - change (NoDup [4; 2]). apply (bool_decide_unpack _). vm_compute. exact I.
  - simpl. right. left. reflexivity.
Defined.

(** ** Completion *)

Lemma set_complete_at (todos : list Todo) (todo_id : Z) (r : nat) (t : Todo)
    (completed : bool) (w : world) :
  ref_by_id todos todo_id = Some r -> todos !! r = Some t ->
  set_complete todos todo_id completed w =
    let todos' := <[r := Todo.set_completed completed t]> todos in
    Ran (Returned tt) todos' (save_todos todos' w).
Proof.
  intros Hr Hl. unfold set_complete. rewrite Hr. cbv zeta.
  by rewrite (setattr_found _ _ _ _ Hl).
Qed.

(** X3: on a record of the collection, [set_complete] returns, puts the
    given value in the completed field of the record that [find_by_id]
    finds, leaves its other fields and all other records as they were, and
    saves the collection once. *)
Theorem set_complete_sets_flag_only (todos : list Todo) (todo_id : Z) (t : Todo)
    (completed : bool) (w : world) :
  find_by_id todos todo_id = Some t ->
  let r := set_complete todos todo_id completed w in
  let t' := Todo.mk (Todo.id t) (Todo.title t) (Todo.description t)
                    (Todo.due_date t) completed (Todo.created_at t) in
  outcome r = Returned tt /\
  (exists i, todos !! i = Some t /\ mem r = <[i := t']> todos) /\
  find_by_id (mem r) todo_id = Some t' /\
  ids (mem r) = ids todos /\
  disk r = save_todos (mem r) w /\
  writes (disk r) = S (writes w).
Proof.
  intros Hf r t'. destruct (find_by_id_Some _ _ _ Hf) as (i & Hr & Hl & Hid).
  subst r. rewrite (set_complete_at _ _ _ _ _ _ Hr Hl). cbv zeta. simpl.
  split_and!; try done.
  - by exists i.
  - by apply (find_by_id_insert todos todo_id i t).
  - rewrite <- (set_complete_ids todos todo_id completed w).
    by rewrite (set_complete_at _ _ _ _ _ _ Hr Hl).
Qed.

Lemma set_complete_sets_flag_only_witness :
  let t := Todo.mk 1 "a" "b" (Some "2025-03-01") false "c" in
  find_by_id (mem (set_complete [t] 1 true (mkworld None 0))) 1
  = Some (Todo.mk 1 "a" "b" (Some "2025-03-01") true "c").
Proof.
  intros t.
  destruct (set_complete_sets_flag_only [t] 1 t true (mkworld None 0) eq_refl)
    as (_ & _ & H & _).
  exact H.
Defined.

(** X4: of two calls of [set_complete] on the same record the second
    decides: the collection is as after the second call alone, so marking
    done and reopening a record that was open gives back the collection as
    it was; the file is written twice. *)
Theorem set_complete_twice (todos : list Todo) (todo_id : Z) (t : Todo)
    (c1 c2 : bool) (w : world) :
  find_by_id todos todo_id = Some t ->
  let r1 := set_complete todos todo_id c1 w in
  let r2 := set_complete (mem r1) todo_id c2 (disk r1) in
  outcome r2 = Returned tt /\
  mem r2 = mem (set_complete todos todo_id c2 w) /\
  (Todo.completed t = c2 -> mem r2 = todos) /\
  data_file (disk r2) = data_file (disk (set_complete todos todo_id c2 w)) /\
  writes (disk r2) = S (S (writes w)).
Proof.
  intros Hf r1 r2. destruct (find_by_id_Some _ _ _ Hf) as (i & Hr & Hl & Hid).
  pose proof (lookup_lt_Some _ _ _ Hl) as Hlt.
  assert (mem r2 = <[i := Todo.set_completed c2 t]> todos /\
          r2 = Ran (Returned tt) (mem r2) (save_todos (mem r2) (disk r1))) as [Hm Hr2].
  { subst r2 r1. rewrite (set_complete_at _ _ _ _ c1 w Hr Hl). cbv zeta. simpl.
    destruct (find_by_id_insert todos todo_id i t (Todo.set_completed c1 t) Hr Hl eq_refl)
      as [_ Hr'].
    rewrite (set_complete_at _ _ i (Todo.set_completed c1 t) c2 _ Hr');
      [|by apply list_lookup_insert_eq].
    cbv zeta. simpl. by rewrite list_insert_insert_eq. }
  rewrite (set_complete_at _ _ _ _ c2 w Hr Hl). cbv zeta. simpl.
  split_and!.
  - by rewrite Hr2.
  - done.
  - intros <-. rewrite Hm. apply list_insert_id. rewrite Hl. by destruct t.
  - rewrite Hr2. simpl. by rewrite Hm.
  - rewrite Hr2. simpl. subst r1. by rewrite (set_complete_at _ _ _ _ c1 w Hr Hl).
Qed.

Lemma set_complete_twice_witness :
  let todos := [Todo.mk 1 "a" "b" None false "c"; Todo.mk 2 "d" "e" None true "f"] in
  let w := mkworld None 0 in
  mem (set_complete (mem (set_complete todos 1 true w)) 1 false
         (disk (set_complete todos 1 true w))) = todos.
Proof.
  intros todos w.
  destruct (set_complete_twice todos 1 (Todo.mk 1 "a" "b" None false "c") true false w eq_refl)
    as (_ & _ & H & _).
  exact (H eq_refl).
Defined.

(** ** Deletion *)

Lemma find_by_id_app_absent (before after : list Todo) (todo_id : Z) :
  ~ In todo_id (ids before) ->
  find_by_id (before ++ after) todo_id = find_by_id after todo_id.
Proof.
  induction before as [|x b IH]; simpl; [done|]. intros Hn.
  destruct (Z.eqb_spec (Todo.id x) todo_id); [tauto|]. apply IH. tauto.
Qed.

Lemma filter_other_ids_absent (l : list Todo) (todo_id : Z) :
  ~ In todo_id (ids l) ->
  List.filter (fun x => negb (Todo.id x =? todo_id)) l = l.
Proof.
  induction l as [|x l IH]; simpl; [done|]. intros Hn.
  destruct (Z.eqb_spec (Todo.id x) todo_id); [tauto|]. simpl. rewrite IH; tauto.
Qed.

(** X5: on a record of the collection, [delete_todo] returns, takes out the
    first record with the id and nothing else, keeps the others in their
    order, and saves once; [todos.remove] never fails there.  When the ids
    are unique the id is gone from the collection, which is the collection
    without the records of that id. *)
Theorem delete_todo_removes_first (todos : list Todo) (todo_id : Z) (t : Todo)
    (w : world) :
  find_by_id todos todo_id = Some t ->
  let r := delete_todo todos todo_id w in
  outcome r = Returned tt /\
  (exists before after,
     todos = before ++ t :: after /\ ~ In todo_id (ids before) /\
     mem r = before ++ after) /\
  S (length (mem r)) = length todos /\
  disk r = save_todos (mem r) w /\
  writes (disk r) = S (writes w) /\
  (NoDup (ids todos) ->
     find_by_id (mem r) todo_id = None /\
     mem r = List.filter (fun x => negb (Todo.id x =? todo_id)) todos).
Proof.
  intros Hf r. destruct (delete_todo_found _ _ _ w Hf) as (b & a & Heq & Hn & Hd).
  destruct (find_by_id_split _ _ _ Hf) as (_ & _ & _ & Hid & _).
  subst r. rewrite Hd. simpl. split_and!; try done.
  - by exists b, a.
  - rewrite Heq, !length_app. simpl. lia.
  - intros Hnd. rewrite Heq in Hnd. unfold ids in Hnd. rewrite map_app in Hnd.
    simpl in Hnd. apply NoDup_app in Hnd as (_ & _ & [Ha _]%NoDup_cons).
    rewrite Hid in Ha. rewrite list_elem_of_In in Ha. split.
    + rewrite (find_by_id_app_absent _ _ _ Hn). by apply find_by_id_None.
    + rewrite Heq, List.filter_app. simpl. rewrite Hid, Z.eqb_refl. simpl.
      by rewrite !filter_other_ids_absent.
Qed.

Lemma delete_todo_removes_first_witness :
  let a := Todo.mk 4 "a" "" None false "" in
  let b := Todo.mk 2 "b" "" None true "" in
  let c := Todo.mk 7 "c" "" None false "" in
  mem (delete_todo [a; b; c] 2 (mkworld None 0)) = [a; c].
Proof.
  intros a b c.
  destruct (delete_todo_removes_first [a; b; c] 2 b (mkworld None 0) eq_refl)
    as (_ & _ & _ & _ & _ & H).
  destruct H as [_ H].
  - change (NoDup [4; 2; 7]). apply (bool_decide_unpack _). vm_compute. exact I.
  - exact H.
Defined.

(** ** Creation *)

Lemma find_by_id_app (l1 l2 : list Todo) (todo_id : Z) :
  find_by_id (l1 ++ l2) todo_id =
  match find_by_id l1 todo_id with
  | Some t => Some t
  | None => find_by_id l2 todo_id
  end.
Proof.
  induction l1 as [|x l IH]; simpl; [done|].
  by destruct (Todo.id x =? todo_id).
Qed.

Lemma add_todo_is_found_aux (todos : list Todo) (title description : string)
    (due : option string) (now : string) (w : world) :
  exists t,
    mem (add_todo todos title description due now w) = todos ++ [t] /\
    Todo.id t = next_id todos /\
    find_by_id (todos ++ [t]) (Todo.id t) = Some t.
Proof.
  eexists. split; [reflexivity|]. simpl. split; [done|].
  rewrite find_by_id_app.
  destruct (find_by_id todos (next_id todos)) as [x|] eqn:Hf.
  - apply find_by_id_split in Hf as (b & a & Heq & Hid & _).
    exfalso. apply (next_id_fresh todos). rewrite Heq at 2. unfold ids.
    rewrite map_app. apply in_or_app. right. left. done.
  - simpl. by rewrite Z.eqb_refl.
Qed.

(** X6: [add_todo] returns the new record, appended after the records
    there were; it has the id [next_id] gives, is open, and carries the due
    text as passed; looking up its id finds it, and every other id is
    looked up as before. *)
Theorem add_todo_is_found (todos : list Todo) (title description : string)
    (due : option string) (now : string) (w : world) :
  let r := add_todo todos title description due now w in
  exists t,
    outcome r = Returned t /\
    mem r = todos ++ [t] /\
    Todo.id t = next_id todos /\
    Todo.completed t = false /\
    Todo.due_date t = due /\
    Todo.created_at t = now /\
    find_by_id (mem r) (Todo.id t) = Some t /\
    (forall todo_id, todo_id <> Todo.id t ->
       find_by_id (mem r) todo_id = find_by_id todos todo_id) /\
    disk r = save_todos (mem r) w.
Proof.
  intros r. eexists. split; [reflexivity|]. simpl. split_and!; try done.
  - rewrite find_by_id_app.
    destruct (find_by_id todos (next_id todos)) as [x|] eqn:Hf.
    + apply find_by_id_split in Hf as (b & a & Heq & Hid & _).
      exfalso. apply (next_id_fresh todos). rewrite Heq at 2. unfold ids.
      rewrite map_app. apply in_or_app. right. left. done.
    + simpl. by rewrite Z.eqb_refl.
  - intros todo_id Hne. rewrite find_by_id_app.
    destruct (find_by_id todos todo_id); [done|]. simpl.
    destruct (Z.eqb_spec (next_id todos) todo_id); [congruence | done].
Qed.

(** X7: deleting the record that [add_todo] has just created gives back
    the collection as it was before the creation. *)
Theorem add_then_delete (todos : list Todo) (title description : string)
    (due : option string) (now : string) (w : world) :
  let r := add_todo todos title description due now w in
  let r' := delete_todo (mem r) (next_id todos) (disk r) in
  outcome r' = Returned tt /\
  mem r' = todos /\
  data_file (disk r') = data_file (save_todos todos w).
Proof.
  intros r r'.
  destruct (add_todo_is_found_aux todos title description due now w) as (t & Hm & Hid & Hf).
  assert (delete_todo (mem r) (next_id todos) (disk r)
          = Ran (Returned tt) todos (save_todos todos (disk r))) as Hd.
  { unfold delete_todo. subst r. rewrite Hm, <- Hid, Hf.
    rewrite (list_remove_found todos [] t).
    - by rewrite app_nil_r.
    - rewrite Hid. apply next_id_fresh. }
  subst r'. by rewrite Hd.
Qed.

(** X8: the ids of successive creations are consecutive: after a creation
    [next_id] is one more than before. *)
Theorem next_id_after_add (todos : list Todo) (title description : string)
    (due : option string) (now : string) (w : world) :
  next_id (mem (add_todo todos title description due now w)) = next_id todos + 1.
Proof.
  simpl. unfold next_id at 1. rewrite map_app. simpl. unfold next_id.
  destruct (map Todo.id todos) as [|x xs]; simpl; [done|].
  rewrite fold_left_app. simpl. lia.
Qed.

(** X9: on a collection whose ids are positive, [next_id] is positive: the
    ids that creations assign are positive, as those of the data model
    are. *)
Theorem next_id_positive (todos : list Todo) :
  Forall (fun t => 0 < Todo.id t) todos -> 0 < next_id todos.
Proof.
  intros Hall. destruct todos as [|t rest]; [done|].
  pose proof (next_id_above (t :: rest)) as Hup.
  apply Forall_cons in Hall as [Ht _]. simpl in Hup.
  apply Forall_cons in Hup as [Hup _]. lia.
Qed.

Lemma next_id_positive_witness :
  0 < next_id [Todo.mk 3 "a" "" None false ""; Todo.mk 1 "b" "" None true ""].
Proof.
  apply next_id_positive. repeat constructor.
Defined.

(** ** The file follows the list in memory *)

Lemma load_saved (todos : list Todo) (w : world) :
  load_todos (save_todos todos w) = (map dyn todos, []).
Proof. unfold load_todos, save_todos. simpl. by rewrite mapM_Todo_init_asdict. Qed.

Lemma step_returns_or_keeps (s : session) (o : op) :
  s_world (step s o) = save_todos (s_todos (step s o)) (s_world s) \/
  (s_todos (step s o) = s_todos s /\ s_world (step s o) = s_world s).
Proof.
  destruct o; simpl.
  - by left.
  - unfold update_todo_fields. destruct (ref_by_id _ _); simpl; [by left | by right].
  - unfold set_complete. destruct (ref_by_id _ _); simpl; [by left | by right].
  - unfold delete_todo. destruct (find_by_id _ _) as [t|]; simpl; [|by right].
    destruct (list_remove _ _); simpl; [by left | by right].
Qed.

(** X10: every operation either saves the list it leaves behind or leaves
    list and file as they were, so along every sequence of operations that
    starts with the file holding the list in memory, a load of the file
    gives the list in memory, without a warning. *)
Theorem run_keeps_file_in_sync (s : session) (ops : list op) :
  in_sync s ->
  in_sync (run ops s) /\
  (forall o, in_sync (step (run ops s) o)) /\
  (forall s0 o, s_world (step s0 o) = save_todos (s_todos (step s0 o)) (s_world s0) \/
                (s_todos (step s0 o) = s_todos s0 /\ s_world (step s0 o) = s_world s0)).
Proof.
  assert (forall s0 o, in_sync s0 -> in_sync (step s0 o)) as Hstep.
  { intros s0 o H0. unfold in_sync.
    destruct (step_returns_or_keeps s0 o) as [->|[-> ->]]; [apply load_saved | done]. }
  assert (forall s0, in_sync s0 -> in_sync (run ops s0)) as Hrun.
  { induction ops as [|o ops IH]; intros s0 H0; simpl; [done|]. by apply IH, Hstep. }
  intros Hs. split_and!.
  - by apply Hrun.
  - intros o. by apply Hstep, Hrun.
  - apply step_returns_or_keeps.
Qed.

Lemma run_keeps_file_in_sync_witness :
  let todos := [Todo.mk 1 "a" "b" None false "c"] in
  let s := Session todos (save_todos todos (mkworld None 0)) [] in
  in_sync (run [Create "x" "y" None "n"; Delete 1; Delete 9; Complete 2 true] s).
Proof.
  intros todos s.
  refine (proj1 (run_keeps_file_in_sync s _ _)).
  reflexivity.
Defined.

(** ** Updates compose *)

Lemma strip_idem (s : string) : PyStr.strip (PyStr.strip s) = PyStr.strip s.
Proof. apply strip_id, strip_trimmed. Qed.

Lemma updated_updated (t : Todo) (p1 p2 : patch) :
  updated (updated t (p_title p1) (p_desc p1) (p_due p1) (p_clear_due p1))
          (p_title p2) (p_desc p2) (p_due p2) (p_clear_due p2)
  = let p := patch_then p1 p2 in
    updated t (p_title p) (p_desc p) (p_due p) (p_clear_due p).
Proof.
  destruct p1 as [[?|] [?|] [?|] []], p2 as [[?|] [?|] [?|] []]; reflexivity.
Qed.

(** X11: two updates of the same record do what one update does: the one
    with, for each of title, description and due, the value of the second
    call when it supplies one and else that of the first, and with clear_due
    when the second call sets it, or the first sets it and the second
    supplies no due.  In particular an update repeated changes nothing
    more. *)
Theorem update_twice_is_one_update (todos : list Todo) (todo_id : Z) (t : Todo)
    (p1 p2 : patch) (w : world) :
  find_by_id todos todo_id = Some t ->
  let r1 := apply_patch todos todo_id p1 w in
  let r2 := apply_patch (mem r1) todo_id p2 (disk r1) in
  let r := apply_patch todos todo_id (patch_then p1 p2) w in
  outcome r2 = Returned tt /\
  mem r2 = mem r /\
  data_file (disk r2) = data_file (disk r) /\
  (p1 = p2 -> mem r2 = mem r1).
Proof.
  intros Hf r1 r2 r. destruct (find_by_id_Some _ _ _ Hf) as (i & Hr & Hl & Hid).
  pose proof (lookup_lt_Some _ _ _ Hl) as Hlt.
  set (t1 := updated t (p_title p1) (p_desc p1) (p_due p1) (p_clear_due p1)).
  assert (r1 = Ran (Returned tt) (<[i := t1]> todos) (save_todos (<[i := t1]> todos) w))
    as Hr1.
  { subst r1. unfold apply_patch. by rewrite (update_todo_fields_found _ _ _ _ _ _ _ _ _ Hr Hl). }
  destruct (find_by_id_insert todos todo_id i t t1 Hr Hl eq_refl) as [_ Hr'].
  assert (mem r2 = mem r /\ outcome r2 = Returned tt /\
          data_file (disk r2) = data_file (disk r)) as (Hm & Ho & Hd).
  { subst r2 r. rewrite Hr1. unfold apply_patch. simpl.
    rewrite (update_todo_fields_found _ _ i t1 _ _ _ _ _ Hr');
      [|by apply list_lookup_insert_eq].
    rewrite (update_todo_fields_found _ _ _ _ _ _ _ _ _ Hr Hl). cbv zeta. simpl.
    subst t1. by rewrite (updated_updated t p1 p2), list_insert_insert_eq. }
  split_and!; [done..|].
  intros <-. rewrite Hm. subst r. rewrite Hr1. unfold apply_patch. simpl.
  rewrite (update_todo_fields_found _ _ _ _ _ _ _ _ _ Hr Hl). cbv zeta. simpl.
  f_equal. subst t1. destruct p1 as [[?|] [?|] [?|] []]; simpl; unfold updated; simpl;
    by rewrite ?strip_idem.
Qed.

Lemma update_twice_is_one_update_witness :
  let t := Todo.mk 1 "a" "b" (Some "2025-03-01") false "c" in
  let w := mkworld None 0 in
  let r1 := apply_patch [t] 1 (Patch (Some " x ") None None true) w in
  mem (apply_patch (mem r1) 1 (Patch None (Some "y") None false) (disk r1))
  = mem (apply_patch [t] 1 (Patch (Some " x ") (Some "y") None true) w).
Proof.
  intros t w r1.
  destruct (update_twice_is_one_update [t] 1 t (Patch (Some " x ") None None true)
              (Patch None (Some "y") None false) w eq_refl) as (_ & H & _).
  exact H.
Defined.

(** ** Validated due dates *)

Lemma make_in_calendar (y m d : Z) (x : PyDate.date) :
  PyDate.make y m d = Returned x ->
  1 <= PyDate.year x <= 9999 /\ 1 <= PyDate.month x <= 12 /\
  1 <= PyDate.day x <= PyDate.days_in_month (PyDate.year x) (PyDate.month x).
Proof.
  unfold PyDate.make, PyDate.MINYEAR, PyDate.MAXYEAR.
  destruct (Z.leb_spec 1 y), (Z.leb_spec y 9999); simpl; try done.
  destruct (Z.leb_spec 1 m), (Z.leb_spec m 12); simpl; try done.
  destruct (Z.leb_spec 1 d), (Z.leb_spec d (PyDate.days_in_month y m)); simpl; try done.
  intros [= <-]. simpl. lia.
Qed.

Lemma strptime_in_calendar (s : string) (x : PyDate.date) :
  PyDate.strptime s = Returned x ->
  1 <= PyDate.year x <= 9999 /\ 1 <= PyDate.month x <= 12 /\
  1 <= PyDate.day x <= PyDate.days_in_month (PyDate.year x) (PyDate.month x).
Proof.
  unfold PyDate.strptime.
  destruct (head (PyDate.matches s)) as [[[[Y m] d] rest]|]; [|done].
  destruct (PyStr.truthy rest); [done|]. apply make_in_calendar.
Qed.

(** X12: a text that [parse_due_date] returns is the input without the
    white space at its ends, is not empty, is returned again when it is
    validated again, and a record that stores it has a due date: a day of
    the calendar, with the year in 1..9999. *)
Theorem parse_due_date_result_is_a_date (s d : string) :
  parse_due_date (Some s) = Returned (Some d) ->
  d = PyStr.strip s /\
  d <> "" /\
  PyStr.trimmed d /\
  parse_due_date (Some d) = Returned (Some d) /\
  forall i ti de c cr,
    exists x, Todo.due_as_date (Todo.mk i ti de (Some d) c cr) = Some x /\
      1 <= PyDate.year x <= 9999 /\ 1 <= PyDate.month x <= 12 /\
      1 <= PyDate.day x <= PyDate.days_in_month (PyDate.year x) (PyDate.month x).
Proof.
  rewrite parse_due_date_cases.
  destruct (String.eqb_spec (PyStr.strip s) "") as [|Hne]; [done|].
  destruct (PyDate.strptime (PyStr.strip s)) as [x|e] eqn:Hx; [|done].
  intros [= <-]. split_and!; [done | done | apply strip_trimmed | |].
  - rewrite parse_due_date_cases, strip_idem.
    destruct (String.eqb_spec (PyStr.strip s) ""); [done|]. by rewrite Hx.
  - intros i ti de c cr. exists x. split; [|by apply (strptime_in_calendar (PyStr.strip s))].
    unfold Todo.due_as_date. simpl.
    destruct (PyStr.strip s); [done|]. simpl. by rewrite Hx.
Qed.

Lemma parse_due_date_result_is_a_date_witness :
  parse_due_date (Some "2024-02-29") = Returned (Some "2024-02-29") /\
  exists x, Todo.due_as_date (Todo.mk 1 "a" "" (Some "2024-02-29") false "") = Some x.
Proof.
  destruct (parse_due_date_result_is_a_date " 2024-02-29 " "2024-02-29" eq_refl)
    as (_ & _ & _ & H1 & H2).
  split; [exact H1|].
  destruct (H2 1 "a" "" false "") as (x & Hx & _). exists x. exact Hx.
Defined.

(** ** Listing *)

Lemma due_key_ltb_undated (a b : Todo) :
  undated a -> undated b ->
  due_key_ltb (due_key a) (due_key b) = (Todo.id a <? Todo.id b).
Proof. unfold undated, due_key. intros -> ->. reflexivity. Qed.

Lemma insert_Forall {A K : Type} (ltb : K -> K -> bool) (key : A -> K)
    (P : A -> Prop) (x : A) (l : list A) :
  P x -> Forall P l -> Forall P (insert ltb key x l).
Proof.
  intros Hx Hl. induction Hl as [|y l Hy Hl IH]; simpl; [by constructor|].
  destruct (ltb (key y) (key x)); by repeat constructor.
Qed.

Lemma sort_undated (l : list Todo) :
  Forall undated l ->
  sort due_key_ltb due_key l = sort Z.ltb Todo.id l /\
  Forall undated (sort Z.ltb Todo.id l).
Proof.
  induction 1 as [|x l Hx Hl [IH1 IH2]]; simpl; [by split|].
  split; [|by apply insert_Forall].
  rewrite IH1. clear IH1. induction IH2 as [|y k Hy Hk IH]; simpl; [done|].
  rewrite (due_key_ltb_undated y x Hy Hx). by rewrite IH.
Qed.

Lemma filter_Forall {A : Type} (f : A -> bool) (P : A -> Prop) (l : list A) :
  Forall P l -> Forall P (List.filter f l).
Proof.
  induction 1 as [|x l Hx Hl IH]; simpl; [constructor|].
  destruct (f x); [by constructor | done].
Qed.

(** X13: when no record has a due date that parses, the listing sorted by
    due date is the listing by id. *)
Theorem list_by_due_without_dates (todos : list Todo) (open_only : bool) :
  Forall undated todos ->
  list_todos todos true open_only = list_todos todos false open_only.
Proof.
  intros Hall. unfold list_todos. destruct todos as [|t rest]; [done|].
  f_equal. apply sort_undated. destruct open_only; [by apply filter_Forall | done].
Qed.

Lemma list_by_due_without_dates_witness :
  let todos := [Todo.mk 3 "a" "" None false ""; Todo.mk 1 "b" "" (Some "soon") true "";
                Todo.mk 2 "c" "" (Some "") false ""] in
  list_todos todos true false = list_todos todos false false.
Proof.
  intros todos. apply (list_by_due_without_dates todos false).
  repeat constructor.
Defined.

Lemma ids_injective (l : list Todo) (x y : Todo) :
  NoDup (ids l) -> In x l -> In y l -> Todo.id x = Todo.id y -> x = y.
Proof.
  induction l as [|z l IH]; simpl; [done|].
  intros [Hz Hnd]%NoDup_cons [->|Hx] [->|Hy] E; try done.
  - exfalso. apply Hz. rewrite E. apply list_elem_of_In, in_map_iff. by exists y.
  - exfalso. apply Hz. rewrite <- E. apply list_elem_of_In, in_map_iff. by exists x.
  - by apply IH.
Qed.

Lemma sorted_arrangement_unique {A : Type} (R : A -> A -> Prop) (l1 l2 : list A) :
  (forall x y, In x l1 -> In y l1 -> R x y -> R y x -> x = y) ->
  StronglySorted R l1 -> StronglySorted R l2 -> Permutation l1 l2 -> l1 = l2.
Proof.
  intros Hanti H1. revert l2 Hanti.
  induction H1 as [|x l1 Hs1 IH Hx]; intros l2 Hanti H2 Hp.
  - by apply Permutation_nil in Hp.
  - destruct H2 as [|y l2 Hs2 Hy]; [by apply Permutation_sym, Permutation_nil in Hp|].
    assert (x = y) as <-.
    { assert (In y (x :: l1)) as Hyin by (eapply Permutation_in; [symmetry; exact Hp | by left]).
      assert (In x (y :: l2)) as Hxin by (eapply Permutation_in; [exact Hp | by left]).
      destruct Hyin as [|Hyin]; [done|]. destruct Hxin as [|Hxin]; [done|].
      rewrite Forall_forall in Hx, Hy.
      apply Hanti; [by left | by right | |].
      - apply Hx. by apply list_elem_of_In.
      - apply Hy. by apply list_elem_of_In. }
    f_equal. apply IH; [|done|by apply Permutation_cons_inv in Hp].
    intros a b Ha Hb. apply Hanti; by right.
Qed.

Lemma filter_Permutation {A : Type} (f : A -> bool) (l l' : list A) :
  Permutation l l' -> Permutation (List.filter f l) (List.filter f l').
Proof.
  induction 1 as [|x l l' Hp IH|x y l|l l' l'' H1 IH1 H2 IH2]; simpl.
  - done.
  - destruct (f x); [by constructor | done].
  - destruct (f x), (f y); try done. apply perm_swap.
  - by etransitivity.
Qed.

Lemma not_after_both_ways_due (a b : Todo) :
  not_after due_key_ltb due_key a b -> not_after due_key_ltb due_key b a ->
  Todo.id a = Todo.id b.
Proof.
  unfold not_after. rewrite <- !not_true_iff_false, !due_key_ltb_iff.
  destruct (due_key a) as [[ra da] ia] eqn:Ea, (due_key b) as [[rb db] ib] eqn:Eb.
  assert (ia = Todo.id a) as -> by (unfold due_key in Ea; destruct (Todo.due_as_date a); congruence).
  assert (ib = Todo.id b) as -> by (unfold due_key in Eb; destruct (Todo.due_as_date b); congruence).
  unfold key_lt. rewrite !date_ltb_iff, !date_eqb_iff. lia.
Qed.

(** X14: with unique ids the listing does not depend on the order in which
    the records are stored: two collections with the same records list
    alike, in either sort mode, with or without open_only. *)
Theorem list_ignores_stored_order (todos todos' : list Todo)
    (sort_by_due open_only : bool) :
  NoDup (ids todos) -> Permutation todos todos' ->
  list_todos todos sort_by_due open_only = list_todos todos' sort_by_due open_only.
Proof.
  intros Hnd Hp. unfold list_todos.
  destruct todos as [|t rest].
  { apply Permutation_nil in Hp. by subst. }
  destruct todos' as [|t' rest'].
  { by apply Permutation_sym, Permutation_nil in Hp. }
  set (l := t :: rest) in *. set (l' := t' :: rest') in *. clearbody l l'.
  set (pool := if open_only then List.filter _ l else l).
  set (pool' := if open_only then List.filter _ l' else l').
  assert (Permutation pool pool') as Hpool.
  { subst pool pool'. destruct open_only; [|done].
    by apply filter_Permutation. }
  assert (forall x, In x pool -> In x l) as Hsub.
  { subst pool. destruct open_only; [|done]. intros x Hx. by apply filter_In in Hx as [? _]. }
  f_equal. destruct sort_by_due.
  - apply (sorted_arrangement_unique (not_after due_key_ltb due_key)).
    + intros x y Hx Hy Hxy Hyx.
      apply (ids_injective l); [done| | |by apply not_after_both_ways_due].
      * apply Hsub. by apply (Permutation_in _ (sort_Permutation due_key_ltb due_key pool)).
      * apply Hsub. by apply (Permutation_in _ (sort_Permutation due_key_ltb due_key pool)).
    + apply sort_StronglySorted; [apply due_key_ltb_asym | apply due_key_ltb_negtrans].
    + apply sort_StronglySorted; [apply due_key_ltb_asym | apply due_key_ltb_negtrans].
    + by rewrite !sort_Permutation.
  - assert (forall a b : Z, (a <? b) = true -> (b <? a) = false) as Hasym
      by (intros a b; rewrite Z.ltb_lt, Z.ltb_ge; lia).
    assert (forall a b c : Z, (b <? a) = false -> (c <? b) = false -> (c <? a) = false)
      as Hneg by (intros a b c; rewrite !Z.ltb_ge; lia).
    apply (sorted_arrangement_unique (not_after Z.ltb Todo.id)).
    + intros x y Hx Hy Hxy Hyx. unfold not_after in Hxy, Hyx.
      rewrite Z.ltb_ge in Hxy, Hyx.
      apply (ids_injective l); [done| | |lia].
      * apply Hsub. by apply (Permutation_in _ (sort_Permutation Z.ltb Todo.id pool)).
      * apply Hsub. by apply (Permutation_in _ (sort_Permutation Z.ltb Todo.id pool)).
    + by apply sort_StronglySorted.
    + by apply sort_StronglySorted.
    + by rewrite !sort_Permutation.
Qed.

Lemma list_ignores_stored_order_witness :
  let a := Todo.mk 1 "a" "" (Some "2025-03-01") false "" in
  let b := Todo.mk 2 "b" "" None false "" in
  let c := Todo.mk 3 "c" "" (Some "2025-01-01") true "" in
  list_todos [a; b; c] true false = list_todos [c; a; b] true false.
Proof.
  intros a b c. apply (list_ignores_stored_order [a; b; c] [c; a; b] true false).
  - change (NoDup [1; 2; 3]). apply (bool_decide_unpack _). vm_compute. exact I.
  - apply Permutation_sym. apply (Permutation_cons_app [a; b] [] c). simpl.
    apply Permutation_refl.
Defined.

(** ** The order of the keys in the file *)

Lemma dict_get_Permutation (kw kw' : list (string * pyval)) (k : string) :
  NoDup (map fst kw) -> Permutation kw kw' -> dict_get kw k = dict_get kw' k.
Proof.
  intros Hnd Hp. induction Hp as [|[k1 v1] l l' Hp IH|[k1 v1] [k2 v2] l|l l' l'' H1 IH1 H2 IH2].
  - done.
  - simpl. destruct (String.eqb k1 k); [done|]. apply IH.
    simpl in Hnd. by apply NoDup_cons in Hnd as [_ ?].
  - simpl. destruct (String.eqb_spec k2 k) as [->|], (String.eqb_spec k1 k) as [->|]; try done.
    simpl in Hnd. apply NoDup_cons in Hnd as [Hn _].
    exfalso. apply Hn. by left.
  - rewrite IH1; [|done]. apply IH2.
    assert (Permutation (map fst l) (map fst l')) as Hm by (by apply Permutation_map).
    by rewrite <- Hm.
Qed.

Lemma forallb_Permutation {A : Type} (f : A -> bool) (l l' : list A) :
  Permutation l l' -> forallb f l = forallb f l'.
Proof.
  induction 1 as [|x l l' Hp IH|x y l|l l' l'' H1 IH1 H2 IH2]; simpl.
  - done.
  - by rewrite IH.
  - by destruct (f x), (f y).
  - congruence.
Qed.

Lemma Todo_init_same_entries (a b : pyval) :
  same_entries a b -> Todo_init a = Todo_init b.
Proof.
  destruct a as [| | | | | |kw], b as [| | | | | |kw']; simpl; try congruence.
  intros [Hnd Hp]. unfold Todo_init.
  rewrite (forallb_Permutation _ _ _ Hp).
  by rewrite !(dict_get_Permutation kw kw' _ Hnd Hp).
Qed.

(** X15: a load does not depend on the order in which the keys of the
    objects stand in the file: two files whose objects have the same entries
    load alike. *)
Theorem load_ignores_key_order (items items' : list pyval) (n n' : nat) :
  Forall2 same_entries items items' ->
  load_todos (mkworld (Some (Json (PList items))) n)
  = load_todos (mkworld (Some (Json (PList items'))) n').
Proof.
  intros Hall. unfold load_todos. simpl.
  assert (mapM Todo_init items = mapM Todo_init items') as ->; [|done].
  induction Hall as [|a b l l' Hab Hl IH]; [done|].
  simpl. by rewrite IH, (Todo_init_same_entries a b Hab).
Qed.

Lemma load_ignores_key_order_witness :
  load_todos (mkworld (Some (Json (PList
    [PDict [("title", PStr "a"); ("id", PInt 1); ("description", PStr "b")]]))) 0)
  = load_todos (mkworld (Some (Json (PList
    [PDict [("id", PInt 1); ("description", PStr "b"); ("title", PStr "a")]]))) 3).
Proof.
  apply load_ignores_key_order. constructor; [|constructor]. split.
  - change (NoDup ["title"; "id"; "description"]).
    apply (bool_decide_unpack _). vm_compute. exact I.
  - apply (Permutation_cons_app [("id", PInt 1); ("description", PStr "b")] []
             ("title", PStr "a")).
    apply Permutation_refl.
Defined.

(** * The command line and the interactive menu *)

Example py_int_examples :
  Cli.py_int " -1_0 " = Some (-10) /\ Cli.py_int "007" = Some 7 /\
  Cli.py_int "+5" = Some 5 /\ Cli.py_int "1__0" = None /\ Cli.py_int "_1" = None /\
  Cli.py_int "1_" = None /\ Cli.py_int "+" = None /\ Cli.py_int "" = None /\
  Cli.py_int "- 5" = None /\ Cli.py_int "1.0" = None.
Proof. repeat split. Qed.

(** A due text that [parse_due_date] returned parses in a record. *)
Lemma due_arg_ok_due_ok (due : option string) (i : Z) (ti de : string) (c : bool)
    (cr : string) :
  due_arg_ok due -> due_ok (Todo.mk i ti de due c cr).
Proof.
  intros [text Hp]. destruct due as [d|]; [|by left]. right.
  destruct text as [s|]; [|done].
  rewrite parse_due_date_cases in Hp.
  destruct (String.eqb_spec (PyStr.strip s) "") as [|Hne]; [done|].
  destruct (PyDate.strptime (PyStr.strip s)) as [x|e] eqn:Hx; [|done].
  injection Hp as <-. exists x. unfold Todo.due_as_date. simpl.
  destruct (PyStr.strip s); [done|]. simpl. by rewrite Hx.
Qed.

Lemma due_ok_same_due (a b : Todo) :
  Todo.due_date a = Todo.due_date b -> due_ok a -> due_ok b.
Proof.
  unfold due_ok, Todo.due_as_date. intros <-. done.
Qed.

Section Rules.
Import Cli.
Context (clock : nat -> string) (strict : bool).
Context (J : state -> Prop) (U R : Prop).

Local Abbreviation keeps := (Cli.keeps J U R).

Lemma keeps_ret {A : Type} (a : A) (Q : A -> Prop) : Q a -> keeps (ret a) Q.
Proof. intros Ha s Hs. by split. Qed.

Lemma keeps_bind {A B : Type} (m : M A) (k : A -> M B) (Q : A -> Prop)
    (Q' : B -> Prop) :
  keeps m Q -> (forall a, Q a -> keeps (k a) Q') -> keeps (bind m k) Q'.
Proof.
  intros Hm Hk s Hs. unfold bind. specialize (Hm s Hs).
  destruct (m s); try done. destruct Hm. by apply Hk.
Qed.

Lemma keeps_conseq {A : Type} (m : M A) (Q Q' : A -> Prop) :
  keeps m Q -> (forall a, Q a -> Q' a) -> keeps m Q'.
Proof.
  intros Hm HQ s Hs. specialize (Hm s Hs). destruct (m s); try done.
  destruct Hm. split; [done | by apply HQ].
Qed.

Lemma keeps_try {A : Type} (m : M A) (h : failure -> M A) (Q : A -> Prop) :
  keeps m Q -> (forall e, keeps (h e) Q) -> keeps (try_except m h) Q.
Proof.
  intros Hm Hh s Hs. unfold try_except. specialize (Hm s Hs).
  destruct (m s); try done. by apply Hh.
Qed.

Lemma keeps_continue {A : Type} (Q : A -> Prop) : keeps continue Q.
Proof. by intros s Hs. Qed.

Lemma keeps_return {A : Type} (Q : A -> Prop) : R -> keeps return_ Q.
Proof. by intros HR s Hs. Qed.

Lemma keeps_the_todos : keeps the_todos (fun _ => True).
Proof. by intros s Hs. Qed.

Lemma keeps_int (text : string) : keeps (int text) (fun _ => True).
Proof. intros s Hs. unfold int. by destruct (py_int text). Qed.

Lemma keeps_parse (text : option string) : keeps (parse text) due_arg_ok.
Proof.
  intros s Hs. unfold parse. destruct (parse_due_date text) as [d|e] eqn:E; [|done].
  split; [done | by exists text].
Qed.

(** The invariant does not look at the console or the clock, beyond
    the input still to come being a rest of what it was. *)
Hypothesis J_console : forall s stdin' out' ticks',
  suffix stdin' (st_stdin s) -> J s ->
  J (State (st_todos s) (st_files s) stdin' out' ticks').

Lemma keeps_emit (es : list event) : keeps (emit es) (fun _ => True).
Proof. intros s Hs. simpl. split; [|done]. by apply J_console. Qed.

Lemma keeps_print (parts : list piece) : keeps (print parts) (fun _ => True).
Proof. apply keeps_emit. Qed.

Lemma keeps_say (text : string) : keeps (say text) (fun _ => True).
Proof. apply keeps_emit. Qed.

Lemma keeps_list (sort_by_due open_only : bool) :
  keeps (list_ sort_by_due open_only) (fun _ => True).
Proof. intros s Hs. unfold list_. by apply keeps_emit. Qed.

Lemma keeps_input (prompt : string) : keeps (input prompt) (fun _ => True).
Proof.
  intros s Hs. unfold input. destruct (st_stdin s) as [|line rest] eqn:E.
  - apply J_console; [by rewrite E | done].
  - split; [|done]. apply J_console; [|done]. rewrite E. by apply suffix_cons_r.
Qed.

Lemma prompt_lines_spec (prompt : string) (lines : list string) (out : list event) :
  suffix (prompt_lines prompt lines out).1.2 lines /\
  forall v, (prompt_lines prompt lines out).1.1 = Some v ->
            PyStr.truthy v = true /\ PyStr.strip v = v.
Proof.
  revert out. induction lines as [|line rest IH]; intros out; simpl; [done|].
  destruct (PyStr.truthy (PyStr.strip line)) eqn:E; simpl.
  - split; [by apply suffix_cons_r|]. intros v [= <-]. split; [done | apply strip_idem].
  - destruct (IH (out ++ [Ask prompt; Print [Lit "Please enter a value (cannot be empty)."]]))
      as [Hs Hv].
    split; [by apply suffix_cons_r | done].
Qed.

Lemma keeps_prompt_non_empty (prompt : string) :
  keeps (prompt_non_empty prompt)
        (fun v => PyStr.truthy v = true /\ PyStr.strip v = v).
Proof.
  intros s Hs. unfold prompt_non_empty.
  destruct (prompt_lines_spec prompt (st_stdin s) (st_out s)) as [Hsuf Hv].
  destruct (prompt_lines prompt (st_stdin s) (st_out s)) as [[v rest] out].
  simpl in Hsuf, Hv. destruct v as [v|].
  - split; [by apply J_console | by apply Hv].
  - by apply J_console.
Qed.

Lemma truthy_text_ok (v : string) :
  PyStr.truthy v = true -> PyStr.strip v = v -> text_ok strict v.
Proof. intros Ht Hv _. rewrite Hv. by destruct v. Qed.

Lemma some_if_truthy_text_ok (line v : string) :
  some_if_truthy (PyStr.strip line) = Some v -> text_ok strict v.
Proof.
  unfold some_if_truthy. destruct (PyStr.truthy (PyStr.strip line)) eqn:E; [|done].
  intros [= <-]. apply truthy_text_ok; [done | apply strip_idem].
Qed.

(** What the operations of the engine and the load do to the invariant. *)
Hypothesis H_add : forall title description due,
  text_ok strict title -> text_ok strict description -> due_arg_ok due ->
  keeps (add clock title description due) (fun _ => True).
Hypothesis H_update : forall todo_id title desc due clear_due,
  (forall v, title = Some v -> text_ok strict v) ->
  (forall v, desc = Some v -> text_ok strict v) ->
  due_arg_ok due ->
  keeps (engine (fun todos =>
                   update_todo_fields todos todo_id title desc due clear_due))
        (fun _ => True).
Hypothesis H_complete : forall todo_id completed,
  keeps (engine (fun todos => set_complete todos todo_id completed)) (fun _ => True).
Hypothesis H_delete : forall todo_id,
  keeps (engine (fun todos => delete_todo todos todo_id)) (fun _ => True).
Hypothesis H_load : keeps load (fun _ => True).

Lemma due_arg_ok_None : due_arg_ok None.
Proof. by exists None. Qed.

Ltac next rule := eapply keeps_bind; [apply rule | intros ? ?].

Lemma keeps_choose (choice : string) :
  (choice = "9" -> R) -> keeps (choose clock choice) (fun _ => True).
Proof.
  intros HR. unfold choose.
  destruct (String.eqb choice "1").
  { eapply keeps_bind; [apply keeps_prompt_non_empty | intros title [Ht1 Ht2]].
    eapply keeps_bind; [apply keeps_prompt_non_empty | intros desc [Hd1 Hd2]].
    eapply keeps_bind; [apply keeps_input | intros line _].
    eapply (keeps_bind _ _ due_arg_ok).
    { destruct (PyStr.truthy (PyStr.strip line)); [|apply keeps_ret, due_arg_ok_None].
      apply keeps_try; [apply keeps_parse|]. intros e.
      next keeps_say. apply keeps_ret, due_arg_ok_None. }
    intros due Hdue. eapply keeps_bind; [|intros; apply keeps_print].
    apply H_add; [by apply truthy_text_ok.. | done]. }
  destruct (String.eqb choice "2"); [next keeps_list; apply keeps_say|].
  destruct (String.eqb choice "3"); [next keeps_list; apply keeps_say|].
  destruct (String.eqb choice "4"); [next keeps_list; apply keeps_say|].
  destruct (String.eqb choice "5").
  { next keeps_input. next keeps_int. next keeps_the_todos.
    destruct (find_by_id _ _) as [t|]; [|next keeps_say; apply keeps_continue].
    next keeps_say. next keeps_emit. next keeps_say.
    next keeps_input. next keeps_input.
    eapply keeps_bind; [apply keeps_input | intros line _].
    eapply (keeps_bind _ _ (fun p => due_arg_ok p.1)).
    { destruct (PyStr.truthy (PyStr.strip line) && _);
        [|apply keeps_ret, due_arg_ok_None].
      apply keeps_try.
      - eapply keeps_bind; [apply keeps_parse|]. intros d Hd. by apply keeps_ret.
      - intros e. next keeps_say. apply keeps_ret, due_arg_ok_None. }
    intros [due_val new_due] Hdue. simpl in Hdue.
    eapply keeps_bind; [|intros; apply keeps_say].
    apply H_update.
    - intros v. apply some_if_truthy_text_ok.
    - intros v. apply some_if_truthy_text_ok.
    - destruct (PyStr.truthy new_due); [done | apply due_arg_ok_None]. }
  destruct (String.eqb choice "6").
  { next keeps_input. next keeps_int.
    eapply keeps_bind; [apply H_complete | intros; apply keeps_say]. }
  destruct (String.eqb choice "7").
  { next keeps_input. next keeps_int.
    eapply keeps_bind; [apply H_complete | intros; apply keeps_say]. }
  destruct (String.eqb choice "8").
  { next keeps_input. next keeps_int.
    eapply keeps_bind; [apply H_delete | intros; apply keeps_say]. }
  destruct (String.eqb_spec choice "9") as [E|_].
  { next keeps_say. apply keeps_return. by apply HR. }
  apply keeps_say.
Qed.

Lemma keeps_guarded (line : string) :
  (PyStr.strip line = "9" -> R) -> keeps (guarded clock line) (fun _ => True).
Proof.
  intros HR. apply keeps_try; [|intros; apply keeps_print].
  eapply keeps_bind; [by apply keeps_choose | intros; apply H_load].
Qed.

Lemma keeps_command (a : args) :
  strict = false -> keeps (command clock a) (fun _ => True).
Proof.
  intros Hstrict.
  assert (forall v, text_ok strict v) as Hok by (intros v; unfold text_ok; congruence).
  destruct a; simpl.
  - eapply (keeps_bind _ _ due_arg_ok).
    { destruct due; [apply keeps_parse | apply keeps_ret, due_arg_ok_None]. }
    intros d Hd. eapply keeps_bind; [|intros; apply keeps_print]. by apply H_add.
  - apply keeps_list.
  - eapply keeps_bind; [apply H_complete | intros; apply keeps_print].
  - eapply keeps_bind; [apply H_complete | intros; apply keeps_print].
  - eapply (keeps_bind _ _ due_arg_ok).
    { destruct due; [apply keeps_parse | apply keeps_ret, due_arg_ok_None]. }
    intros d Hd. eapply keeps_bind; [|intros; apply keeps_print].
    apply H_update; [done..|]. destruct due; [done | apply due_arg_ok_None].
  - eapply keeps_bind; [apply H_delete | intros; apply keeps_print].
Qed.

End Rules.

(** ** The sound states *)

Section Sound.
Import Cli.
Context (clock : nat -> string) (strict : bool) (R : Prop).

Local Abbreviation keeps := (Cli.keeps (sound strict) False R).

Lemma holds_saved (todos : list Todo) (w : world) : holds (save_todos todos w) todos.
Proof. unfold holds. rewrite load_saved. apply mapM_typed_dyn. Qed.

Lemma sound_console (s : state) (stdin' : list string) (out' : list event)
    (ticks' : nat) :
  suffix stdin' (st_stdin s) -> sound strict s ->
  sound strict (State (st_todos s) (st_files s) stdin' out' ticks').
Proof. by intros _ Hs. Qed.

Lemma sound_add (title description : string) (due : option string) :
  text_ok strict title -> text_ok strict description -> due_arg_ok due ->
  keeps (add clock title description due) (fun _ => True).
Proof.
  intros Hti Hde Hdue s [Hh (Hnd & Hdo & Hna)]. unfold add, engine. simpl.
  split; [|done]. split; [apply holds_saved|]. split_and!.
  - apply (step_NoDup (Session (st_todos s) (st_files s) [])
             (Create title description due (clock (st_ticks s))) Hnd).
  - apply Forall_app. split; [done|]. constructor; [|constructor].
    by apply due_arg_ok_due_ok.
  - intros Hs. apply Forall_app. split; [by apply Hna|].
    constructor; [|constructor]. split; simpl; [by apply Hti | by apply Hde].
Qed.

Lemma sound_update (todo_id : Z) (title desc due : option string) (clear_due : bool) :
  (forall v, title = Some v -> text_ok strict v) ->
  (forall v, desc = Some v -> text_ok strict v) ->
  due_arg_ok due ->
  keeps (engine (fun todos =>
                   update_todo_fields todos todo_id title desc due clear_due))
        (fun _ => True).
Proof.
  intros Hti Hde Hdue s [Hh (Hnd & Hdo & Hna)]. unfold engine.
  destruct (ref_by_id (st_todos s) todo_id) as [r|] eqn:Hr.
  - destruct (ref_by_id_Some _ _ _ Hr) as (t & Hl & _ & _).
    pose proof (update_todo_fields_ids (st_todos s) todo_id title desc due clear_due
                  (st_files s)) as Hids.
    rewrite (update_todo_fields_found _ _ _ _ _ _ _ _ _ Hr Hl) in *.
    cbv zeta in *. simpl in *. split; [|done]. split; [apply holds_saved|].
    assert (t ∈ st_todos s) as Hin by (by eapply list_elem_of_lookup_2).
    split_and!; simpl.
    + by rewrite Hids.
    + apply Forall_insert; [done|]. rewrite Forall_forall in Hdo.
      specialize (Hdo t Hin). unfold updated. destruct clear_due; [by left|].
      destruct due as [v|]; [by apply due_arg_ok_due_ok|].
      by apply (due_ok_same_due t).
    + intros Hs. apply Forall_insert; [by apply Hna|].
      specialize (Hna Hs). rewrite Forall_forall in Hna.
      destruct (Hna t Hin) as [Ht Hd]. unfold updated. split; simpl.
      * destruct title as [v|]; [by apply (Hti v) | done].
      * destruct desc as [v|]; [by apply (Hde v) | done].
  - unfold update_todo_fields. rewrite Hr. simpl. by destruct s.
Qed.

Lemma sound_complete (todo_id : Z) (completed : bool) :
  keeps (engine (fun todos => set_complete todos todo_id completed)) (fun _ => True).
Proof.
  intros s [Hh (Hnd & Hdo & Hna)]. unfold engine.
  destruct (ref_by_id (st_todos s) todo_id) as [r|] eqn:Hr.
  - destruct (ref_by_id_Some _ _ _ Hr) as (t & Hl & _ & _).
    pose proof (set_complete_ids (st_todos s) todo_id completed (st_files s)) as Hids.
    rewrite (set_complete_at _ _ _ _ _ _ Hr Hl) in *.
    cbv zeta in *. simpl in *. split; [|done]. split; [apply holds_saved|].
    assert (t ∈ st_todos s) as Hin by (by eapply list_elem_of_lookup_2).
    split_and!; simpl.
    + by rewrite Hids.
    + apply Forall_insert; [done|]. rewrite Forall_forall in Hdo.
      by apply (due_ok_same_due t); [|apply Hdo].
    + intros Hs. apply Forall_insert; [by apply Hna|].
      specialize (Hna Hs). rewrite Forall_forall in Hna. by apply (Hna t).
  - unfold set_complete. rewrite Hr. simpl. by destruct s.
Qed.

Lemma sound_delete (todo_id : Z) :
  keeps (engine (fun todos => delete_todo todos todo_id)) (fun _ => True).
Proof.
  intros s [Hh (Hnd & Hdo & Hna)]. unfold engine.
  destruct (find_by_id (st_todos s) todo_id) as [t|] eqn:Hf.
  - pose proof (delete_todo_NoDup (st_todos s) todo_id (st_files s) Hnd) as Hnd'.
    destruct (delete_todo_found _ _ _ (st_files s) Hf) as (b & a & Heq & _ & Hd).
    rewrite Hd in *. simpl in *. split; [|done]. split; [apply holds_saved|].
    rewrite Heq in Hdo, Hna. split_and!; simpl; [done| |].
    + apply Forall_app in Hdo as [Hb [_ Ha]%Forall_cons]. by apply Forall_app.
    + intros Hs. specialize (Hna Hs).
      apply Forall_app in Hna as [Hb [_ Ha]%Forall_cons]. by apply Forall_app.
  - unfold delete_todo. rewrite Hf. simpl. by destruct s.
Qed.

Lemma sound_load : keeps load (fun _ => True).
Proof.
  intros s [Hh Ht]. unfold load. pose proof Hh as Hh'. unfold holds in Hh'.
  destruct (load_todos (st_files s)) as [objects lines] eqn:E. simpl in Hh'.
  rewrite Hh'. split; [|done]. split; [|done]. simpl. unfold holds. by rewrite E.
Qed.

Lemma sound_guarded (line : string) :
  (PyStr.strip line = "9" -> R) -> keeps (guarded clock line) (fun _ => True).
Proof.
  apply (keeps_guarded clock strict); [apply sound_console | apply sound_add
    | apply sound_update | apply sound_complete | apply sound_delete | apply sound_load].
Qed.

Lemma sound_command (a : args) :
  strict = false -> keeps (command clock a) (fun _ => True).
Proof.
  apply (keeps_command clock strict); [apply sound_console | apply sound_add
    | apply sound_update | apply sound_complete | apply sound_delete].
Qed.

End Sound.

(** ** The input is only ever consumed *)

Section Within.
Import Cli.
Context (clock : nat -> string) (stdin0 : list string) (n : nat) (R : Prop).

Local Abbreviation keeps := (Cli.keeps (within stdin0 n) True R).

Lemma within_console (s : state) (stdin' : list string) (out' : list event)
    (ticks' : nat) :
  suffix stdin' (st_stdin s) -> within stdin0 n s ->
  within stdin0 n (State (st_todos s) (st_files s) stdin' out' ticks').
Proof.
  intros Hsuf [H1 H2]. split; simpl.
  - by etransitivity.
  - apply suffix_length in Hsuf. lia.
Qed.

Lemma within_engine {A : Type} (op : list Todo -> world -> ran A) :
  keeps (engine op) (fun _ => True).
Proof. intros s Hs. unfold engine. by destruct (outcome _). Qed.

Lemma within_add (title description : string) (due : option string) :
  keeps (add clock title description due) (fun _ => True).
Proof. intros s Hs. unfold add, engine. simpl. by split. Qed.

Lemma within_load : keeps load (fun _ => True).
Proof.
  intros s Hs. unfold load. destruct (load_todos (st_files s)) as [objects lines].
  by destruct (mapM typed objects).
Qed.

Lemma within_guarded (line : string) :
  (PyStr.strip line = "9" -> R) -> keeps (guarded clock line) (fun _ => True).
Proof.
  apply (keeps_guarded clock false); [apply within_console | intros; apply within_add
    | intros; apply within_engine | intros; apply within_engine
    | intros; apply within_engine | apply within_load].
Qed.

End Within.

(** ** The file follows the list *)

Section Held.
Import Cli.
Context (clock : nat -> string) (R : Prop).

Local Abbreviation keeps := (Cli.keeps held False R).

Lemma held_console (s : state) (stdin' : list string) (out' : list event)
    (ticks' : nat) :
  suffix stdin' (st_stdin s) -> held s ->
  held (State (st_todos s) (st_files s) stdin' out' ticks').
Proof. by intros _ Hs. Qed.

(** An operation that saves the list it leaves, or leaves list and file
    as they were. *)
Lemma held_engine {A : Type} (op : list Todo -> world -> ran A) :
  (forall todos w,
     (mem (op todos w) = todos /\ disk (op todos w) = w)
     \/ disk (op todos w) = save_todos (mem (op todos w)) w) ->
  keeps (engine op) (fun _ => True).
Proof.
  intros Hop s Hs. unfold engine. cbv zeta.
  assert (held (State (mem (op (st_todos s) (st_files s)))
                      (disk (op (st_todos s) (st_files s)))
                      (st_stdin s) (st_out s) (st_ticks s))) as H.
  { unfold held. simpl. destruct (Hop (st_todos s) (st_files s)) as [[-> ->]| ->].
    - exact Hs.
    - apply holds_saved. }
  by destruct (outcome _).
Qed.

Lemma held_add (title description : string) (due : option string) :
  keeps (add clock title description due) (fun _ => True).
Proof.
  intros s Hs. unfold add, engine. simpl. split; [|done]. apply holds_saved.
Qed.

Lemma held_update (todo_id : Z) (title desc due : option string) (clear_due : bool) :
  keeps (engine (fun todos =>
                   update_todo_fields todos todo_id title desc due clear_due))
        (fun _ => True).
Proof.
  apply held_engine. intros todos w. unfold update_todo_fields.
  destruct (ref_by_id todos todo_id); [by right | by left].
Qed.

Lemma held_complete (todo_id : Z) (completed : bool) :
  keeps (engine (fun todos => set_complete todos todo_id completed)) (fun _ => True).
Proof.
  apply held_engine. intros todos w. unfold set_complete.
  destruct (ref_by_id todos todo_id); [by right | by left].
Qed.

Lemma held_delete (todo_id : Z) :
  keeps (engine (fun todos => delete_todo todos todo_id)) (fun _ => True).
Proof.
  apply held_engine. intros todos w. unfold delete_todo.
  destruct (find_by_id todos todo_id) as [t|]; [|by left].
  destruct (list_remove t todos); [by right | by left].
Qed.

Lemma held_load : keeps load (fun _ => True).
Proof.
  intros s Hs. unfold load. pose proof Hs as Hh. unfold held, holds in Hh.
  destruct (load_todos (st_files s)) as [objects lines] eqn:E. simpl in Hh.
  rewrite Hh. split; [|done]. unfold held, holds. simpl. by rewrite E.
Qed.

Lemma held_guarded (line : string) :
  (PyStr.strip line = "9" -> R) -> keeps (guarded clock line) (fun _ => True).
Proof.
  apply (keeps_guarded clock false); [apply held_console | intros; apply held_add
    | intros; apply held_update | intros; apply held_complete
    | intros; apply held_delete | apply held_load].
Qed.

End Held.

Section Turns.
Import Cli.
Context (clock : nat -> string).

(** A turn, by the input that waits. *)
Lemma turn_eq (s : state) :
  turn clock s =
  let out := (st_out s ++ map (fun l => Print [Lit l]) MENU) ++ [Ask "Choose: "] in
  match st_stdin s with
  | [] => Eof (State (st_todos s) (st_files s) [] out (st_ticks s))
  | line :: rest =>
      guarded clock line (State (st_todos s) (st_files s) rest out (st_ticks s))
  end.
Proof. unfold turn, bind, emit, input. simpl. by destruct (st_stdin s). Qed.

(** The handler of a turn catches every [ValueError]. *)
Lemma guarded_catches (line : string) (s s' : state) (e : failure) :
  guarded clock line s <> Exc e s'.
Proof.
  unfold guarded, try_except.
  by destruct (bind (choose clock (PyStr.strip line)) (fun _ => load) s).
Qed.

Lemma loop_ends (stdin0 : list string) (turns : nat) (s : state) :
  suffix (st_stdin s) stdin0 -> (length (st_stdin s) < turns)%nat ->
  match loop clock turns s with
  | Exits _ => exists line, In line stdin0 /\ PyStr.strip line = "9"
  | DiesOfEOF _ | UntypedRecords _ => True
  | DiesOfValueError _ _ | Unfinished _ => False
  end.
Proof.
  revert s. induction turns as [|turns IH]; intros s Hsuf Hlen; [lia|].
  simpl. rewrite turn_eq. cbv zeta.
  destruct (st_stdin s) as [|line rest] eqn:E; [done|].
  set (s2 := State _ _ rest _ _).
  assert (within stdin0 (length rest) s2) as Hw.
  { split; simpl; [|done]. etransitivity; [|exact Hsuf]. by apply suffix_cons_r. }
  pose proof (within_guarded clock stdin0 (length rest) (PyStr.strip line = "9") line
                (fun H => H) s2 Hw) as Hk.
  simpl in Hlen.
  destruct (guarded clock line s2) as [[] s'|e s'|s'|s'|s'|s'] eqn:G.
  - destruct Hk as [[H1 H2] _]. apply IH; [done | lia].
  - by apply guarded_catches in G.
  - done.
  - destruct Hk as [H1 H2]. apply IH; [done | lia].
  - destruct Hk as [_ H9]. exists line. split; [|done].
    destruct Hsuf as [k ->]. apply in_or_app. right. by left.
  - done.
Qed.

Lemma loop_sound (turns : nat) (s : state) :
  sound true s ->
  sound true (last_state (loop clock turns s)) /\
  match loop clock turns s with
  | DiesOfValueError _ _ | UntypedRecords _ => False
  | _ => True
  end.
Proof.
  revert s. induction turns as [|turns IH]; intros s Hs; [done|].
  simpl. rewrite turn_eq. cbv zeta.
  destruct (st_stdin s) as [|line rest] eqn:E.
  { split; [|done]. exact Hs. }
  set (s2 := State _ _ rest _ _).
  assert (sound true s2) as Hs2.
  { exact Hs. }
  pose proof (sound_guarded clock true True line (fun _ => I) s2 Hs2) as Hk.
  destruct (guarded clock line s2) as [[] s'|e s'|s'|s'|s'|s'] eqn:G.
  - apply IH. by destruct Hk.
  - by apply guarded_catches in G.
  - done.
  - by apply IH.
  - by destruct Hk.
  - done.
Qed.

Lemma loop_held (turns : nat) (s : state) :
  held s ->
  held (last_state (loop clock turns s)) /\
  match loop clock turns s with
  | DiesOfValueError _ _ | UntypedRecords _ => False
  | _ => True
  end.
Proof.
  revert s. induction turns as [|turns IH]; intros s Hs; [done|].
  simpl. rewrite turn_eq. cbv zeta.
  destruct (st_stdin s) as [|line rest] eqn:E.
  { split; [|done]. exact Hs. }
  set (s2 := State _ _ rest _ _).
  assert (held s2) as Hs2.
  { exact Hs. }
  pose proof (held_guarded clock True line (fun _ => I) s2 Hs2) as Hk.
  destruct (guarded clock line s2) as [[] s'|e s'|s'|s'|s'|s'] eqn:G.
  - apply IH. by destruct Hk.
  - by apply guarded_catches in G.
  - done.
  - by apply IH.
  - by destruct Hk.
  - done.
Qed.

Lemma load_start (stdin : list string) (w : world) (todos : list Todo) :
  holds w todos ->
  load (start stdin w) =
    Val tt (State todos w stdin (map (fun l => Print [Lit l]) (load_todos w).2) O).
Proof.
  unfold holds, load. simpl. destruct (load_todos w) as [objects lines]. simpl.
  by intros ->.
Qed.

(** The first load never ends in [continue], [return] or an error. *)
Lemma load_flows (s : state) :
  match load s with
  | Val _ s' | Untyped s' => st_stdin s' = st_stdin s
  | _ => False
  end.
Proof.
  unfold load. destruct (load_todos (st_files s)) as [objects lines].
  by destruct (mapM typed objects).
Qed.

End Turns.

(** X16: when the load of the backing file gives records whose fields
    have the annotated types, as it does when there is no file, when the
    file holds no JSON text, and on every file the program saved, then
    whatever lines wait on the input, [interactive_menu] comes to an end
    within one turn per line and one more: it returns, and then one of the
    lines, stripped, is "9", or it dies of the end of the input.  No
    [ValueError] escapes it, no later load finds records of other types,
    and at the end the file holds the list in memory. *)
Theorem interactive_menu_ends (clock : nat -> string) (stdin : list string)
    (w : world) (todos : list Todo) :
  holds w todos ->
  let e := Cli.interactive_menu clock stdin w in
  match e with
  | Cli.Exits _ => exists line, In line stdin /\ PyStr.strip line = "9"
  | Cli.DiesOfEOF _ => True
  | Cli.UntypedRecords _ | Cli.DiesOfValueError _ _ | Cli.Unfinished _ => False
  end /\
  holds (Cli.st_files (Cli.last_state e)) (Cli.st_todos (Cli.last_state e)).
Proof.
  intros Hh e. subst e. unfold Cli.interactive_menu.
  rewrite (load_start stdin w todos Hh).
  set (s := Cli.State todos w stdin _ O).
  assert (held s) as Hs by done.
  destruct (loop_held clock (S (length stdin)) s Hs) as [H1 H2].
  pose proof (loop_ends clock stdin (S (length stdin)) s) as H3.
  split; [|exact H1].
  destruct (Cli.loop clock (S (length stdin)) s) as [s'|s'|? s'|s'|s'] eqn:E;
    try done.
  - apply H3; simpl; [done | lia].
  - apply H3; simpl; [done | lia].
Qed.

Lemma interactive_menu_ends_witness :
  let clock := fun _ : nat => "2025-01-01 10:00" in
  let w := mkworld (Some Garbled) 0 in
  let e := Cli.interactive_menu clock ["1"; "milk"; ""; "buy"; "2025-02-30"; "8"; "x"] w in
  holds (Cli.st_files (Cli.last_state e)) (Cli.st_todos (Cli.last_state e)).
Proof.
  intros clock w e.
  refine (proj2 (interactive_menu_ends clock
                   ["1"; "milk"; ""; "buy"; "2025-02-30"; "8"; "x"] w [] _)).
  reflexivity.
Defined.

(** X17: when the file holds typed records with unique ids, due texts that
    parse, and titles and descriptions that are not empty, then whatever is
    typed, [interactive_menu] returns or dies of the end of the input, and
    at that moment the file holds the list in memory, which again has
    unique ids, due texts that parse, and titles and descriptions that are
    not empty. *)
Theorem interactive_menu_keeps_tidy (clock : nat -> string) (stdin : list string)
    (w : world) (todos : list Todo) :
  holds w todos -> tidy true todos ->
  let e := Cli.interactive_menu clock stdin w in
  (exists s, e = Cli.Exits s \/ e = Cli.DiesOfEOF s) /\
  holds (Cli.st_files (Cli.last_state e)) (Cli.st_todos (Cli.last_state e)) /\
  tidy true (Cli.st_todos (Cli.last_state e)).
Proof.
  intros Hh Ht e. subst e. unfold Cli.interactive_menu.
  rewrite (load_start stdin w todos Hh).
  set (s := Cli.State todos w stdin _ O).
  assert (sound true s) as Hs by done.
  destruct (loop_sound clock (S (length stdin)) s Hs) as [[H1 H2] H3].
  pose proof (loop_ends clock stdin (S (length stdin)) s) as H4.
  split; [|done].
  destruct (Cli.loop clock (S (length stdin)) s) as [s'|s'|? s'|s'|s'] eqn:E;
    try done.
  - exists s'. by left.
  - exists s'. by right.
  - exfalso. apply H4; simpl; [done | lia].
Qed.

Lemma interactive_menu_keeps_tidy_witness :
  let clock := fun _ : nat => "2025-01-01 10:00" in
  let w := mkworld None 0 in
  let e := Cli.interactive_menu clock ["1"; "milk"; "buy"; "soon"; "9"] w in
  tidy true (Cli.st_todos (Cli.last_state e)).
Proof.
  intros clock w e.
  refine (proj2 (proj2 (interactive_menu_keeps_tidy clock
                          ["1"; "milk"; "buy"; "soon"; "9"] w [] _ _))).
  - reflexivity.
  - split; [constructor|]. split; [constructor|]. intros _. constructor.
Defined.

(** ** [prompt_non_empty] *)

Lemma prompt_lines_first_answer (prompt : string) (lines : list string)
    (out : list Cli.event) :
  match (Cli.prompt_lines prompt lines out).1 with
  | (Some v, rest) =>
      exists blanks line,
        lines = blanks ++ line :: rest /\
        Forall (fun l => PyStr.strip l = "") blanks /\
        v = PyStr.strip line /\ v <> ""
  | (None, rest) => Forall (fun l => PyStr.strip l = "") lines /\ rest = []
  end.
Proof.
  revert out. induction lines as [|line rest IH]; intros out; simpl; [done|].
  destruct (PyStr.strip line) as [|c v] eqn:E; simpl.
  - specialize (IH (out ++ [Cli.Ask prompt;
                            Cli.Print [Cli.Lit "Please enter a value (cannot be empty)."]])).
    destruct (Cli.prompt_lines prompt rest _) as [[[v|] rest'] out']; simpl in *.
    + destruct IH as (blanks & l & -> & Hb & Hv & Hne).
      exists (line :: blanks), l. split_and!; [done | by constructor | done..].
    + destruct IH as [Hb ->]. split; [by constructor | done].
  - exists [], line. by rewrite E.
Qed.

(** X18: [prompt_non_empty] skips the lines that are blank, asking again
    for each, and returns the first line that is not, without the white
    space at its ends; when only blank lines are left it dies of the end
    of the input.  It touches neither the list nor the file. *)
Theorem prompt_non_empty_first_answer (prompt : string) (s : Cli.state) :
  match Cli.prompt_non_empty prompt s with
  | Cli.Val v s' =>
      (exists blanks line,
         Cli.st_stdin s = blanks ++ line :: Cli.st_stdin s' /\
         Forall (fun l => PyStr.strip l = "") blanks /\
         v = PyStr.strip line /\ v <> "") /\
      Cli.st_todos s' = Cli.st_todos s /\ Cli.st_files s' = Cli.st_files s
  | Cli.Eof s' =>
      Forall (fun l => PyStr.strip l = "") (Cli.st_stdin s) /\
      Cli.st_stdin s' = [] /\
      Cli.st_todos s' = Cli.st_todos s /\ Cli.st_files s' = Cli.st_files s
  | _ => False
  end.
Proof.
  unfold Cli.prompt_non_empty.
  pose proof (prompt_lines_first_answer prompt (Cli.st_stdin s) (Cli.st_out s)) as H.
  destruct (Cli.prompt_lines prompt (Cli.st_stdin s) (Cli.st_out s)) as [[[v|] rest] out].
  - simpl in *. by split.
  - simpl in *. destruct H as [Hb ->]. by split_and!.
Qed.

(** ** [main] *)

Section Main.
Import Cli.
Context (clock : nat -> string).

Lemma command_flows (a : args) (s : state) :
  match command clock a s with
  | Val _ s' | Exc _ s' => st_stdin s' = st_stdin s
  | _ => False
  end.
Proof.
  destruct a; unfold command, bind.
  - destruct due; unfold parse, ret; [destruct (parse_due_date _)|]; simpl; done.
  - done.
  - unfold engine. by destruct (outcome _).
  - unfold engine. by destruct (outcome _).
  - destruct due; unfold parse, ret; [destruct (parse_due_date _); [|done]|];
      unfold engine; by destruct (outcome _).
  - unfold engine. by destruct (outcome _).
Qed.

Lemma main_eq (a : args) (stdin : list string) (w : world) (todos : list Todo) :
  holds w todos ->
  main clock (Some a) stdin w =
  let s := State todos w stdin (map (fun l => Print [Lit l]) (load_todos w).2) O in
  match command clock a s with
  | Exc e s' =>
      Exits (State (st_todos s') (st_files s') (st_stdin s')
               (st_out s' ++ [Print [Lit "Error: "; Failure e]]) (st_ticks s'))
  | other => finish other
  end.
Proof.
  intros Hh. unfold main, bind. rewrite (load_start stdin w todos Hh).
  unfold try_except. cbv zeta. by destruct (command clock a _).
Qed.

End Main.

(** X19: a command of [main] on a file of typed records with unique ids
    and due texts that parse ends by returning, without reading the input,
    and then the file holds the list in memory, with unique ids and due
    texts that parse: the command line stores no due date that does not
    validate. *)
Theorem main_keeps_tidy (clock : nat -> string) (a : Cli.args)
    (stdin : list string) (w : world) (todos : list Todo) :
  holds w todos -> tidy false todos ->
  exists s,
    Cli.main clock (Some a) stdin w = Cli.Exits s /\
    Cli.st_stdin s = stdin /\
    holds (Cli.st_files s) (Cli.st_todos s) /\
    tidy false (Cli.st_todos s).
Proof.
  intros Hh Ht. rewrite (main_eq clock a stdin w todos Hh). cbv zeta.
  set (s := Cli.State todos w stdin _ O).
  assert (sound false s) as Hs by done.
  pose proof (sound_command clock false False a eq_refl s Hs) as Hk.
  pose proof (command_flows clock a s) as Hf.
  destruct (Cli.command clock a s) as [[] s'|e s'|s'|s'|s'|s']; try done.
  - exists s'. by destruct Hk as [[? ?] _].
  - eexists. split; [done|]. simpl. by destruct Hk.
Qed.

Lemma main_keeps_tidy_witness :
  let clock := fun _ : nat => "2025-01-01 10:00" in
  let todos := [Todo.mk 1 "a" "" (Some "2025-03-01") false "c"] in
  let w := save_todos todos (mkworld None 0) in
  exists s,
    Cli.main clock (Some (Cli.CmdAdd "b" "" (Some " 2025-04-01 "))) [] w = Cli.Exits s /\
    tidy false (Cli.st_todos s).
Proof.
  intros clock todos w.
  destruct (main_keeps_tidy clock (Cli.CmdAdd "b" "" (Some " 2025-04-01 ")) [] w todos)
    as (s & H1 & _ & _ & H2).
  - reflexivity.
  - split; [|split].
    + change (NoDup [1]). apply (bool_decide_unpack _). vm_compute. exact I.
    + constructor; [|constructor]. right. eexists. reflexivity.
    + intros H. discriminate H.
  - exists s. split; [exact H1 | exact H2].
Defined.

(** X20: when the due text of an add or an update command does not
    validate, [main] prints the error and returns with list and file as
    they were: nothing is created, and for an update the id is not even
    looked up. *)
Theorem main_rejects_bad_date (clock : nat -> string) (stdin : list string)
    (w : world) (todos : list Todo) (text : string) (e : ValueError) :
  holds w todos -> parse_due_date (Some text) = Raised e ->
  let left := Cli.Exits (Cli.State todos w stdin
      (map (fun l => Cli.Print [Cli.Lit l]) (load_todos w).2
       ++ [Cli.Print [Cli.Lit "Error: "; Cli.Failure (Cli.Engine e)]]) O) in
  (forall title description,
     Cli.main clock (Some (Cli.CmdAdd title description (Some text))) stdin w = left) /\
  (forall id title desc clear_due,
     Cli.main clock (Some (Cli.CmdUpdate id title desc (Some text) clear_due)) stdin w
     = left).
Proof.
  intros Hh Hp left. split; intros; rewrite (main_eq clock _ stdin w todos Hh);
    cbv zeta; unfold Cli.command, Cli.bind, Cli.parse; by rewrite Hp.
Qed.

Lemma main_rejects_bad_date_witness :
  let clock := fun _ : nat => "2025-01-01 10:00" in
  let todos := [Todo.mk 1 "a" "" None false "c"] in
  let w := save_todos todos (mkworld None 0) in
  Cli.main clock (Some (Cli.CmdUpdate 1 (Some "x") None (Some "2025-02-30") false)) [] w
  = Cli.Exits (Cli.State todos w []
      [Cli.Print [Cli.Lit "Error: "; Cli.Failure (Cli.Engine DateOutOfRange)]] O).
Proof.
  intros clock todos w.
  destruct (main_rejects_bad_date clock [] w todos "2025-02-30" DateOutOfRange
              eq_refl eq_refl) as [_ H].
  exact (H 1 (Some "x") None false).
Defined.

(** X21: when no record has the id, the done, reopen and delete commands
    of [main] print the not-found error and return with list and file as
    they were; so does the update command when its due text validates or
    is absent.  When its due text does not validate, the update command
    prints the error of the date instead, list and file again as they
    were. *)
Theorem main_not_found (clock : nat -> string) (stdin : list string)
    (w : world) (todos : list Todo) (id : Z) :
  holds w todos -> ~ In id (ids todos) ->
  let left := Cli.Exits (Cli.State todos w stdin
      (map (fun l => Cli.Print [Cli.Lit l]) (load_todos w).2
       ++ [Cli.Print [Cli.Lit "Error: "; Cli.Failure (Cli.Engine NotFound)]]) O) in
  Cli.main clock (Some (Cli.CmdDone id)) stdin w = left /\
  Cli.main clock (Some (Cli.CmdReopen id)) stdin w = left /\
  Cli.main clock (Some (Cli.CmdDelete id)) stdin w = left /\
  (forall title desc due d clear_due,
     parse_due_date due = Returned d ->
     Cli.main clock (Some (Cli.CmdUpdate id title desc due clear_due)) stdin w = left) /\
  (forall title desc due e clear_due,
     parse_due_date due = Raised e ->
     Cli.main clock (Some (Cli.CmdUpdate id title desc due clear_due)) stdin w
     = Cli.Exits (Cli.State todos w stdin
         (map (fun l => Cli.Print [Cli.Lit l]) (load_todos w).2
          ++ [Cli.Print [Cli.Lit "Error: "; Cli.Failure (Cli.Engine e)]]) O)).
Proof.
  intros Hh Hn%find_by_id_None left.
  pose proof (proj2 (ref_by_id_None todos id) Hn) as Hr.
  split_and!; intros; rewrite (main_eq clock _ stdin w todos Hh); cbv zeta;
    unfold Cli.command, Cli.bind, Cli.engine, Cli.parse, Cli.ret,
      set_complete, delete_todo, update_todo_fields; simpl.
  - by rewrite Hr.
  - by rewrite Hr.
  - by rewrite Hn.
  - destruct due; [rewrite H|]; simpl; by rewrite Hr.
  - destruct due; [by rewrite H | discriminate H].
Qed.

Lemma main_not_found_witness :
  let clock := fun _ : nat => "2025-01-01 10:00" in
  let todos := [Todo.mk 1 "a" "" None false "c"] in
  let w := save_todos todos (mkworld None 0) in
  Cli.main clock (Some (Cli.CmdDelete 5)) [] w
  = Cli.Exits (Cli.State todos w []
      [Cli.Print [Cli.Lit "Error: "; Cli.Failure (Cli.Engine NotFound)]] O).
Proof.
  intros clock todos w.
  destruct (main_not_found clock [] w todos 5) as (_ & _ & H & _).
  - reflexivity.
  - simpl. intros [H|[]]. discriminate H.
  - exact H.
Defined.

(** X22: on a backing file whose text is no JSON document, the add
    command of [main] with a due text that validates, or with none, prints
    the warning, creates the record with id 1 and replaces the file by a
    file of that one record: the text the file held is gone.  With a due
    text that does not validate it prints the warning and the error of the
    date, and the file is left as it was. *)
Theorem main_add_replaces_garbled_file (clock : nat -> string)
    (stdin : list string) (w : world) (title description : string)
    (due : option string) :
  data_file w = Some Garbled ->
  (forall d, parse_due_date due = Returned d ->
     let t := Todo.mk 1 (PyStr.strip title) (PyStr.strip description) d false
                      (clock O) in
     Cli.main clock (Some (Cli.CmdAdd title description due)) stdin w
     = Cli.Exits (Cli.State [t] (save_todos [t] w) stdin
         [Cli.Print [Cli.Lit WARNING];
          Cli.Print [Cli.Lit "Added to-do #"; Cli.Num 1; Cli.Lit ": ";
                     Cli.Lit (PyStr.strip title)]] 1) /\
     data_file (save_todos [t] w) = Some (Json (PList [asdict t])) /\
     load_todos (save_todos [t] w) = ([dyn t], [])) /\
  (forall e, parse_due_date due = Raised e ->
     Cli.main clock (Some (Cli.CmdAdd title description due)) stdin w
     = Cli.Exits (Cli.State [] w stdin
         [Cli.Print [Cli.Lit WARNING];
          Cli.Print [Cli.Lit "Error: "; Cli.Failure (Cli.Engine e)]] 0)).
Proof.
  intros Hw. destruct w as [f n]. simpl in Hw. subst f. split.
  - intros d Hd t. split; [|split; reflexivity].
    unfold Cli.main, Cli.bind, Cli.load, Cli.try_except, Cli.command, Cli.parse,
      Cli.ret. simpl.
    destruct due as [text|]; [rewrite Hd | injection Hd as <-]; reflexivity.
  - intros e He.
    unfold Cli.main, Cli.bind, Cli.load, Cli.try_except, Cli.command, Cli.parse.
    simpl. destruct due as [text|]; [by rewrite He | discriminate He].
Qed.

Lemma main_add_replaces_garbled_file_witness :
  let clock := fun _ : nat => "2025-01-01 10:00" in
  let t := Todo.mk 1 "milk" "buy" (Some "2025-03-01") false "2025-01-01 10:00" in
  Cli.main clock (Some (Cli.CmdAdd " milk " "buy" (Some " 2025-03-01"))) []
    (mkworld (Some Garbled) 0)
  = Cli.Exits (Cli.State [t] (save_todos [t] (mkworld (Some Garbled) 0)) []
      [Cli.Print [Cli.Lit WARNING];
       Cli.Print [Cli.Lit "Added to-do #"; Cli.Num 1; Cli.Lit ": "; Cli.Lit "milk"]] 1).
Proof.
  intros clock t.
  destruct (main_add_replaces_garbled_file clock [] (mkworld (Some Garbled) 0)
              " milk " "buy" (Some " 2025-03-01") eq_refl) as [H _].
  exact (proj1 (H (Some "2025-03-01") eq_refl)).
Defined.

(** ** A creation in the menu *)

Section MenuAdd.
Import Cli.
Context (clock : nat -> string).

Lemma prompt_non_empty_answer (prompt line : string) (todos : list Todo) (w : world)
    (rest : list string) (out : list event) (k : nat) :
  PyStr.strip line <> "" ->
  prompt_non_empty prompt (State todos w (line :: rest) out k)
  = Val (PyStr.strip line) (State todos w rest (out ++ [Ask prompt]) k).
Proof. intros Hne. unfold prompt_non_empty. simpl. by destruct (PyStr.strip line). Qed.

Lemma load_after_save (todos : list Todo) (w : world) (stdin : list string)
    (out : list event) (k : nat) :
  load (State todos (save_todos todos w) stdin out k)
  = Val tt (State todos (save_todos todos w) stdin (out ++ []) k).
Proof.
  unfold load. cbn [st_files st_out st_stdin st_ticks].
  rewrite load_saved, mapM_typed_dyn. done.
Qed.

Lemma parse_due_date_strip (text : string) :
  parse_due_date (Some (PyStr.strip text)) = parse_due_date (Some text).
Proof. by rewrite !parse_due_date_cases, strip_idem. Qed.

Lemma menu_add_turn (s : state) (title desc due : string) (rest : list string)
    (d : option string) (note : list event) :
  st_stdin s = "1" :: title :: desc :: due :: rest ->
  PyStr.strip title <> "" -> PyStr.strip desc <> "" ->
  (PyStr.strip due = "" /\ d = None /\ note = []
   \/ PyStr.strip due <> "" /\ parse_due_date (Some due) = Returned d /\ note = []
   \/ PyStr.strip due <> "" /\ (exists e, parse_due_date (Some due) = Raised e) /\
      d = None /\ note = [Print [Lit "Invalid date format. Skipping due date."]]) ->
  let t := Todo.mk (next_id (st_todos s)) (PyStr.strip title) (PyStr.strip desc) d
                   false (clock (st_ticks s)) in
  let todos := st_todos s ++ [t] in
  turn clock s =
    Val tt (State todos (save_todos todos (st_files s)) rest
              (((((((st_out s ++ map (fun l => Print [Lit l]) MENU)
                    ++ [Ask "Choose: "]) ++ [Ask "Title: "]) ++ [Ask "Description: "])
                 ++ [Ask "Due date (YYYY-MM-DD) (optional): "]) ++ note)
                ++ [Print [Lit "Added #"; Num (Todo.id t); Lit ("." ++ nl)%string]])
              (S (st_ticks s))).
Proof.
  intros Hin Hti Hde Hdue t todos. rewrite turn_eq, Hin. cbv zeta.
  unfold guarded, try_except.
  change (PyStr.strip "1") with "1". unfold choose. simpl String.eqb. cbv iota.
  unfold bind at 1. unfold bind at 1.
  rewrite (prompt_non_empty_answer _ _ _ _ _ _ _ Hti).
  unfold bind at 1. rewrite (prompt_non_empty_answer _ _ _ _ _ _ _ Hde).
  unfold bind at 1. unfold input at 1. cbn [st_stdin st_todos st_files st_out st_ticks].
  unfold bind at 1.
  assert (forall s0 : state,
            (if PyStr.truthy (PyStr.strip due)
             then try_except (parse (Some (PyStr.strip due)))
                    (fun _ => bind (say "Invalid date format. Skipping due date.")
                                (fun _ => ret None))
             else ret None) s0
            = Val d (State (st_todos s0) (st_files s0) (st_stdin s0) (st_out s0 ++ note)
                       (st_ticks s0))) as Hd.
  { intros s0. unfold try_except, parse. rewrite parse_due_date_strip.
    destruct Hdue as [(E & -> & ->)|[(E & Hp & ->)|(E & [e Hp] & -> & ->)]].
    - rewrite E. unfold PyStr.truthy, ret. rewrite app_nil_r. by destruct s0.
    - destruct (PyStr.strip due); [done|]. unfold PyStr.truthy. rewrite Hp.
      rewrite app_nil_r. by destruct s0.
    - destruct (PyStr.strip due); [done|]. unfold PyStr.truthy. by rewrite Hp. }
  rewrite Hd. cbn [st_stdin st_todos st_files st_out st_ticks].
  unfold bind at 1. unfold add, engine. cbn [st_stdin st_todos st_files st_out st_ticks].
  unfold add_todo. cbn [outcome mem disk]. rewrite !strip_idem. fold t. fold todos.
  unfold print, emit. cbn [st_stdin st_todos st_files st_out st_ticks].
  by rewrite load_after_save, app_nil_r.
Qed.

End MenuAdd.

(** X23: in the menu a creation goes through whatever is typed for the due
    date: the record is appended with the stripped title and description
    and with the validated due text, or without a due date when the text
    typed is blank or does not validate (a notice is printed then); the
    collection is saved and the next turn starts from it. *)
Theorem menu_add_skips_bad_date (clock : nat -> string) (s : Cli.state)
    (title desc due : string) (rest : list string) :
  Cli.st_stdin s = "1" :: title :: desc :: due :: rest ->
  PyStr.strip title <> "" -> PyStr.strip desc <> "" ->
  exists out,
    let d := match parse_due_date (Some due) with
             | Returned d => d
             | Raised _ => None
             end in
    let t := Todo.mk (next_id (Cli.st_todos s)) (PyStr.strip title) (PyStr.strip desc)
                     d false (clock (Cli.st_ticks s)) in
    let todos := Cli.st_todos s ++ [t] in
    Cli.turn clock s =
      Cli.Val tt (Cli.State todos (save_todos todos (Cli.st_files s)) rest out
                    (S (Cli.st_ticks s))).
Proof.
  intros Hin Hti Hde.
  destruct (String.eqb_spec (PyStr.strip due) "") as [E|E].
  - eexists. cbv zeta. rewrite parse_due_date_cases, E. simpl.
    rewrite (menu_add_turn clock s title desc due rest None [] Hin Hti Hde);
      [reflexivity|]. by left.
  - destruct (parse_due_date (Some due)) as [d|e] eqn:Hp.
    + eexists. rewrite (menu_add_turn clock s title desc due rest d [] Hin Hti Hde);
        [reflexivity|]. right. by left.
    + eexists.
      rewrite (menu_add_turn clock s title desc due rest None
                 [Cli.Print [Cli.Lit "Invalid date format. Skipping due date."]]
                 Hin Hti Hde);
        [reflexivity|]. right. right. split_and!; [done | by exists e | done..].
Qed.

Lemma menu_add_skips_bad_date_witness :
  let clock := fun _ : nat => "2025-01-01 10:00" in
  let s := Cli.State [] (mkworld None 0) ["1"; " milk "; "buy"; "tomorrow"; "9"] [] O in
  exists out,
    Cli.turn clock s =
      Cli.Val tt (Cli.State [Todo.mk 1 "milk" "buy" None false "2025-01-01 10:00"]
                    (save_todos [Todo.mk 1 "milk" "buy" None false "2025-01-01 10:00"]
                       (mkworld None 0)) ["9"] out 1).
Proof.
  intros clock s.
  destruct (menu_add_skips_bad_date clock s " milk " "buy" "tomorrow" ["9"] eq_refl)
    as [out H].
  - discriminate.
  - discriminate.
  - exists out. exact H.
Defined.

(** ** An update in the menu *)

Section MenuUpdate.
Import Cli.
Context (clock : nat -> string).

Lemma menu_update_turn (s : state) (idline title desc due : string)
    (rest : list string) (todo_id : Z) (t : Todo) :
  st_stdin s = "5" :: idline :: title :: desc :: due :: rest ->
  py_int (PyStr.strip idline) = Some todo_id ->
  find_by_id (st_todos s) todo_id = Some t ->
  let new_due := PyStr.strip due in
  let clear_due := String.eqb new_due "-" in
  let due_arg :=
    if PyStr.truthy new_due && negb clear_due
    then match parse_due_date (Some due) with Returned d => d | Raised _ => None end
    else None in
  let r := update_todo_fields (st_todos s) todo_id
             (some_if_truthy (PyStr.strip title)) (some_if_truthy (PyStr.strip desc))
             due_arg clear_due (st_files s) in
  exists out,
    turn clock s = Val tt (State (mem r) (save_todos (mem r) (st_files s)) rest out
                             (st_ticks s)).
Proof.
  intros Hin Hid Hf new_due clear_due due_arg r.
  destruct (find_by_id_Some _ _ _ Hf) as (i & Hr & Hl & _).
  assert (r = Ran (Returned tt) (mem r) (save_todos (mem r) (st_files s))) as Hret.
  { subst r. by rewrite (update_todo_fields_found _ _ _ _ _ _ _ _ _ Hr Hl). }
  rewrite turn_eq, Hin. cbv zeta. unfold guarded, try_except.
  change (PyStr.strip "5") with "5". unfold choose. simpl String.eqb. cbv iota.
  unfold bind at 1. unfold bind at 1. unfold input at 1.
  cbn [st_stdin st_todos st_files st_out st_ticks].
  unfold bind at 1. unfold int at 1. rewrite Hid.
  unfold bind at 1. unfold the_todos at 1.
  cbn [st_stdin st_todos st_files st_out st_ticks]. rewrite Hf.
  unfold bind at 1. unfold say at 1, print at 1, emit at 1.
  cbn [st_stdin st_todos st_files st_out st_ticks].
  unfold bind at 1. unfold emit at 1.
  cbn [st_stdin st_todos st_files st_out st_ticks].
  unfold bind at 1. unfold say at 1, print at 1, emit at 1.
  cbn [st_stdin st_todos st_files st_out st_ticks].
  unfold bind at 1. unfold input at 1.
  cbn [st_stdin st_todos st_files st_out st_ticks].
  unfold bind at 1. unfold input at 1.
  cbn [st_stdin st_todos st_files st_out st_ticks].
  unfold bind at 1. unfold input at 1.
  cbn [st_stdin st_todos st_files st_out st_ticks].
  fold new_due. fold clear_due.
  set (checked := if PyStr.truthy new_due && negb clear_due then _ else _).
  assert (forall s0 : state, exists note new_due',
            checked s0 = Val (match parse_due_date (Some due) with
                              | Returned d => if PyStr.truthy new_due && negb clear_due
                                              then d else None
                              | Raised _ => None
                              end, new_due')
                           (State (st_todos s0) (st_files s0) (st_stdin s0)
                              (st_out s0 ++ note) (st_ticks s0)) /\
            (if PyStr.truthy new_due' then
               match parse_due_date (Some due) with
               | Returned d => if PyStr.truthy new_due && negb clear_due then d else None
               | Raised _ => None
               end
             else None) = due_arg) as Hc.
  { intros s0. subst checked due_arg.
    destruct (PyStr.truthy new_due && negb clear_due) eqn:Eb.
    - unfold try_except, bind, parse. subst new_due.
      rewrite parse_due_date_strip.
      apply andb_true_iff in Eb as [Et _].
      destruct (parse_due_date (Some due)) as [d|e] eqn:Hp.
      + exists [], (PyStr.strip due). rewrite app_nil_r, Et. split; [by destruct s0 | done].
      + exists [Print [Lit "Invalid due date; not changing it."]], "". by split.
    - exists [], new_due. rewrite app_nil_r. unfold ret. split.
      + destruct (parse_due_date (Some due)); by destruct s0.
      + by destruct (parse_due_date (Some due)), (PyStr.truthy new_due). }
  unfold bind at 1.
  match goal with |- context [checked ?s0] => destruct (Hc s0) as (note & nd & -> & Harg) end.
  cbv beta iota. rewrite Harg.
  unfold bind at 1. unfold engine at 1.
  cbn [st_stdin st_todos st_files st_out st_ticks]. fold r. rewrite Hret.
  cbn [outcome mem disk]. unfold say, print, emit.
  cbn [st_stdin st_todos st_files st_out st_ticks].
  rewrite load_after_save. by eexists.
Qed.

End MenuUpdate.

(** X24: an update in the menu, on the id of a record, changes that record
    alone: the title and the description become what was typed, stripped,
    when that is not blank, and stay when it is; the due date goes when "-"
    is typed for it, becomes the text typed when that validates, and stays
    when the text is blank or does not validate.  The collection is saved
    and the next turn starts from it. *)
Theorem menu_update_keeps_blank_fields (clock : nat -> string) (s : Cli.state)
    (idline title desc due : string) (rest : list string) (todo_id : Z) (t : Todo) :
  Cli.st_stdin s = "5" :: idline :: title :: desc :: due :: rest ->
  Cli.py_int (PyStr.strip idline) = Some todo_id ->
  find_by_id (Cli.st_todos s) todo_id = Some t ->
  exists out todos' t',
    Cli.turn clock s =
      Cli.Val tt (Cli.State todos' (save_todos todos' (Cli.st_files s)) rest out
                    (Cli.st_ticks s)) /\
    (exists i, Cli.st_todos s !! i = Some t /\ todos' = <[i := t']> (Cli.st_todos s)) /\
    find_by_id todos' todo_id = Some t' /\
    Todo.title t' = (if String.eqb (PyStr.strip title) "" then Todo.title t
                     else PyStr.strip title) /\
    Todo.description t' = (if String.eqb (PyStr.strip desc) "" then Todo.description t
                           else PyStr.strip desc) /\
    Todo.due_date t' =
      (if String.eqb (PyStr.strip due) "-" then None
       else if String.eqb (PyStr.strip due) "" then Todo.due_date t
       else match parse_due_date (Some due) with
            | Returned (Some d) => Some d
            | _ => Todo.due_date t
            end) /\
    Todo.id t' = Todo.id t /\ Todo.completed t' = Todo.completed t /\
    Todo.created_at t' = Todo.created_at t.
Proof.
  intros Hin Hid Hf.
  destruct (menu_update_turn clock s idline title desc due rest todo_id t Hin Hid Hf)
    as [out Hturn].
  cbv zeta in Hturn.
  destruct (find_by_id_Some _ _ _ Hf) as (i & Hr & Hl & _).
  rewrite (update_todo_fields_found _ _ _ _ _ _ _ _ _ Hr Hl) in Hturn.
  cbv zeta in Hturn. cbn [mem] in Hturn.
  eexists out, _, _. split; [exact Hturn|]. split; [by exists i|].
  split; [by apply (find_by_id_insert (Cli.st_todos s) todo_id i t)|].
  assert (forall v d, (if String.eqb v "" then d else v)
                      = match Cli.some_if_truthy v with Some x => x | None => d end) as Hs.
  { intros v d. by destruct v. }
  unfold updated. cbn [Todo.title Todo.description Todo.due_date Todo.id
                       Todo.completed Todo.created_at].
  split_and!; try done.
  - rewrite Hs. unfold Cli.some_if_truthy.
    destruct (PyStr.truthy (PyStr.strip title)); [by rewrite strip_idem | done].
  - rewrite Hs. unfold Cli.some_if_truthy.
    destruct (PyStr.truthy (PyStr.strip desc)); [by rewrite strip_idem | done].
  - destruct (String.eqb (PyStr.strip due) "-"); [done|]. rewrite andb_true_r.
    generalize (parse_due_date (Some due)). intros p.
    destruct (PyStr.strip due) as [|c r]; [done|]. simpl.
    by destruct p as [[d|]|e].
Qed.

Lemma menu_update_keeps_blank_fields_witness :
  let clock := fun _ : nat => "2025-01-01 10:00" in
  let t := Todo.mk 7 "milk" "buy" (Some "2025-03-01") false "c" in
  let s := Cli.State [t] (mkworld None 0) ["5"; " 7"; ""; " two "; "-"; "9"] [] O in
  exists out t',
    Cli.turn clock s =
      Cli.Val tt (Cli.State [t'] (save_todos [t'] (mkworld None 0)) ["9"] out O) /\
    Todo.title t' = "milk" /\ Todo.description t' = "two" /\ Todo.due_date t' = None.
Proof.
  intros clock t s.
  destruct (menu_update_keeps_blank_fields clock s " 7" "" " two " "-" ["9"] 7 t
              eq_refl eq_refl eq_refl)
    as (out & todos' & t' & Hturn & (i & Hi & Htodos) & _ & Hti & Hde & Hdu & _).
  exists out, t'. destruct i as [|i]; [|discriminate Hi].
  simpl in Htodos. rewrite Htodos in Hturn.
  split; [exact Hturn|]. split; [exact Hti|]. split; [exact Hde | exact Hdu].
Defined.
